(** * SkillSync-AI: roadmap model, progress tracking, store adapter, step flow

    A shallow embedding of the client-side logic of the career-roadmap
    generator:

    - [components/RoadmapDetail.jsx] in its two revisions (the phase-based
      checklist view and the flat tool-list view),
    - [services/roadmapService.js] ([getUserRoadmaps] and the writers),
    - [components/InterestSelector.jsx] and [App.jsx] (the wizard).

    JavaScript objects are rendered as records whose optional properties are
    [option] fields ([None] is [undefined]); property access on [undefined]
    raises [TypeError], which the embedding makes explicit in the [result]
    type. *)

From Stdlib Require Import QArith Qround Qpower.
From Stdlib Require Import Lqa.
From stdpp Require Import base option list strings pretty sorting.

Local Open Scope string_scope.
Local Open Scope list_scope.

(** ** Exceptions *)

(** [JSError m] is [new Error(m)]; [RequestError] is the error of a
    failed HTTP request: its [message], and [response.data.message] when
    the server answered with one. *)
Inductive exception :=
| TypeError (msg : string)
| StoreError (msg : string)
| JSError (msg : string)
| RequestError (server_message : option string) (msg : string).

Inductive result (A : Type) :=
| Ok (a : A)
| Throw (e : exception).
Arguments Ok {A} a.
Arguments Throw {A} e.

(** [result] is a monad; [x ← m; k] sequences two steps and propagates the
    first exception. *)
Global Instance result_ret : MRet result := fun _ a => Ok a.
Global Instance result_bind : MBind result := fun _ _ k m =>
  match m with
  | Ok a => k a
  | Throw e => Throw e
  end.

(** [o.f] followed by a method call or property read: throws when the
    property is [undefined]. *)
Definition defined {A} (what : string) (o : option A) : result A :=
  match o with
  | Some a => Ok a
  | None => Throw (TypeError ("Cannot read properties of undefined (reading '" +:+ what +:+ "')"))
  end.

(** [xs.map(f)] where [f] may throw: the first exception aborts the map. *)
Fixpoint mapR {A B} (f : A -> result B) (xs : list A) : result (list B) :=
  match xs with
  | [] => Ok []
  | x :: xs' =>
      y ← f x;
      ys ← mapR f xs';
      Ok (y :: ys)
  end.

(** ** JavaScript numbers

    A number is a rational, one of the two infinities, or NaN.  Every
    arithmetic operation computes the exact result and rounds it to the
    nearest representable value with [rnd]; the functions below are
    parametric in [rnd].  Signed zeros are not distinguished: the operands
    in this program are array lengths and counters. *)

Module JS.

Inductive number :=
| Num (q : Q)
| Infinity
| NegInfinity
| NaN.

Definition of_nat (n : nat) : number := Num (inject_Z (Z.of_nat n)).

Definition sign_inf (nonneg : bool) : number :=
  if nonneg then Infinity else NegInfinity.

Section Arith.
Variable rnd : Q -> Q.

(** [a / b] *)
Definition div (a b : number) : number :=
  match a, b with
  | NaN, _ | _, NaN => NaN
  | Num x, Num y =>
      if Qeq_bool y 0
      then (if Qeq_bool x 0 then NaN else sign_inf (Qle_bool 0 x))
      else Num (rnd (x / y))
  | Num _, (Infinity | NegInfinity) => Num 0
  | Infinity, Num y => sign_inf (Qle_bool 0 y)
  | NegInfinity, Num y => sign_inf (negb (Qle_bool 0 y))
  | (Infinity | NegInfinity), (Infinity | NegInfinity) => NaN
  end.

(** [a * b] *)
Definition mul (a b : number) : number :=
  match a, b with
  | NaN, _ | _, NaN => NaN
  | Num x, Num y => Num (rnd (x * y))
  | Num x, Infinity | Infinity, Num x =>
      if Qeq_bool x 0 then NaN else sign_inf (Qle_bool 0 x)
  | Num x, NegInfinity | NegInfinity, Num x =>
      if Qeq_bool x 0 then NaN else sign_inf (negb (Qle_bool 0 x))
  | Infinity, Infinity | NegInfinity, NegInfinity => Infinity
  | Infinity, NegInfinity | NegInfinity, Infinity => NegInfinity
  end.
End Arith.

(** [Math.round(x)]: the integer nearest to [x], halves towards
    +Infinity; infinities and NaN are returned unchanged. *)
Definition round (x : number) : number :=
  match x with
  | Num q => Num (inject_Z (Qfloor (q + (1 # 2))))
  | other => other
  end.

(** The IEEE-754 binary64 rounding of a rational in the normal range:
    round to nearest, ties to even, with a significand of 53 bits. *)

(** The [e] with [2^e <= a < 2^(e+1)], for a positive [a]. *)
Definition exponent (a : Q) : Z :=
  let e0 := (Z.log2 (Qnum a) - Z.log2 (Zpos (Qden a)))%Z in
  if Qle_bool (2 ^ e0) a then e0 else (e0 - 1)%Z.

(** The integer nearest to [m], the even one of the two when [m] is half
    way. *)
Definition nearest_even (m : Q) : Z :=
  let f := Qfloor m in
  let r := (m - inject_Z f)%Q in
  if Qle_bool r (1 # 2)
  then (if Qeq_bool r (1 # 2) then (if Z.even f then f else f + 1)%Z else f)
  else (f + 1)%Z.

Definition round_pos (a : Q) : Q :=
  let ulp := (2 ^ (exponent a - 52))%Q in
  (inject_Z (nearest_even (a / ulp)) * ulp)%Q.

Definition binary64 (q : Q) : Q :=
  if Qeq_bool q 0 then 0%Q
  else if Qle_bool 0 q then Qred (round_pos q)
  else Qred (- round_pos (- q)).

(** Truthiness, for [a || b] and conditions. *)
Class Truthy (A : Type) := truthy : A -> bool.

Global Instance truthy_bool : Truthy bool := fun b => b.
Global Instance truthy_string : Truthy string :=
  fun s => negb (String.eqb s "").
Global Instance truthy_Z : Truthy Z := fun z => negb (Z.eqb z 0).
(** every array, also the empty one, is truthy *)
Global Instance truthy_list {A} : Truthy (list A) := fun _ => true.
Global Instance truthy_number : Truthy number :=
  fun x => match x with
           | Num q => negb (Qeq_bool q 0)
           | NaN => false
           | _ => true
           end.

(** [o.f || d] for an optional property [f] *)
Definition or_else {A} `{Truthy A} (o : option A) (d : A) : A :=
  match o with
  | Some a => if truthy a then a else d
  | None => d
  end.

End JS.

Notation "o '|||' d" := (JS.or_else o d) (at level 50, left associativity).

(** ** Data model

    The shapes of the documents held in the [roadmaps] collection and in the
    component state.  A checklist entry is either the bare string the
    generator returns or the structured item the detail view stores back. *)

Module Item.
(** [completed] is absent ([None]) on an item that was stored without
    it: [fetchRoadmap] passes every entry that is not a string through as
    it is. *)
Record t := mk {
  id : option string;
  text : string;
  completed : option bool
}.

(** [{ ...obj, completed: c }] *)
Definition with_completed (c : bool) (obj : t) : t :=
  {| id := id obj; text := text obj; completed := Some c |}.

(** [obj.completed] in a condition, and under [!]: an absent property is
    falsy. *)
Definition is_completed (obj : t) : bool := default false (completed obj).
End Item.

Inductive entry :=
| Bare (s : string)
| Structured (it : Item.t).

(** [entry.completed] in a condition: a string has no such property. *)
Definition entry_completed (e : entry) : bool :=
  match e with
  | Bare _ => false
  | Structured it => Item.is_completed it
  end.

(** [entry.id === itemId] for a string [itemId] *)
Definition entry_has_id (itemId : string) (e : entry) : bool :=
  match e with
  | Bare _ => false
  | Structured it => bool_decide (Item.id it = Some itemId)
  end.

Module Phase.
Record t := mk {
  id : option string;
  phase_number : option Z;
  title : option string;
  duration_weeks : option Z;
  tools_covered : option (list (option string));
  learning_objectives : option (list entry);
  milestones : option (list entry);
  expanded : option bool
}.

(** [{ ...phase, learning_objectives: los }] *)
Definition with_learning_objectives (los : list entry) (phase : t) : t :=
  {| id := id phase; phase_number := phase_number phase;
     title := title phase; duration_weeks := duration_weeks phase;
     tools_covered := tools_covered phase;
     learning_objectives := Some los;
     milestones := milestones phase; expanded := expanded phase |}.

(** [{ ...phase, milestones: mss }] *)
Definition with_milestones (mss : list entry) (phase : t) : t :=
  {| id := id phase; phase_number := phase_number phase;
     title := title phase; duration_weeks := duration_weeks phase;
     tools_covered := tools_covered phase;
     learning_objectives := learning_objectives phase;
     milestones := Some mss; expanded := expanded phase |}.
End Phase.

(** An element of [learningResources]. *)
Module Resource.
Record t := mk {
  toolName : option string;
  phase_number : option Z;
  duration_weeks : option Z;
  tools_covered : option (list (option string));
  learning_objectives : option (list entry);
  milestones : option (list entry)
}.
End Resource.

(** An element of [selectedTools] as [handleSaveRoadmap] writes it. *)
Module Tool.
Record t := mk {
  name : string;
  category : string;
  difficulty : string;
  estimatedTime : string;
  description : string
}.
End Tool.

(** A Firestore [Timestamp]. *)
Record Timestamp := { seconds : Z; nanoseconds : Z }.

(** The object [{ id: doc.id, ...doc.data() }] that the service builds
    from a stored document, which is also how the collection is held here.
    [doc_id] is the document id the literal starts with; [data_id] is the
    [id] property of the document data, if the data has one: the spread
    puts it in the place of the document id. *)
Module Roadmap.
Record t := mk {
  doc_id : string;
  data_id : option string;
  userId : string;
  createdAt : option Timestamp;
  updatedAt : option Timestamp;
  status : string;
  progress : option JS.number;
  phases : option (list Phase.t);
  learningResources : option (list Resource.t);
  selectedTools : option (list Tool.t);
  completedTools : option (list string);
  currentTool : option string
}.

(** [{ ...roadmap, phases: ps }], and [roadmapData.phases = ps] *)
Definition with_phases (ps : list Phase.t) (r : t) : t :=
  {| doc_id := doc_id r; data_id := data_id r;
     userId := userId r; createdAt := createdAt r;
     updatedAt := updatedAt r; status := status r;
     progress := progress r; phases := Some ps;
     learningResources := learningResources r;
     selectedTools := selectedTools r;
     completedTools := completedTools r; currentTool := currentTool r |}.

(** [{ ...roadmap, completedTools: cs, progress: p }] *)
Definition with_completion (cs : list string) (p : JS.number) (r : t) : t :=
  {| doc_id := doc_id r; data_id := data_id r;
     userId := userId r; createdAt := createdAt r;
     updatedAt := updatedAt r; status := status r;
     progress := Some p; phases := phases r;
     learningResources := learningResources r;
     selectedTools := selectedTools r;
     completedTools := Some cs; currentTool := currentTool r |}.

(** [roadmap.id] *)
Definition id (r : t) : string := default (doc_id r) (data_id r).
End Roadmap.

(** ** Progress (RoadmapDetail.jsx, phase-based revision) *)

Section Progress.
Variable rnd : Q -> Q.

(** The two counters [totalItems] and [completedItems] that the nested
    [forEach] loops update. *)
Record counters := { totalItems : nat; completedItems : nat }.

(** Body of the inner loops:
    [totalItems++; if (obj.completed) completedItems++;] *)
Definition count_entry (c : counters) (obj : entry) : counters :=
  {| totalItems := S (totalItems c);
     completedItems := if entry_completed obj
                       then S (completedItems c) else completedItems c |}.

(** [(xs || []).forEach(body)] *)
Definition forEach {A S} (xs : option (list A)) (body : S -> A -> S) (s : S) : S :=
  fold_left body (default [] xs) s.

(** Body of the outer loop. *)
Definition count_phase (c : counters) (phase : Phase.t) : counters :=
  let c := forEach (Phase.learning_objectives phase) count_entry c in
  forEach (Phase.milestones phase) count_entry c.

(** [totalItems > 0 ? Math.round((completedItems / totalItems) * 100) : 0] *)
Definition percentage (c : counters) : JS.number :=
  if (0 <? totalItems c)%nat
  then JS.round (JS.mul rnd
                   (JS.div rnd (JS.of_nat (completedItems c))
                               (JS.of_nat (totalItems c)))
                   (JS.of_nat 100))
  else JS.of_nat 0.

(** [calculateProgress()], reading the component state [roadmap]
    ([None] is [null]). *)
Definition calculateProgress (roadmap : option Roadmap.t) : JS.number :=
  match roadmap with
  | None => JS.of_nat 0
  | Some r =>
      match Roadmap.phases r with
      | None => JS.of_nat 0
      | Some ps =>
          percentage (fold_left count_phase ps
                        {| totalItems := 0; completedItems := 0 |})
      end
  end.

(** [calculateProgressFromRoadmap(roadmapData)] *)
Definition calculateProgressFromRoadmap (roadmapData : Roadmap.t) : JS.number :=
  percentage (forEach (Roadmap.phases roadmapData) count_phase
                {| totalItems := 0; completedItems := 0 |}).

(** [getPhaseProgress(phase)] *)
Definition getPhaseProgress (phase : Phase.t) : JS.number :=
  let objectives := default [] (Phase.learning_objectives phase) in
  let milestones := default [] (Phase.milestones phase) in
  let total := (length objectives + length milestones)%nat in
  if (total =? 0)%nat then JS.of_nat 0
  else
    let completed :=
      (length (filter (fun obj => entry_completed obj = true) objectives)
       + length (filter (fun ms => entry_completed ms = true) milestones))%nat in
    JS.round (JS.mul rnd (JS.div rnd (JS.of_nat completed) (JS.of_nat total))
                (JS.of_nat 100)).
End Progress.

(** ** Normalisation on load (RoadmapDetail.jsx, [fetchRoadmap])

    The identifiers of freshly wrapped checklist items are built from
    [Date.now()] and [Math.random()].  [stamp k] is the text
    [`${Date.now()}-${Math.random()}`] produced by the [k]-th evaluation;
    the number of evaluations so far is threaded through the functions. *)

Section Normalizer.
Variable stamp : nat -> string.

(** [typeof obj === 'string'
      ? { id: `<prefix>-${Date.now()}-${Math.random()}`, text: obj, completed: false }
      : obj] *)
Definition wrap_entry (prefix : string) (k : nat) (obj : entry) : entry * nat :=
  match obj with
  | Bare s =>
      (Structured {| Item.id := Some (prefix +:+ "-" +:+ stamp k);
                     Item.text := s;
                     Item.completed := Some false |}, S k)
  | Structured it => (Structured it, k)
  end.

(** [xs.map(obj => ...)] with the evaluation counter threaded left to
    right. *)
Fixpoint wrap_entries (prefix : string) (k : nat) (xs : list entry)
  : list entry * nat :=
  match xs with
  | [] => ([], k)
  | obj :: xs' =>
      let '(obj', k1) := wrap_entry prefix k obj in
      let '(xs'', k2) := wrap_entries prefix k1 xs' in
      (obj' :: xs'', k2)
  end.

(** [phase => ({ ...phase, learning_objectives: ..., milestones: ... })] *)
Definition init_checkboxes (k : nat) (phase : Phase.t) : Phase.t * nat :=
  let '(los, k1) :=
    wrap_entries "obj" k (default [] (Phase.learning_objectives phase)) in
  let '(mss, k2) :=
    wrap_entries "ms" k1 (default [] (Phase.milestones phase)) in
  (Phase.with_milestones mss (Phase.with_learning_objectives los phase), k2).

Fixpoint init_phases (k : nat) (ps : list Phase.t) : list Phase.t * nat :=
  match ps with
  | [] => ([], k)
  | phase :: ps' =>
      let '(phase', k1) := init_checkboxes k phase in
      let '(ps'', k2) := init_phases k1 ps' in
      (phase' :: ps'', k2)
  end.

(** The phase created from the [idx]-th learning resource. *)
Definition phase_of_resource (idx : nat) (resource : Resource.t) : Phase.t :=
  {| Phase.id := Some ("phase-" +:+ pretty (idx + 1)%nat);
     Phase.phase_number :=
       Some (Resource.phase_number resource ||| Z.of_nat (idx + 1));
     Phase.title :=
       Some (Resource.toolName resource ||| ("Phase " +:+ pretty (idx + 1)%nat));
     Phase.duration_weeks := Some (Resource.duration_weeks resource ||| 4%Z);
     Phase.tools_covered :=
       Some (Resource.tools_covered resource ||| [Resource.toolName resource]);
     Phase.learning_objectives :=
       Some (Resource.learning_objectives resource ||| []);
     Phase.milestones := Some (Resource.milestones resource ||| []);
     Phase.expanded := Some (idx =? 0)%nat |}.

(** [!roadmapData.phases || roadmapData.phases.length === 0] *)
Definition no_phases (roadmapData : Roadmap.t) : bool :=
  match Roadmap.phases roadmapData with
  | None => true
  | Some ps => (length ps =? 0)%nat
  end.

(** [roadmapData.learningResources && roadmapData.learningResources.length > 0] *)
Definition has_resources (roadmapData : Roadmap.t) : bool :=
  match Roadmap.learningResources roadmapData with
  | None => false
  | Some rs => (0 <? length rs)%nat
  end.

(** First block of [fetchRoadmap]: create phases from [learningResources]
    if phases do not exist. *)
Definition create_phases (roadmapData : Roadmap.t) : Roadmap.t :=
  if no_phases roadmapData && has_resources roadmapData
  then Roadmap.with_phases
         (imap phase_of_resource
            (default [] (Roadmap.learningResources roadmapData)))
         roadmapData
  else roadmapData.

(** The normalisation that [fetchRoadmap] applies to the fetched document
    before [setRoadmap]: both blocks, in order.  The second block calls
    [roadmapData.phases.map] without a guard. *)
Definition normalize (k : nat) (roadmapData : Roadmap.t)
  : result (Roadmap.t * nat) :=
  let roadmapData := create_phases roadmapData in
  ps ← defined "map" (Roadmap.phases roadmapData);
  let '(ps', k') := init_phases k ps in
  Ok (Roadmap.with_phases ps' roadmapData, k').

(** [{ success, roadmap, error }] as returned by [getRoadmapById] *)
Record getResponse := {
  get_success : bool;
  get_roadmap : option Roadmap.t;
  get_error : option string
}.

(** State of the detail component. *)
Record DetailState := {
  roadmap : option Roadmap.t;
  loading : bool;
  saving : bool;
  error_message : option string
}.

(** [fetchRoadmap], given what [await getRoadmapById(roadmapId)] returned.
    An exception leaves the returned promise rejected. *)
Definition fetchRoadmap (k : nat) (response : getResponse) (st : DetailState)
  : result (DetailState * nat) :=
  let st := {| roadmap := roadmap st; loading := true; saving := saving st;
               error_message := None |} in
  if get_success response then
    roadmapData ← defined "phases" (get_roadmap response);
    '(roadmapData, k') ← normalize k roadmapData;
    Ok ({| roadmap := Some roadmapData; loading := false;
           saving := saving st; error_message := error_message st |}, k')
  else
    Ok ({| roadmap := roadmap st; loading := false; saving := saving st;
           error_message :=
             Some (get_error response ||| "Failed to load roadmap") |}, k).
End Normalizer.

(** ** Checklist toggles (RoadmapDetail.jsx, phase-based revision) *)

(** [obj.id === objectiveId ? { ...obj, completed: !obj.completed } : obj] *)
Definition toggle_entry (itemId : string) (obj : entry) : entry :=
  match obj with
  | Bare s => Bare s
  | Structured it =>
      if bool_decide (Item.id it = Some itemId)
      then Structured (Item.with_completed (negb (Item.is_completed it)) it)
      else Structured it
  end.

(** The callback given to [roadmap.phases.map] by [toggleObjective]. *)
Definition toggle_objective_in (phaseId objectiveId : string) (phase : Phase.t)
  : result Phase.t :=
  if bool_decide (Phase.id phase = Some phaseId) then
    los ← defined "map" (Phase.learning_objectives phase);
    Ok (Phase.with_learning_objectives (map (toggle_entry objectiveId) los) phase)
  else Ok phase.

(** The callback given to [roadmap.phases.map] by [toggleMilestone]. *)
Definition toggle_milestone_in (phaseId milestoneId : string) (phase : Phase.t)
  : result Phase.t :=
  if bool_decide (Phase.id phase = Some phaseId) then
    mss ← defined "map" (Phase.milestones phase);
    Ok (Phase.with_milestones (map (toggle_entry milestoneId) mss) phase)
  else Ok phase.

(** [updatedRoadmap] of [toggleObjective(phaseId, objectiveId)] *)
Definition toggleObjective (roadmap : Roadmap.t) (phaseId objectiveId : string)
  : result Roadmap.t :=
  ps ← defined "map" (Roadmap.phases roadmap);
  ps' ← mapR (toggle_objective_in phaseId objectiveId) ps;
  Ok (Roadmap.with_phases ps' roadmap).

(** [updatedRoadmap] of [toggleMilestone(phaseId, milestoneId)] *)
Definition toggleMilestone (roadmap : Roadmap.t) (phaseId milestoneId : string)
  : result Roadmap.t :=
  ps ← defined "map" (Roadmap.phases roadmap);
  ps' ← mapR (toggle_milestone_in phaseId milestoneId) ps;
  Ok (Roadmap.with_phases ps' roadmap).

(** [progressData] that [saveProgress(updatedRoadmap)] passes to
    [updateRoadmapProgress]. *)
Record phaseProgressData := {
  pd_phases : option (list Phase.t);
  pd_progress : JS.number
}.

Definition saveProgress (rnd : Q -> Q) (updatedRoadmap : Roadmap.t)
  : phaseProgressData :=
  {| pd_phases := Roadmap.phases updatedRoadmap;
     pd_progress := calculateProgressFromRoadmap rnd updatedRoadmap |}.

(** ** Tool completion (RoadmapDetail.jsx, flat tool-list revision) *)

(** A JavaScript [Set] of strings: its elements in insertion order. *)
Module JSSet.
Definition t := list string.

Definition has (s : t) (x : string) : bool := bool_decide (x ∈ s).
Definition add (s : t) (x : string) : t := if has s x then s else s ++ [x].
Definition delete (s : t) (x : string) : t := filter (fun y => y ≠ x) s.
(** [new Set(array)] *)
Definition of_array (xs : list string) : t := fold_left add xs [].
(** [Array.from(set)] *)
Definition to_array (s : t) : list string := s.
End JSSet.

Module FlatDetail.

(** The object passed to [updateRoadmapProgress]. *)
Record progressData := {
  completedTools : list string;
  progress : JS.number;
  currentTool : option string
}.

Record State := {
  roadmap : Roadmap.t;
  completedItems : JSSet.t;
  updating : bool;
  error_message : option string
}.

(** [newCompleted] after the [has]/[delete]/[add] block *)
Definition newCompleted (completedItems : JSSet.t) (toolName : string) : JSSet.t :=
  if JSSet.has completedItems toolName
  then JSSet.delete completedItems toolName
  else JSSet.add completedItems toolName.

Section Handler.
Variable rnd : Q -> Q.

(** What [handleToggleComplete(toolName)] sends to the store. *)
Definition payload (st : State) (toolName : string) : result progressData :=
  let completedArray := JSSet.to_array (newCompleted (completedItems st) toolName) in
  selectedTools ← defined "length" (Roadmap.selectedTools (roadmap st));
  let progress :=
    JS.round (JS.mul rnd
                (JS.div rnd (JS.of_nat (length completedArray))
                            (JS.of_nat (length selectedTools)))
                (JS.of_nat 100)) in
  Ok {| completedTools := completedArray;
        progress := progress;
        currentTool :=
          if (length completedArray <? length selectedTools)%nat
          then Tool.name <$> selectedTools !! length completedArray
          else None |}.

(** [handleToggleComplete(toolName)]; [success] is [result.success] of
    the awaited [updateRoadmapProgress]. *)
Definition handleToggleComplete (st : State) (toolName : string) (success : bool)
  : result State :=
  data ← payload st toolName;
  Ok (if success
      then {| roadmap := Roadmap.with_completion (completedTools data)
                           (progress data) (roadmap st);
              completedItems := newCompleted (completedItems st) toolName;
              updating := false;
              error_message := error_message st |}
      else {| roadmap := roadmap st;
              completedItems := completedItems st;
              updating := false;
              error_message := Some "Failed to update progress" |}).
End Handler.

(** The first tool of the selection whose name is not in the completed
    set. *)
Definition first_incomplete (selectedTools : list Tool.t) (completed : list string)
  : option string :=
  Tool.name <$> List.find (fun tool => negb (JSSet.has completed (Tool.name tool)))
                  selectedTools.
End FlatDetail.

(** ** Store adapter (services/roadmapService.js) *)

(** [Array.prototype.sort(compare)]: the sort is stable, and [a] is placed
    before [b] when [compare(a, b) <= 0]. *)
Section ArraySort.
Context {A : Type} (compare : A -> A -> Z).

Fixpoint sort_insert (a : A) (sorted : list A) : list A :=
  match sorted with
  | [] => [a]
  | b :: rest =>
      if (compare a b <=? 0)%Z then a :: b :: rest
      else b :: sort_insert a rest
  end.

Definition Array_sort (xs : list A) : list A := foldr sort_insert [] xs.
End ArraySort.

Module Firestore.

(** The [roadmaps] collection together with what decides whether a query
    can be served. *)
Record t := {
  documents : list Roadmap.t;
  index_built : bool;   (* the composite index (userId, createdAt desc) exists *)
  available : bool      (* the backend can be reached and grants access *)
}.

(** [query(collection(db, 'roadmaps'), where('userId', '==', u), orderBy('createdAt', 'desc')?)] *)
Record query := {
  where_userId : string;
  orderBy_createdAt_desc : bool
}.

(** Server-side comparison of two documents on [createdAt], newest first. *)
Definition newest_first (a b : Roadmap.t) : Z :=
  match Roadmap.createdAt a, Roadmap.createdAt b with
  | Some ta, Some tb =>
      if (seconds ta =? seconds tb)%Z
      then (nanoseconds tb - nanoseconds ta)%Z
      else (seconds tb - seconds ta)%Z
  | _, _ => 0%Z
  end.

(** [getDocs(q)].  A query with [orderBy] needs the composite index, and
    returns only the documents that contain the ordered field. *)
Definition getDocs (db : t) (q : query) : result (list Roadmap.t) :=
  if negb (available db) then Throw (StoreError "unavailable")
  else
    let matching :=
      filter (fun d => Roadmap.userId d = where_userId q) (documents db) in
    if orderBy_createdAt_desc q then
      if index_built db
      then Ok (Array_sort newest_first
                 (filter (fun d => is_Some (Roadmap.createdAt d)) matching))
      else Throw (StoreError "The query requires an index")
    else Ok matching.
End Firestore.

(** [a.createdAt?.seconds || 0] *)
Definition createdAt_seconds (a : Roadmap.t) : Z :=
  (seconds <$> Roadmap.createdAt a) ||| 0%Z.

(** [{ success, roadmaps, error }] *)
Record listResponse := {
  success : bool;
  roadmaps : list Roadmap.t;
  error : option string
}.

(** [error.message] *)
Definition error_text (e : exception) : string :=
  match e with
  | TypeError m | StoreError m | JSError m | RequestError _ m => m
  end.

(** [err.response?.data?.message] *)
Definition response_message (e : exception) : option string :=
  match e with
  | RequestError server_message _ => server_message
  | TypeError _ | StoreError _ | JSError _ => None
  end.

(** ** Objects on their way to the store *)

(** A property of an object literal: absent, holding [undefined], or
    holding a value.  An object parsed from JSON or read from the store has
    no [undefined]; a literal gets one from [key: o.missing]. *)
Inductive property (A : Type) :=
| Absent
| Undefined
| Present (a : A).
Arguments Absent {A}.
Arguments Undefined {A}.
Arguments Present {A} a.

(** What a document keeps of a property.  No document holds [undefined]:
    [addDoc] rejects the data ([ignoreUndefinedProperties] is not set). *)
Definition storable {A} (p : property A) : option (option A) :=
  match p with
  | Absent => Some None
  | Undefined => None
  | Present a => Some (Some a)
  end.

Definition property_of {A} (o : option A) : property A :=
  match o with
  | Some a => Present a
  | None => Absent
  end.

(** The object [roadmapData] given to [saveRoadmap]. *)
Module RoadmapData.

(** An element of its [learningResources]. *)
Record resource := {
  toolName : option string;
  phase_number : property Z;
  duration_weeks : property Z;
  tools_covered : option (list (option string));
  learning_objectives : option (list entry);
  milestones : option (list entry)
}.

(** The resource as a document holds it, if it can. *)
Definition stored (r : resource) : option Resource.t :=
  n ← storable (phase_number r);
  d ← storable (duration_weeks r);
  Some {| Resource.toolName := toolName r;
          Resource.phase_number := n;
          Resource.duration_weeks := d;
          Resource.tools_covered := tools_covered r;
          Resource.learning_objectives := learning_objectives r;
          Resource.milestones := milestones r |}.

(** A resource that came as JSON. *)
Definition of_json (r : Resource.t) : resource :=
  {| toolName := Resource.toolName r;
     phase_number := property_of (Resource.phase_number r);
     duration_weeks := property_of (Resource.duration_weeks r);
     tools_covered := Resource.tools_covered r;
     learning_objectives := Resource.learning_objectives r;
     milestones := Resource.milestones r |}.

(** The properties the list and detail views read, and the keys [id] and
    [userId] that the object may carry of its own.  Keys [createdAt],
    [updatedAt] and [status] of its own are overwritten by [saveRoadmap]
    and left out. *)
Record t := {
  id : option string;
  userId : option string;
  progress : option JS.number;
  phases : option (list Phase.t);
  learningResources : option (list resource);
  selectedTools : option (list Tool.t);
  completedTools : option (list string);
  currentTool : option string
}.

(** Some property of the object holds [undefined]. *)
Definition holds_undefined (data : t) : bool :=
  existsb (fun r => match phase_number r, duration_weeks r with
                    | Undefined, _ | _, Undefined => true
                    | _, _ => false
                    end)
    (default [] (learningResources data)).

(** What a document keeps of a resource none of whose properties holds
    [undefined]: the properties that are present. *)
Definition kept (r : resource) : Resource.t :=
  {| Resource.toolName := toolName r;
     Resource.phase_number :=
       match phase_number r with Present n => Some n | _ => None end;
     Resource.duration_weeks :=
       match duration_weeks r with Present n => Some n | _ => None end;
     Resource.tools_covered := tools_covered r;
     Resource.learning_objectives := learning_objectives r;
     Resource.milestones := milestones r |}.
End RoadmapData.

(** [{ success, roadmapId, error }] as returned by [saveRoadmap] *)
Record saveResponse := {
  save_success : bool;
  save_roadmapId : option string;
  save_error : option string
}.

(** [getUserRoadmaps(userId)] *)
Definition getUserRoadmaps (db : Firestore.t) (userId : string) : listResponse :=
  let attempt :=
    (* inner try: with orderBy first; inner catch: without orderBy *)
    match Firestore.getDocs db
            {| Firestore.where_userId := userId;
               Firestore.orderBy_createdAt_desc := true |} with
    | Ok querySnapshot => Ok querySnapshot
    | Throw indexError =>
        Firestore.getDocs db
          {| Firestore.where_userId := userId;
             Firestore.orderBy_createdAt_desc := false |}
    end in
  match attempt with
  | Ok querySnapshot =>
      let roadmaps := querySnapshot in
      {| success := true;
         roadmaps :=
           Array_sort (fun a b => (createdAt_seconds b - createdAt_seconds a)%Z)
             roadmaps;
         error := None |}
  | Throw e =>
      {| success := false; roadmaps := []; error := Some (error_text e) |}
  end.

(** The writers of the service, as transitions of the collection.
    [newId] and [now] are the document id and the [serverTimestamp()] the
    backend assigns. *)

(** [saveRoadmap(userId, roadmapData)]: the response and the collection
    afterwards.  The document is
    [{ userId, ...roadmapData, createdAt, updatedAt, status: 'active' }]:
    a [userId] of the data replaces the argument, an [id] of the data is
    stored as a property beside the document id.  [addDoc] raises, and
    nothing is written, when the backend cannot be reached or the data
    holds [undefined]; the exception is caught and reported. *)
Definition saveRoadmap (db : Firestore.t) (newId : string) (now : Timestamp)
    (userId : string) (roadmapData : RoadmapData.t)
  : saveResponse * Firestore.t :=
  if negb (Firestore.available db)
  then ({| save_success := false; save_roadmapId := None;
           save_error := Some "unavailable" |}, db)
  else
    match mapM RoadmapData.stored
            (default [] (RoadmapData.learningResources roadmapData)) with
    | None =>
        ({| save_success := false; save_roadmapId := None;
            save_error := Some "Unsupported field value: undefined" |}, db)
    | Some resources =>
        ({| save_success := true; save_roadmapId := Some newId;
            save_error := None |},
         {| Firestore.documents :=
              Firestore.documents db ++
              [ {| Roadmap.doc_id := newId;
                   Roadmap.data_id := RoadmapData.id roadmapData;
                   Roadmap.userId :=
                     default userId (RoadmapData.userId roadmapData);
                   Roadmap.createdAt := Some now; Roadmap.updatedAt := Some now;
                   Roadmap.status := "active";
                   Roadmap.progress := RoadmapData.progress roadmapData;
                   Roadmap.phases := RoadmapData.phases roadmapData;
                   Roadmap.learningResources :=
                     (fun _ => resources)
                       <$> RoadmapData.learningResources roadmapData;
                   Roadmap.selectedTools := RoadmapData.selectedTools roadmapData;
                   Roadmap.completedTools := RoadmapData.completedTools roadmapData;
                   Roadmap.currentTool := RoadmapData.currentTool roadmapData |} ];
            Firestore.index_built := Firestore.index_built db;
            Firestore.available := Firestore.available db |})
    end.

Definition updateRoadmapStatus (db : Firestore.t) (now : Timestamp)
    (roadmapId status : string) : Firestore.t :=
  {| Firestore.documents :=
       map (fun d =>
              if bool_decide (Roadmap.doc_id d = roadmapId)
              then {| Roadmap.doc_id := Roadmap.doc_id d;
                      Roadmap.data_id := Roadmap.data_id d;
                      Roadmap.userId := Roadmap.userId d;
                      Roadmap.createdAt := Roadmap.createdAt d;
                      Roadmap.updatedAt := Some now;
                      Roadmap.status := status;
                      Roadmap.progress := Roadmap.progress d;
                      Roadmap.phases := Roadmap.phases d;
                      Roadmap.learningResources := Roadmap.learningResources d;
                      Roadmap.selectedTools := Roadmap.selectedTools d;
                      Roadmap.completedTools := Roadmap.completedTools d;
                      Roadmap.currentTool := Roadmap.currentTool d |}
              else d)
           (Firestore.documents db);
     Firestore.index_built := Firestore.index_built db;
     Firestore.available := Firestore.available db |}.

Definition deleteRoadmap (db : Firestore.t) (roadmapId : string) : Firestore.t :=
  {| Firestore.documents :=
       filter (fun d => Roadmap.doc_id d ≠ roadmapId) (Firestore.documents db);
     Firestore.index_built := Firestore.index_built db;
     Firestore.available := Firestore.available db |}.

(** The two shapes of [progressData] the detail views pass to
    [updateRoadmapProgress]. *)
Inductive progressPatch :=
| ChecklistPatch (data : phaseProgressData)
| ToolPatch (data : FlatDetail.progressData).

(** [{ ...progressData, updatedAt: serverTimestamp() }] merged into [d] *)
Definition apply_patch (now : Timestamp) (patch : progressPatch) (d : Roadmap.t)
  : Roadmap.t :=
  match patch with
  | ChecklistPatch data =>
      {| Roadmap.doc_id := Roadmap.doc_id d;
         Roadmap.data_id := Roadmap.data_id d;
         Roadmap.userId := Roadmap.userId d;
         Roadmap.createdAt := Roadmap.createdAt d;
         Roadmap.updatedAt := Some now;
         Roadmap.status := Roadmap.status d;
         Roadmap.progress := Some (pd_progress data);
         Roadmap.phases :=
           match pd_phases data with
           | Some ps => Some ps
           | None => Roadmap.phases d
           end;
         Roadmap.learningResources := Roadmap.learningResources d;
         Roadmap.selectedTools := Roadmap.selectedTools d;
         Roadmap.completedTools := Roadmap.completedTools d;
         Roadmap.currentTool := Roadmap.currentTool d |}
  | ToolPatch data =>
      {| Roadmap.doc_id := Roadmap.doc_id d;
         Roadmap.data_id := Roadmap.data_id d;
         Roadmap.userId := Roadmap.userId d;
         Roadmap.createdAt := Roadmap.createdAt d;
         Roadmap.updatedAt := Some now;
         Roadmap.status := Roadmap.status d;
         Roadmap.progress := Some (FlatDetail.progress data);
         Roadmap.phases := Roadmap.phases d;
         Roadmap.learningResources := Roadmap.learningResources d;
         Roadmap.selectedTools := Roadmap.selectedTools d;
         Roadmap.completedTools := Some (FlatDetail.completedTools data);
         Roadmap.currentTool := FlatDetail.currentTool data |}
  end.

Definition updateRoadmapProgress (db : Firestore.t) (now : Timestamp)
    (roadmapId : string) (progressData : progressPatch) : Firestore.t :=
  {| Firestore.documents :=
       map (fun d => if bool_decide (Roadmap.doc_id d = roadmapId)
                     then apply_patch now progressData d else d)
           (Firestore.documents db);
     Firestore.index_built := Firestore.index_built db;
     Firestore.available := Firestore.available db |}.

(** ** The wizard (InterestSelector.jsx and App.jsx) *)

Module Wizard.

(** A tool card of the recommendation list. *)
Record tool := {
  name : string;
  domain : option string;
  description : option string;
  learning_time_weeks : option Z
}.

(** [`${t.name}-${t.domain || ''}`] *)
Definition toolId (t : tool) : string :=
  name t +:+ "-" +:+ (domain t ||| "").

(** The updater that [toggleTool(tool)] passes to [setSelectedTools]. *)
Definition toggleTool (tool0 : tool) (prev : list tool) : list tool :=
  let id0 := toolId tool0 in
  let exists_ := List.find (fun t => bool_decide (toolId t = id0)) prev in
  match exists_ with
  | Some _ => filter (fun t => toolId t ≠ id0) prev
  | None =>
      if (8 <=? length prev)%nat
      then prev (* Max 8 tools *)
      else prev ++ [ {| name := name tool0;
                        domain := Some (domain tool0 ||| "unknown");
                        description := description tool0;
                        learning_time_weeks := learning_time_weeks tool0 |} ]
  end.

Record profile := {
  experience_level : string;
  technical_skills : list string
}.

Record preferences := {
  hoursPerWeek : Z;
  learningStyle : option string;
  deadline : option string
}.

(** [{ success, roadmap, message }] as returned by [generateRoadmap] *)
Record generateResponse := {
  gen_success : bool;
  gen_roadmap : option Roadmap.t;
  gen_message : option string
}.

(** State of [App], and of the [InterestSelector] it renders: [selector]
    holds that component's own [selectedTools] while it is mounted. *)
Record State := {
  step : nat;
  resumeData : option string;
  profile_ : option profile;
  selectedTools : list tool;
  prefs : option preferences;
  roadmap : option Roadmap.t;
  generatingRoadmap : bool;
  error : option string;
  selector : option (list tool)
}.

Definition initial : State :=
  {| step := 1; resumeData := None; profile_ := None; selectedTools := [];
     prefs := None; roadmap := None; generatingRoadmap := false;
     error := None; selector := None |}.

(** What the JSX of [App] renders in the step area. *)
Definition shows_ResumeUpload (s : State) : bool :=
  negb (generatingRoadmap s) && (step s =? 1)%nat.
Definition shows_InterestSelector (s : State) : bool :=
  negb (generatingRoadmap s) && (step s =? 2)%nat && bool_decide (is_Some (profile_ s)).
Definition shows_TimeCommitment (s : State) : bool :=
  negb (generatingRoadmap s) && (step s =? 3)%nat && (0 <? length (selectedTools s))%nat.
Definition shows_RoadmapDisplay (s : State) : bool :=
  negb (generatingRoadmap s) && (step s =? 4)%nat && bool_decide (is_Some (roadmap s)).
Definition shows_StartOver (s : State) : bool :=
  (1 <? step s)%nat || shows_RoadmapDisplay s.
Definition shows_Back (s : State) : bool :=
  shows_InterestSelector s || shows_TimeCommitment s.

(** Re-rendering: [InterestSelector] keeps its state while it stays
    mounted, starts from [useState([])] when it is mounted, and loses its
    state when it is unmounted. *)
Definition render (s : State) : State :=
  {| step := step s; resumeData := resumeData s; profile_ := profile_ s;
     selectedTools := selectedTools s; prefs := prefs s; roadmap := roadmap s;
     generatingRoadmap := generatingRoadmap s; error := error s;
     selector :=
       if shows_InterestSelector s
       then Some (default [] (selector s))
       else None |}.

(** The handlers of [App]. *)
Definition handleResumeComplete (resumeText : option string) (p : option profile)
    (s : State) : State :=
  {| step := 2; resumeData := resumeText; profile_ := p;
     selectedTools := selectedTools s; prefs := prefs s; roadmap := roadmap s;
     generatingRoadmap := generatingRoadmap s; error := error s;
     selector := selector s |}.

Definition handleToolsSelected (tools : list tool) (s : State) : State :=
  {| step := 3; resumeData := resumeData s; profile_ := profile_ s;
     selectedTools := tools; prefs := prefs s; roadmap := roadmap s;
     generatingRoadmap := generatingRoadmap s; error := error s;
     selector := selector s |}.

(** [handlePreferencesSet] up to its [await]. *)
Definition handlePreferencesSet (p : preferences) (s : State) : State :=
  {| step := step s; resumeData := resumeData s; profile_ := profile_ s;
     selectedTools := selectedTools s; prefs := Some p; roadmap := roadmap s;
     generatingRoadmap := true; error := None; selector := selector s |}.

(** The text its [catch] stores:
    [err.response?.data?.message || err.message
      || 'Failed to generate roadmap. Please try again.'] *)
Definition catch_text (err : exception) : string :=
  response_message err
  ||| (Some (error_text err) ||| "Failed to generate roadmap. Please try again.").

(** [handlePreferencesSet] after its [await]: [outcome] is the awaited
    response, or the exception of the request.  A response without
    success is turned into [new Error(response.message || ...)] and caught
    like any other. *)
Definition generation_settled (outcome : result generateResponse) (s : State)
  : State :=
  match outcome with
  | Ok response =>
      if gen_success response
      then {| step := 4; resumeData := resumeData s; profile_ := profile_ s;
              selectedTools := selectedTools s; prefs := prefs s;
              roadmap := gen_roadmap response;
              generatingRoadmap := false; error := error s;
              selector := selector s |}
      else {| step := step s; resumeData := resumeData s; profile_ := profile_ s;
              selectedTools := selectedTools s; prefs := prefs s;
              roadmap := roadmap s; generatingRoadmap := false;
              error :=
                Some (catch_text
                        (JSError (gen_message response
                                  ||| "Failed to generate roadmap")));
              selector := selector s |}
  | Throw e =>
      {| step := step s; resumeData := resumeData s; profile_ := profile_ s;
         selectedTools := selectedTools s; prefs := prefs s;
         roadmap := roadmap s; generatingRoadmap := false;
         error := Some (catch_text e); selector := selector s |}
  end.

Definition handleBack (s : State) : State :=
  if (1 <? step s)%nat
  then {| step := step s - 1; resumeData := resumeData s; profile_ := profile_ s;
          selectedTools := selectedTools s; prefs := prefs s;
          roadmap := roadmap s; generatingRoadmap := generatingRoadmap s;
          error := None; selector := selector s |}
  else s.

Definition handleStartOver (s : State) : State :=
  {| step := 1; resumeData := None; profile_ := None; selectedTools := [];
     prefs := None; roadmap := None;
     generatingRoadmap := generatingRoadmap s; error := None;
     selector := selector s |}.

(** The handlers of [InterestSelector]. *)
Definition selector_toggleTool (t : tool) (s : State) : State :=
  {| step := step s; resumeData := resumeData s; profile_ := profile_ s;
     selectedTools := selectedTools s; prefs := prefs s; roadmap := roadmap s;
     generatingRoadmap := generatingRoadmap s; error := error s;
     selector := toggleTool t <$> selector s |}.

(** [handleGenerate]: [if (selectedTools.length >= 2 && onSelect) onSelect(selectedTools)] *)
Definition handleGenerate (s : State) : State :=
  match selector s with
  | Some tools =>
      if (2 <=? length tools)%nat then handleToolsSelected tools s else s
  | None => s
  end.

(** What the user and the network can do. *)
Inductive event :=
| ResumeCompleted (resumeText : option string) (p : option profile)
| ToolClicked (t : tool)
| GenerateClicked
| PreferencesSubmitted (p : preferences)
| GenerationSettled (outcome : result generateResponse)
| BackClicked
| StartOverClicked
| ErrorDismissed.

(** An event is possible when the element that raises it is rendered
    (and, for the network, when a request is in flight). *)
Definition enabled (s : State) (e : event) : bool :=
  match e with
  | ResumeCompleted _ _ => shows_ResumeUpload s
  | ToolClicked _ | GenerateClicked => shows_InterestSelector s
  | PreferencesSubmitted _ => shows_TimeCommitment s
  | GenerationSettled _ => generatingRoadmap s
  | BackClicked => shows_Back s
  | StartOverClicked => shows_StartOver s
  | ErrorDismissed => bool_decide (is_Some (error s))
  end.

Definition handle (e : event) (s : State) : State :=
  match e with
  | ResumeCompleted text p => handleResumeComplete text p s
  | ToolClicked t => selector_toggleTool t s
  | GenerateClicked => handleGenerate s
  | PreferencesSubmitted p => handlePreferencesSet p s
  | GenerationSettled outcome => generation_settled outcome s
  | BackClicked => handleBack s
  | StartOverClicked => handleStartOver s
  | ErrorDismissed =>
      {| step := step s; resumeData := resumeData s; profile_ := profile_ s;
         selectedTools := selectedTools s; prefs := prefs s;
         roadmap := roadmap s; generatingRoadmap := generatingRoadmap s;
         error := None; selector := selector s |}
  end.

(** One step of the application: the handler runs, then React renders. *)
Definition dispatch (s : State) (e : event) : State :=
  if enabled s e then render (handle e s) else s.

(** The state after a sequence of events, from the first render. *)
Definition run (events : list event) : State :=
  fold_left dispatch events (render initial).

(** What holds of every state of the wizard: the selection under
    construction has at most 8 tools, and at step 3 the selection handed
    to [App] has between 2 and 8. *)
Definition invariant (s : State) : Prop :=
  (forall sel, selector s = Some sel -> length sel <= 8)
  /\ (step s = 3 -> 2 <= length (selectedTools s) <= 8).

Inductive reachable : State -> Prop :=
| reachable_initial : reachable (render initial)
| reachable_step s e :
    reachable s -> enabled s e = true -> reachable (render (handle e s)).
End Wizard.

(** ** Field-name reconciliation (utils/roadmapAdapter.js) *)

Module Adapter.

(** The roadmap object of the generation endpoint: the reconciled
    properties in both spellings, and [phases] for the properties the
    adapter copies as they are.  [None] is an absent key. *)
Record response := {
  estimated_weeks : option Z;
  estimatedWeeks : option Z;
  learning_resources : option (list Resource.t);
  learningResources : option (list Resource.t);
  project_ideas : option (list string);
  projectIdeas : option (list string);
  career_insights : option (list (string * string));
  careerInsights : option (list (string * string));
  phases : option (list Phase.t)
}.

(** [{ key: computed, ...roadmapResponse }] for one key: the spread comes
    last, so a key the response has keeps the response's value. *)
Definition spread_over {A} (computed : A) (own : option A) : option A :=
  Some (default computed own).

(** [adaptRoadmapData(roadmapResponse)]; [None] is [null]. *)
Definition adaptRoadmapData (roadmapResponse : option response) : option response :=
  match roadmapResponse with
  | None => None
  | Some r =>
      Some {| estimated_weeks := estimated_weeks r;
              estimatedWeeks :=
                spread_over (estimated_weeks r ||| (estimatedWeeks r ||| 0%Z))
                  (estimatedWeeks r);
              learning_resources := learning_resources r;
              learningResources :=
                spread_over (learning_resources r ||| (learningResources r ||| []))
                  (learningResources r);
              project_ideas := project_ideas r;
              projectIdeas :=
                spread_over (project_ideas r ||| (projectIdeas r ||| []))
                  (projectIdeas r);
              career_insights := career_insights r;
              careerInsights :=
                spread_over (career_insights r ||| (careerInsights r ||| []))
                  (careerInsights r);
              phases := phases r |}
  end.
End Adapter.

(** ** Shapes of the roadmap in the component state *)

Definition is_structured (e : entry) : bool :=
  match e with
  | Structured _ => true
  | Bare _ => false
  end.

(** The two checklists of a phase. *)
Inductive kind := Objective | Milestone.

Definition items_of (k : kind) (phase : Phase.t) : option (list entry) :=
  match k with
  | Objective => Phase.learning_objectives phase
  | Milestone => Phase.milestones phase
  end.

Definition with_items (k : kind) (es : list entry) (phase : Phase.t) : Phase.t :=
  match k with
  | Objective => Phase.with_learning_objectives es phase
  | Milestone => Phase.with_milestones es phase
  end.

(** [toggleObjective] or [toggleMilestone], by the checklist they act on. *)
Definition toggle (k : kind) : Roadmap.t -> string -> string -> result Roadmap.t :=
  match k with
  | Objective => toggleObjective
  | Milestone => toggleMilestone
  end.

(** Both checklists of the phase are arrays. *)
Definition phase_loaded (phase : Phase.t) : bool :=
  bool_decide (is_Some (Phase.learning_objectives phase))
  && bool_decide (is_Some (Phase.milestones phase)).

(** The roadmap has a [phases] array and every phase has both checklists:
    the shape of every roadmap that [fetchRoadmap] puts into the state. *)
Definition loaded (r : Roadmap.t) : bool :=
  match Roadmap.phases r with
  | Some ps => forallb phase_loaded ps
  | None => false
  end.

(** Both checklists are arrays of structured items. *)
Definition phase_initialised (phase : Phase.t) : bool :=
  match Phase.learning_objectives phase, Phase.milestones phase with
  | Some los, Some mss => forallb is_structured los && forallb is_structured mss
  | _, _ => false
  end.

Definition initialised (r : Roadmap.t) : bool :=
  match Roadmap.phases r with
  | Some ps => forallb phase_initialised ps
  | None => false
  end.

(** How many items of checklist [k] the pair [(phaseId, itemId)] designates:
    in one phase, and in the roadmap. *)
Definition phase_match_count (k : kind) (phaseId itemId : string) (phase : Phase.t)
  : nat :=
  if bool_decide (Phase.id phase = Some phaseId)
  then length (filter (fun e => entry_has_id itemId e = true)
                 (default [] (items_of k phase)))
  else 0.

Definition match_count (k : kind) (r : Roadmap.t) (phaseId itemId : string) : nat :=
  sum_list (phase_match_count k phaseId itemId <$> default [] (Roadmap.phases r)).

(** What a toggle does to one phase whose checklists are arrays. *)
Definition toggle_phase (k : kind) (phaseId itemId : string) (phase : Phase.t)
  : Phase.t :=
  if bool_decide (Phase.id phase = Some phaseId)
  then with_items k (map (toggle_entry itemId) (default [] (items_of k phase))) phase
  else phase.

(** [r'] is what the [map]s of a toggle build from [r] when the pair
    designates the item at position [b] of checklist [k] of the phase at
    position [a]. *)
Definition toggled_at (k : kind) (r : Roadmap.t) (phaseId itemId : string)
    (r' : Roadmap.t) : Prop :=
  exists ps a phase es b it,
    Roadmap.phases r = Some ps
    /\ ps !! a = Some phase
    /\ Phase.id phase = Some phaseId
    /\ items_of k phase = Some es
    /\ es !! b = Some (Structured it)
    /\ Item.id it = Some itemId
    /\ r' = Roadmap.with_phases
              (<[a := with_items k
                        (<[b := Structured
                                  (Item.with_completed (negb (Item.is_completed it)) it)]>
                           es)
                        phase]> ps)
              r.

(** [r'] has the properties of [r], [phases] apart. *)
Definition same_but_phases (r r' : Roadmap.t) : Prop :=
  Roadmap.doc_id r' = Roadmap.doc_id r
  /\ Roadmap.data_id r' = Roadmap.data_id r
  /\ Roadmap.userId r' = Roadmap.userId r
  /\ Roadmap.createdAt r' = Roadmap.createdAt r
  /\ Roadmap.updatedAt r' = Roadmap.updatedAt r
  /\ Roadmap.status r' = Roadmap.status r
  /\ Roadmap.progress r' = Roadmap.progress r
  /\ Roadmap.learningResources r' = Roadmap.learningResources r
  /\ Roadmap.selectedTools r' = Roadmap.selectedTools r
  /\ Roadmap.completedTools r' = Roadmap.completedTools r
  /\ Roadmap.currentTool r' = Roadmap.currentTool r.

(** [p'] has the properties of [p], checklist [k] apart. *)
Definition same_but_items (k : kind) (p p' : Phase.t) : Prop :=
  Phase.id p' = Phase.id p
  /\ Phase.phase_number p' = Phase.phase_number p
  /\ Phase.title p' = Phase.title p
  /\ Phase.duration_weeks p' = Phase.duration_weeks p
  /\ Phase.tools_covered p' = Phase.tools_covered p
  /\ Phase.expanded p' = Phase.expanded p
  /\ match k with
     | Objective => Phase.milestones p' = Phase.milestones p
     | Milestone => Phase.learning_objectives p' = Phase.learning_objectives p
     end.

(** [r'] differs from [r] in the [completed] property of exactly one item
    of checklist [k], the one the pair [(phaseId, itemId)] designates: it
    is [false] where the item was completed and [true] where it was not
    (or had no such property).  The relation is stated on the properties
    of the two roadmaps, position by position: the roadmap apart from
    [phases], the phases at every other position, the phase apart from the
    checklist, the checklist at every other position, and the item apart
    from [completed] are those of [r]. *)
Definition flips_one (k : kind) (r : Roadmap.t) (phaseId itemId : string)
    (r' : Roadmap.t) : Prop :=
  exists ps a phase es b it phase',
    Roadmap.phases r = Some ps
    /\ ps !! a = Some phase
    /\ Phase.id phase = Some phaseId
    /\ items_of k phase = Some es
    /\ es !! b = Some (Structured it)
    /\ Item.id it = Some itemId
    /\ same_but_phases r r'
    /\ Roadmap.phases r' = Some (<[a := phase']> ps)
    /\ same_but_items k phase phase'
    /\ items_of k phase'
       = Some (<[b := Structured
                        {| Item.id := Item.id it; Item.text := Item.text it;
                           Item.completed :=
                             Some (match Item.completed it with
                                   | Some true => false
                                   | Some false | None => true
                                   end) |}]> es).

(** ** Toggling twice *)

(** The entry after two toggles: the designated item has a boolean
    [completed], [false] where it had none. *)
Definition settle_entry (itemId : string) (obj : entry) : entry :=
  match obj with
  | Bare s => Bare s
  | Structured it =>
      if bool_decide (Item.id it = Some itemId)
      then Structured {| Item.id := Item.id it; Item.text := Item.text it;
                         Item.completed := Some (default false (Item.completed it)) |}
      else Structured it
  end.

Definition settle_phase (k : kind) (phaseId itemId : string) (phase : Phase.t)
  : Phase.t :=
  if bool_decide (Phase.id phase = Some phaseId)
  then with_items k (map (settle_entry itemId) (default [] (items_of k phase))) phase
  else phase.

(** The roadmap after two toggles of the same pair. *)
Definition settle (k : kind) (r : Roadmap.t) (phaseId itemId : string) : Roadmap.t :=
  Roadmap.with_phases
    (map (settle_phase k phaseId itemId) (default [] (Roadmap.phases r))) r.

(** The designated item carries a boolean [completed]. *)
Definition entry_boolean (itemId : string) (obj : entry) : bool :=
  match obj with
  | Bare _ => true
  | Structured it =>
      if bool_decide (Item.id it = Some itemId)
      then bool_decide (is_Some (Item.completed it))
      else true
  end.

(** Every item of checklist [k] that the pair designates carries a
    boolean [completed], as every item does that [fetchRoadmap] wrapped or
    a toggle touched. *)
Definition designated_boolean (k : kind) (r : Roadmap.t) (phaseId itemId : string)
  : bool :=
  forallb (fun phase =>
             if bool_decide (Phase.id phase = Some phaseId)
             then forallb (entry_boolean itemId) (default [] (items_of k phase))
             else true)
    (default [] (Roadmap.phases r)).

(** [a] was created before [b], by the whole timestamp. *)
Definition created_before (a b : Roadmap.t) : Prop :=
  match Roadmap.createdAt a, Roadmap.createdAt b with
  | Some ta, Some tb =>
      (seconds ta < seconds tb)%Z
      \/ (seconds ta = seconds tb /\ (nanoseconds ta < nanoseconds tb)%Z)
  | _, _ => False
  end.

(** Descending by [createdAt]: no roadmap of the list stands before one
    that was created after it. *)
Definition newest_first (l : list Roadmap.t) : Prop :=
  StronglySorted (fun a b => ~ created_before a b) l.

(** Every stored document carries the [createdAt] that [saveRoadmap] set. *)
Definition stamped (db : Firestore.t) : bool :=
  forallb (fun d => bool_decide (is_Some (Roadmap.createdAt d)))
    (Firestore.documents db).

(** ** Sample data *)

Module Sample.

(** A document with none of the optional properties. *)
Definition blank (id userId : string) : Roadmap.t :=
  {| Roadmap.doc_id := id; Roadmap.data_id := None; Roadmap.userId := userId;
     Roadmap.createdAt := None; Roadmap.updatedAt := None;
     Roadmap.status := "active"; Roadmap.progress := None;
     Roadmap.phases := None; Roadmap.learningResources := None;
     Roadmap.selectedTools := None; Roadmap.completedTools := None;
     Roadmap.currentTool := None |}.

Definition tool (name : string) : Tool.t :=
  {| Tool.name := name; Tool.category := "General";
     Tool.difficulty := "Moderate"; Tool.estimatedTime := "N/A";
     Tool.description := "" |}.

(** A saved flat-tool roadmap and the state of its detail view. *)
Definition flat (tools : list Tool.t) (completed : list string)
  : FlatDetail.State :=
  {| FlatDetail.roadmap :=
       {| Roadmap.doc_id := "r1"; Roadmap.data_id := None; Roadmap.userId := "u1";
          Roadmap.createdAt := None; Roadmap.updatedAt := None;
          Roadmap.status := "active"; Roadmap.progress := Some (JS.Num 0);
          Roadmap.phases := None; Roadmap.learningResources := None;
          Roadmap.selectedTools := Some tools;
          Roadmap.completedTools := Some completed;
          Roadmap.currentTool := None |};
     FlatDetail.completedItems := JSSet.of_array completed;
     FlatDetail.updating := false;
     FlatDetail.error_message := None |}.

Definition abc : list Tool.t := [tool "A"; tool "B"; tool "C"].

Definition card (name domain : string) : Wizard.tool :=
  {| Wizard.name := name; Wizard.domain := Some domain;
     Wizard.description := None; Wizard.learning_time_weeks := Some 3%Z |}.

Definition someone : Wizard.profile :=
  {| Wizard.experience_level := "Junior"; Wizard.technical_skills := ["Python"] |}.

(** A session: upload, pick three tools, drop one, continue. *)
Definition session : list Wizard.event :=
  [ Wizard.ResumeCompleted (Some "resume text") (Some someone);
    Wizard.ToolClicked (card "Docker" "DevOps");
    Wizard.GenerateClicked;
    Wizard.ToolClicked (card "Kubernetes" "DevOps");
    Wizard.ToolClicked (card "React" "Frontend");
    Wizard.ToolClicked (card "Docker" "DevOps");
    Wizard.GenerateClicked ].

Definition item (id : string) (done : bool) : entry :=
  Structured {| Item.id := Some id; Item.text := "Learn " +:+ id;
                Item.completed := Some done |}.

Definition phase (id : string) (objectives milestones : list entry) : Phase.t :=
  {| Phase.id := Some id; Phase.phase_number := None;
     Phase.title := Some id; Phase.duration_weeks := Some 4%Z;
     Phase.tools_covered := Some []; 
     Phase.learning_objectives := Some objectives;
     Phase.milestones := Some milestones;
     Phase.expanded := Some false |}.

(** A roadmap as the detail view holds it: two phases, each with two
    objectives and one milestone. *)
Definition plan : Roadmap.t :=
  Roadmap.with_phases
    [ phase "phase-1" [item "o1" true; item "o2" false] [item "m1" false];
      phase "phase-2" [item "o3" false; item "o4" false] [item "m2" false] ]
    (blank "r1" "u1").

(** A stored document as [handleSaveRoadmap] writes it for a generated
    plan whose checklists are still bare strings. *)
Definition raw : Roadmap.t :=
  {| Roadmap.doc_id := "r2"; Roadmap.data_id := None; Roadmap.userId := "u1";
     Roadmap.createdAt := Some {| seconds := 1700000000; nanoseconds := 0 |};
     Roadmap.updatedAt := Some {| seconds := 1700000000; nanoseconds := 0 |};
     Roadmap.status := "active"; Roadmap.progress := Some (JS.Num 0);
     Roadmap.phases := Some [];
     Roadmap.learningResources :=
       Some [ {| Resource.toolName := Some "Git";
                 Resource.phase_number := None;
                 Resource.duration_weeks := Some 2%Z;
                 Resource.tools_covered := None;
                 Resource.learning_objectives :=
                   Some [Bare "Branching"; Bare "Rebasing"];
                 Resource.milestones := Some [Bare "First pull request"] |};
              {| Resource.toolName := None;
                 Resource.phase_number := None;
                 Resource.duration_weeks := None;
                 Resource.tools_covered := None;
                 Resource.learning_objectives := None;
                 Resource.milestones := None |} ];
     Roadmap.selectedTools := Some [tool "Git"];
     Roadmap.completedTools := Some [];
     Roadmap.currentTool := Some "Git" |}.

Definition saved (id userId : string) (s ns : Z) : Roadmap.t :=
  {| Roadmap.doc_id := id; Roadmap.data_id := None; Roadmap.userId := userId;
     Roadmap.createdAt := Some {| seconds := s; nanoseconds := ns |};
     Roadmap.updatedAt := Some {| seconds := s; nanoseconds := ns |};
     Roadmap.status := "active"; Roadmap.progress := Some (JS.Num 0);
     Roadmap.phases := Some []; Roadmap.learningResources := Some [];
     Roadmap.selectedTools := Some []; Roadmap.completedTools := Some [];
     Roadmap.currentTool := None |}.

(** A collection with the roadmaps of two users, in document-id order,
    whose composite index has not been created. *)
Definition store : Firestore.t :=
  {| Firestore.documents :=
       [ saved "a" "u1" 100 0; saved "b" "u2" 400 0;
         saved "c" "u1" 300 0; saved "d" "u1" 200 5 ];
     Firestore.index_built := false;
     Firestore.available := true |}.

(** A stand-in for the clock and the random source. *)
Definition stamp (k : nat) : string := "1700000000000-0." +:+ pretty k.
End Sample.

(** ** Further functions of the detail and list views *)

(** The counters [calculateProgressFromRoadmap] ends its loops with. *)
Definition item_counters (roadmapData : Roadmap.t) : counters :=
  forEach (Roadmap.phases roadmapData) count_phase
    {| totalItems := 0; completedItems := 0 |}.

(** [xs?.length || 0] *)
Definition length_or_0 (xs : option (list entry)) : nat :=
  length (default [] xs).

(** [xs?.filter(x => x.completed).length || 0] *)
Definition completed_length (xs : option (list entry)) : nat :=
  length (filter (fun x => entry_completed x = true) (default [] xs)).

(** The two numbers of the "Completed" tile of the detail view:
    [roadmap.phases?.reduce((acc, p) => acc + ... + ..., 0)], over the
    completed entries and over all entries; [None] is [undefined]. *)
Definition header_completed (roadmap : Roadmap.t) : option nat :=
  (fun ps =>
     fold_left
       (fun acc p => acc + completed_length (Phase.learning_objectives p)
                     + completed_length (Phase.milestones p))%nat
       ps 0%nat) <$> Roadmap.phases roadmap.

Definition header_total (roadmap : Roadmap.t) : option nat :=
  (fun ps =>
     fold_left
       (fun acc p => acc + length_or_0 (Phase.learning_objectives p)
                     + length_or_0 (Phase.milestones p))%nat
       ps 0%nat) <$> Roadmap.phases roadmap.

(** [getProgressStats(roadmap)] of the list view (RoadmapList.jsx). *)
Record progressStats := {
  stats_progress : JS.number;
  stats_completedItems : nat;
  stats_totalItems : nat
}.

Definition getProgressStats (roadmap : Roadmap.t) : progressStats :=
  let progress := Roadmap.progress roadmap ||| JS.Num 0 in
  let c :=
    match Roadmap.phases roadmap with
    | Some ps =>
        fold_left
          (fun c phase =>
             let c := match Phase.learning_objectives phase with
                      | Some los => fold_left count_entry los c
                      | None => c
                      end in
             match Phase.milestones phase with
             | Some mss => fold_left count_entry mss c
             | None => c
             end)
          ps {| totalItems := 0; completedItems := 0 |}
    | None => {| totalItems := 0; completedItems := 0 |}
    end in
  {| stats_progress := progress;
     stats_completedItems := completedItems c;
     stats_totalItems := totalItems c |}.

(** [{ ...phase, expanded: e }] *)
Definition with_expanded (e : bool) (phase : Phase.t) : Phase.t :=
  {| Phase.id := Phase.id phase; Phase.phase_number := Phase.phase_number phase;
     Phase.title := Phase.title phase;
     Phase.duration_weeks := Phase.duration_weeks phase;
     Phase.tools_covered := Phase.tools_covered phase;
     Phase.learning_objectives := Phase.learning_objectives phase;
     Phase.milestones := Phase.milestones phase;
     Phase.expanded := Some e |}.

(** The updater of [togglePhaseExpansion(phaseId)]:
    [phase.id === phaseId ? { ...phase, expanded: !phase.expanded } : phase]
    over [prev.phases]. *)
Definition togglePhaseExpansion (prev : Roadmap.t) (phaseId : string)
  : result Roadmap.t :=
  ps ← defined "map" (Roadmap.phases prev);
  Ok (Roadmap.with_phases
        (map (fun phase =>
                if bool_decide (Phase.id phase = Some phaseId)
                then with_expanded (negb (default false (Phase.expanded phase))) phase
                else phase)
           ps)
        prev).

(** The entries of a phase, and the completed ones among them. *)
Definition phase_total (p : Phase.t) : nat :=
  (length_or_0 (Phase.learning_objectives p) + length_or_0 (Phase.milestones p))%nat.

Definition phase_done (p : Phase.t) : nat :=
  (completed_length (Phase.learning_objectives p)
   + completed_length (Phase.milestones p))%nat.

(** [x === y] on numbers *)
Definition number_eq (x y : JS.number) : bool :=
  match x, y with
  | JS.Num a, JS.Num b => Qeq_bool a b
  | JS.Infinity, JS.Infinity | JS.NegInfinity, JS.NegInfinity => true
  | _, _ => false
  end.

(** [Math.round((c / t) * 100)] in binary64, as an integer. *)
Definition percent (c t : nat) : Z :=
  Qfloor (JS.binary64
            (JS.binary64 (inject_Z (Z.of_nat c) / inject_Z (Z.of_nat t))
             * inject_Z (Z.of_nat 100))
          + (1 # 2)).

(** [completedPhases]:
    [roadmap.phases?.filter(p => getPhaseProgress(p) === 100).length || 0] *)
Definition completedPhases (roadmap : Roadmap.t) : nat :=
  length (filter (fun p => number_eq (getPhaseProgress JS.binary64 p) (JS.Num 100) = true)
            (default [] (Roadmap.phases roadmap))).

(** The bare strings among the checklist entries of a document. *)
Definition bare_in (xs : option (list entry)) : nat :=
  length (filter (fun e => is_structured e = false) (default [] xs)).

Definition bare_count (roadmapData : Roadmap.t) : nat :=
  sum_list ((fun p => bare_in (Phase.learning_objectives p)
                      + bare_in (Phase.milestones p))%nat
              <$> default [] (Roadmap.phases roadmapData)).

(** The checklist holds bare strings only, as in a generated roadmap
    that was never opened in the detail view. *)
Definition only_strings (xs : option (list entry)) : bool :=
  forallb (fun e => negb (is_structured e)) (default [] xs).

Definition plain (roadmapData : Roadmap.t) : bool :=
  forallb (fun p => only_strings (Phase.learning_objectives p)
                    && only_strings (Phase.milestones p))
    (default [] (Roadmap.phases roadmapData)).

(** The prefix of the identifiers [fetchRoadmap] gives to the items of a
    checklist. *)
Definition prefix_of (k : kind) : string :=
  match k with
  | Objective => "obj"
  | Milestone => "ms"
  end.

(** [i] is an identifier [fetchRoadmap] builds with the prefix from one
    of the stamps [k .. k' - 1]; and those stamps are pairwise distinct. *)
Definition drawn (stamp : nat -> string) (prefix i : string) (k k' : nat) : Prop :=
  exists j, (k <= j < k')%nat /\ i = prefix +:+ "-" +:+ stamp j.

Definition distinct_stamps (stamp : nat -> string) (k k' : nat) : Prop :=
  forall a b, (k <= a < b)%nat -> (b < k')%nat -> stamp a <> stamp b.

(** How many entries carry the identifier [itemId]. *)
Definition id_count (itemId : string) (es : list entry) : nat :=
  length (filter (fun e => entry_has_id itemId e = true) es).

(** ** Further functions of the service (services/roadmapService.js) *)

(** [getRoadmapById(roadmapId)] *)
Definition getRoadmapById (db : Firestore.t) (roadmapId : string) : getResponse :=
  if negb (Firestore.available db)
  then {| get_success := false; get_roadmap := None;
          get_error := Some "unavailable" |}
  else
    match List.find (fun d => bool_decide (Roadmap.doc_id d = roadmapId))
            (Firestore.documents db) with
    | Some d => {| get_success := true; get_roadmap := Some d; get_error := None |}
    | None => {| get_success := false; get_roadmap := None;
                 get_error := Some "Roadmap not found" |}
    end.

(** [{ status, updatedAt: serverTimestamp() }] merged into [d] by
    [updateRoadmapStatus]. *)
Definition status_patch (now : Timestamp) (status : string) (d : Roadmap.t)
  : Roadmap.t :=
  {| Roadmap.doc_id := Roadmap.doc_id d;
     Roadmap.data_id := Roadmap.data_id d;
     Roadmap.userId := Roadmap.userId d;
     Roadmap.createdAt := Roadmap.createdAt d;
     Roadmap.updatedAt := Some now;
     Roadmap.status := status;
     Roadmap.progress := Roadmap.progress d;
     Roadmap.phases := Roadmap.phases d;
     Roadmap.learningResources := Roadmap.learningResources d;
     Roadmap.selectedTools := Roadmap.selectedTools d;
     Roadmap.completedTools := Roadmap.completedTools d;
     Roadmap.currentTool := Roadmap.currentTool d |}.

(** An update applied to the documents with the given id. *)
Definition patch_at (roadmapId : string) (f : Roadmap.t -> Roadmap.t)
    (d : Roadmap.t) : Roadmap.t :=
  if bool_decide (Roadmap.doc_id d = roadmapId) then f d else d.

(** The collections the writers of the service produce from an empty
    one; [addDoc] gives every new document an id no document has. *)
Inductive written : Firestore.t -> Prop :=
| written_empty index available :
    written {| Firestore.documents := [];
               Firestore.index_built := index;
               Firestore.available := available |}
| written_save db newId now userId roadmapData :
    written db ->
    newId ∉ Roadmap.doc_id <$> Firestore.documents db ->
    written (saveRoadmap db newId now userId roadmapData).2
| written_progress db now roadmapId progressData :
    written db -> written (updateRoadmapProgress db now roadmapId progressData)
| written_status db now roadmapId status :
    written db -> written (updateRoadmapStatus db now roadmapId status)
| written_delete db roadmapId :
    written db -> written (deleteRoadmap db roadmapId).

(** ** Further functions of the wizard *)

(** [isToolSelected(tool)] of InterestSelector. *)
Definition isToolSelected (selectedTools : list Wizard.tool) (tool : Wizard.tool)
  : bool :=
  existsb (fun t => bool_decide (Wizard.toolId t = Wizard.toolId tool)) selectedTools.

(** [getTotalLearningTime()] of InterestSelector. *)
Definition getTotalLearningTime (selectedTools : list Wizard.tool) : Z :=
  fold_left (fun total tool => (total + (Wizard.learning_time_weeks tool ||| 0))%Z)
    selectedTools 0%Z.

(** [x > y] on numbers *)
Definition number_gt (x y : JS.number) : bool :=
  match x, y with
  | JS.Num a, JS.Num b => negb (Qle_bool a b)
  | JS.Infinity, (JS.Num _ | JS.NegInfinity) => true
  | JS.Num _, JS.NegInfinity => true
  | _, _ => false
  end.

(** components/TimeCommitment.jsx *)
Module TimeCommitment.

(** [selectedTools?.reduce((sum, tool) => sum + (tool.learning_time_weeks || 0), 0) || 0] *)
Definition totalWeeks (selectedTools : option (list Wizard.tool)) : Z :=
  default 0%Z (getTotalLearningTime <$> selectedTools).

Inductive level := unrealistic | intensive | moderate | comfortable.

Record intensity := { level_of : level; message : string }.

(** [calculateIntensity()].  [weeksUntilDeadline] is
    [Math.ceil((deadlineDate - today) / (1000 * 60 * 60 * 24 * 7))], which
    depends on the clock; [None] is [null]. *)
Definition calculateIntensity (rnd : Q -> Q) (deadline : string)
    (totalWeeks hoursPerWeek weeksUntilDeadline : Z) : option intensity :=
  if negb (JS.truthy deadline) || negb (JS.truthy totalWeeks) then None
  else if (weeksUntilDeadline <? totalWeeks)%Z then
    Some {| level_of := unrealistic;
            message := "Timeline is too ambitious. Consider extending your deadline or reducing tools." |}
  else
    let requiredHours :=
      JS.mul rnd
        (JS.div rnd (JS.Num (inject_Z totalWeeks)) (JS.Num (inject_Z weeksUntilDeadline)))
        (JS.Num (inject_Z hoursPerWeek)) in
    if number_gt requiredHours (JS.Num 20) then
      Some {| level_of := intensive;
              message := "This will require intensive focus. Make sure you can commit this time." |}
    else if number_gt requiredHours (JS.Num 10) then
      Some {| level_of := moderate;
              message := "Moderate pace required. This is achievable with consistent effort." |}
    else
      Some {| level_of := comfortable;
              message := "Comfortable pace. You have time for a balanced approach." |}.
End TimeCommitment.

(** ** Sessions of the flat detail view *)

(** [fetchRoadmapDetail] on a successful response: the state of the
    freshly mounted view afterwards.  [completedItems] starts as
    [new Set()] and is replaced when the document has [completedTools]. *)
Definition fetchRoadmapDetail (d : Roadmap.t) : FlatDetail.State :=
  {| FlatDetail.roadmap := d;
     FlatDetail.completedItems :=
       match Roadmap.completedTools d with
       | Some cs => JSSet.of_array cs
       | None => []
       end;
     FlatDetail.updating := false;
     FlatDetail.error_message := None |}.

(** A sequence of clicks on tools, each with the outcome of its save. *)
Fixpoint clicks (rnd : Q -> Q) (cs : list (string * bool)) (st : FlatDetail.State)
  : result FlatDetail.State :=
  match cs with
  | [] => Ok st
  | (toolName, success) :: cs' =>
      st' ← FlatDetail.handleToggleComplete rnd st toolName success;
      clicks rnd cs' st'
  end.

(** ** Saving a generated roadmap ([handleSaveRoadmap] of App.jsx) *)

Module Saver.

(** A selected tool as the recommendation service returns it, with the
    alternative spellings [handleSaveRoadmap] looks at. *)
Record tool := {
  name : option string;
  tool_name : option string;
  domain : option string;
  category : option string;
  difficulty : option string;
  learning_time_weeks : option Z;
  estimated_time : option string;
  estimatedTime : option string;
  description : option string
}.

(** The element of [selectedTools] in [roadmapToSave]. *)
Definition saved_tool (t : tool) : Tool.t :=
  {| Tool.name := name t ||| (tool_name t ||| "Unknown Tool");
     Tool.category := domain t ||| (category t ||| "General");
     Tool.difficulty := difficulty t ||| "Moderate";
     Tool.estimatedTime :=
       match learning_time_weeks t with
       | Some w => if JS.truthy w then pretty w +:+ " weeks"
                   else estimated_time t ||| (estimatedTime t ||| "N/A")
       | None => estimated_time t ||| (estimatedTime t ||| "N/A")
       end;
     Tool.description := description t ||| "" |}.

(** The learning resource extracted from a generated phase.  The
    literal has the keys [phase_number] and [duration_weeks] whatever the
    phase has: [phase_number: phase.phase_number]. *)
Definition resource_of_phase (phase : Phase.t) : RoadmapData.resource :=
  {| RoadmapData.toolName := Some (Phase.title phase ||| "Unknown");
     RoadmapData.phase_number :=
       match Phase.phase_number phase with
       | Some n => Present n
       | None => Undefined
       end;
     RoadmapData.duration_weeks :=
       match Phase.duration_weeks phase with
       | Some n => Present n
       | None => Undefined
       end;
     RoadmapData.tools_covered := Some (Phase.tools_covered phase ||| []);
     RoadmapData.learning_objectives :=
       Some (Phase.learning_objectives phase ||| []);
     RoadmapData.milestones := Some (Phase.milestones phase ||| []) |}.

(** [learningResources] of [handleSaveRoadmap]: from the phases if the
    generated roadmap has them, else from either spelling of its
    resources. *)
Definition learningResources (roadmap : Adapter.response)
  : list RoadmapData.resource :=
  match Adapter.phases roadmap with
  | Some ps => map resource_of_phase ps
  | None =>
      match Adapter.learning_resources roadmap with
      | Some rs => map RoadmapData.of_json rs
      | None => map RoadmapData.of_json (default [] (Adapter.learningResources roadmap))
      end
  end.

(** The properties of [roadmapToSave] that the list and detail views
    read; it has no [id] and no [userId] of its own. *)
Definition roadmapToSave (selectedTools : list tool) (roadmap : Adapter.response)
  : RoadmapData.t :=
  {| RoadmapData.id := None; RoadmapData.userId := None;
     RoadmapData.progress := Some (JS.Num 0);
     RoadmapData.phases := Some (Adapter.phases roadmap ||| []);
     RoadmapData.learningResources := Some (learningResources roadmap);
     RoadmapData.selectedTools := Some (map saved_tool selectedTools);
     RoadmapData.completedTools := Some [];
     RoadmapData.currentTool :=
       match selectedTools with
       | first :: _ =>
           match name first with
           | Some n => if JS.truthy n then Some n
                       else match tool_name first with
                            | Some m => if JS.truthy m then Some m else None
                            | None => None
                            end
           | None => match tool_name first with
                     | Some m => if JS.truthy m then Some m else None
                     | None => None
                     end
           end
       | [] => None
       end |}.

(** The state of [App] that [handleSaveRoadmap] writes. *)
Record State := {
  savingRoadmap : bool;
  error : option string;
  currentRoadmapId : option string
}.

(** [handleSaveRoadmap()]: the state and the collection afterwards.
    [user] is [user.uid] of the signed-in user and [roadmap] the generated
    roadmap in the state of [App]; [None] is [null]. *)
Definition handleSaveRoadmap (db : Firestore.t) (newId : string) (now : Timestamp)
    (user : option string) (selectedTools : list tool)
    (roadmap : option Adapter.response) (st : State) : State * Firestore.t :=
  match user, roadmap with
  | None, _ =>
      ({| savingRoadmap := savingRoadmap st;
          error := Some "Please login to save your roadmap";
          currentRoadmapId := currentRoadmapId st |}, db)
  | Some _, None =>
      ({| savingRoadmap := savingRoadmap st;
          error := Some "No roadmap to save";
          currentRoadmapId := currentRoadmapId st |}, db)
  | Some uid, Some generated =>
      let '(result, db') :=
        saveRoadmap db newId now uid (roadmapToSave selectedTools generated) in
      if save_success result
      then ({| savingRoadmap := false; error := None;
               currentRoadmapId := save_roadmapId result |}, db')
      else ({| savingRoadmap := false;
               error :=
                 Some (Some (save_error result ||| "Failed to save roadmap")
                       ||| "Failed to save roadmap. Please try again.");
               currentRoadmapId := currentRoadmapId st |}, db')
  end.

(** Every generated phase has the two numbers that [handleSaveRoadmap]
    copies into the resources. *)
Definition numbered (roadmap : Adapter.response) : bool :=
  forallb (fun p => bool_decide (is_Some (Phase.phase_number p))
                    && bool_decide (is_Some (Phase.duration_weeks p)))
    (default [] (Adapter.phases roadmap)).

(** Every checklist of the generated roadmap holds bare strings only. *)
Definition generated_plain (roadmap : Adapter.response) : bool :=
  forallb (fun p => only_strings (Phase.learning_objectives p)
                    && only_strings (Phase.milestones p))
    (default [] (Adapter.phases roadmap))
  && forallb (fun r => only_strings (RoadmapData.learning_objectives r)
                       && only_strings (RoadmapData.milestones r))
       (learningResources roadmap).
End Saver.

(** ** Tool data (utils/roadmapAdapter.js) *)

Module ToolAdapter.

Record raw := {
  name : option string;
  tool_name : option string;
  toolName : option string;
  category : option string;
  difficulty : option string;
  estimated_time : option string;
  estimatedTime : option string;
  duration : option string
}.

Record adapted := {
  a_name : string;
  a_category : string;
  a_difficulty : string;
  a_estimatedTime : string
}.

(** [adaptToolData(tool)]; [None] is [null]. *)
Definition adaptToolData (tool : option raw) : option adapted :=
  match tool with
  | None => None
  | Some t =>
      Some {| a_name := name t ||| (tool_name t ||| (toolName t ||| "Unknown Tool"));
              a_category := category t ||| "General";
              a_difficulty := difficulty t ||| "Moderate";
              a_estimatedTime :=
                estimated_time t ||| (estimatedTime t ||| (duration t ||| "N/A")) |}
  end.
End ToolAdapter.

(** ** Further sample data *)

Module Draft.

(** A phase as the generation endpoint returns it: checklists of bare
    strings. *)
Definition git : Phase.t :=
  {| Phase.id := Some "phase-1"; Phase.phase_number := Some 1%Z;
     Phase.title := Some "Git"; Phase.duration_weeks := Some 2%Z;
     Phase.tools_covered := Some [Some "Git"];
     Phase.learning_objectives := Some [Bare "Branching"; Bare "Rebasing"];
     Phase.milestones := Some [Bare "First pull request"];
     Phase.expanded := None |}.

Definition generated : Adapter.response :=
  {| Adapter.estimated_weeks := Some 6%Z; Adapter.estimatedWeeks := None;
     Adapter.learning_resources := None; Adapter.learningResources := None;
     Adapter.project_ideas := None; Adapter.projectIdeas := None;
     Adapter.career_insights := None; Adapter.careerInsights := None;
     Adapter.phases := Some [git] |}.

Definition tools : list Saver.tool :=
  [ {| Saver.name := Some "Git"; Saver.tool_name := None;
       Saver.domain := Some "DevOps"; Saver.category := None;
       Saver.difficulty := None; Saver.learning_time_weeks := Some 2%Z;
       Saver.estimated_time := None; Saver.estimatedTime := None;
       Saver.description := None |};
    {| Saver.name := None; Saver.tool_name := Some "Docker";
       Saver.domain := None; Saver.category := Some "Containers";
       Saver.difficulty := Some "Easy"; Saver.learning_time_weeks := None;
       Saver.estimated_time := Some "4 weeks"; Saver.estimatedTime := None;
       Saver.description := Some "Images and containers" |} ].

(** A stored document with phases that was never opened. *)
Definition doc : Roadmap.t :=
  Roadmap.with_phases [git] (Sample.blank "r3" "u1").

(** The same document as the detail view holds it after loading. *)
Definition opened : Roadmap.t :=
  Eval vm_compute in
    match normalize Sample.stamp 0 doc with
    | Ok (y, _) => y
    | Throw _ => doc
    end.

(** A roadmap with one finished phase and one untouched phase. *)
Definition half_done : Roadmap.t :=
  Roadmap.with_phases
    [ Sample.phase "phase-1" [Sample.item "o1" true] [Sample.item "m1" true];
      Sample.phase "phase-2" [Sample.item "o2" false] [] ]
    (Sample.blank "r4" "u1").

Definition now : Timestamp := {| seconds := 1700000000; nanoseconds := 0 |}.

(** A roadmap in the detail view with an objective that was stored
    without [completed]. *)
Definition unmarked : Roadmap.t :=
  Roadmap.with_phases
    [ Sample.phase "phase-1"
        [ Structured {| Item.id := Some "o1"; Item.text := "Learn o1";
                        Item.completed := None |} ]
        [ Sample.item "m1" false ] ]
    (Sample.blank "r5" "u1").

(** A stored flat roadmap whose [completedTools] names a tool that is not
    among its [selectedTools]. *)
Definition foreign : Roadmap.t :=
  FlatDetail.roadmap (Sample.flat [Sample.tool "A"] ["B"]).

(** Two roadmaps of one user saved within the same second, the second
    600 ms after the first, in a collection without the composite index. *)
Definition twins : Firestore.t :=
  {| Firestore.documents :=
       [ Sample.saved "a" "u1" 1700000200 100000000;
         Sample.saved "b" "u1" 1700000200 700000000 ];
     Firestore.index_built := false;
     Firestore.available := true |}.

(** A roadmap object that is saved again as it was read: it carries the
    [id] and the [userId] of the document it came from. *)
Definition copy : RoadmapData.t :=
  {| RoadmapData.id := Some "a"; RoadmapData.userId := Some "u2";
     RoadmapData.progress := Some (JS.Num 50);
     RoadmapData.phases := Some [git];
     RoadmapData.learningResources := Some [];
     RoadmapData.selectedTools := Some [Sample.tool "Git"];
     RoadmapData.completedTools := Some [];
     RoadmapData.currentTool := Some "Git" |}.

(** A generated roadmap one of whose phases lacks [duration_weeks]. *)
Definition unnumbered : Adapter.response :=
  {| Adapter.estimated_weeks := Some 6%Z; Adapter.estimatedWeeks := None;
     Adapter.learning_resources := None; Adapter.learningResources := None;
     Adapter.project_ideas := None; Adapter.projectIdeas := None;
     Adapter.career_insights := None; Adapter.careerInsights := None;
     Adapter.phases :=
       Some [ {| Phase.id := Some "phase-1"; Phase.phase_number := Some 1%Z;
                 Phase.title := Some "Git"; Phase.duration_weeks := None;
                 Phase.tools_covered := Some [Some "Git"];
                 Phase.learning_objectives := Some [Bare "Branching"];
                 Phase.milestones := Some [];
                 Phase.expanded := None |} ] |}.

Definition signed_out : Saver.State :=
  {| Saver.savingRoadmap := false; Saver.error := None;
     Saver.currentRoadmapId := None |}.

Definition empty_store : Firestore.t :=
  {| Firestore.documents := []; Firestore.index_built := false;
     Firestore.available := true |}.

(** A card of a recommendation that came without a domain name. *)
Definition vim : Wizard.tool :=
  {| Wizard.name := "Vim"; Wizard.domain := None;
     Wizard.description := None; Wizard.learning_time_weeks := None |}.

(** The wizard while the generation request is in flight. *)
Definition pending : Wizard.State :=
  Wizard.run
    (Sample.session
       ++ [Wizard.PreferencesSubmitted
             {| Wizard.hoursPerWeek := 6; Wizard.learningStyle := None;
                Wizard.deadline := None |}]).

Definition answer : Wizard.generateResponse :=
  {| Wizard.gen_success := true; Wizard.gen_roadmap := Some doc;
     Wizard.gen_message := None |}.
End Draft.

(** * Properties *)

(** ** Progress *)

Lemma count_entry_le c obj :
  (completedItems c <= totalItems c)%nat ->
  (completedItems (count_entry c obj) <= totalItems (count_entry c obj))%nat.
Proof. unfold count_entry; simpl. destruct (entry_completed obj); lia. Qed.

Lemma forEach_count_entry_le xs c :
  (completedItems c <= totalItems c)%nat ->
  (completedItems (forEach xs count_entry c)
   <= totalItems (forEach xs count_entry c))%nat.
Proof.
  unfold forEach. generalize (default [] xs) as l. intros l. revert c.
  induction l as [|obj l IH]; intros c Hc; simpl; [done|].
  apply IH, count_entry_le, Hc.
Qed.

Lemma count_phase_le c phase :
  (completedItems c <= totalItems c)%nat ->
  (completedItems (count_phase c phase) <= totalItems (count_phase c phase))%nat.
Proof.
  intros Hc. unfold count_phase.
  by do 2 apply forEach_count_entry_le.
Qed.

Lemma count_phases_le ps c :
  (completedItems c <= totalItems c)%nat ->
  (completedItems (fold_left count_phase ps c)
   <= totalItems (fold_left count_phase ps c))%nat.
Proof.
  revert c. induction ps as [|phase ps IH]; intros c Hc; simpl; [done|].
  apply IH, count_phase_le, Hc.
Qed.

Section ProgressBounds.
(** The rounding of the arithmetic is monotone and leaves 0, 1 and 100
    unchanged, as rounding to nearest in any binary format does. *)
Variable rnd : Q -> Q.
Hypothesis rnd_monotone : forall x y, (x <= y)%Q -> (rnd x <= rnd y)%Q.
Hypothesis rnd_0 : (rnd 0 == 0)%Q.
Hypothesis rnd_1 : (rnd 1 == 1)%Q.
Hypothesis rnd_100 : (rnd 100 == 100)%Q.

Lemma rnd_proper x y : (x == y)%Q -> (rnd x == rnd y)%Q.
Proof.
  intros E. apply Qle_antisym; apply rnd_monotone; rewrite E; apply Qle_refl.
Qed.

(** The ratio of two counters, times one hundred, rounded: an integer
    between 0 and 100. *)
Lemma ratio_bounds (c t : nat) :
  (c <= t)%nat -> (0 < t)%nat ->
  exists z : Z,
    JS.round (JS.mul rnd (JS.div rnd (JS.of_nat c) (JS.of_nat t)) (JS.of_nat 100))
    = JS.Num (inject_Z z) /\ (0 <= z <= 100)%Z.
Proof.
  intros Hct Ht. unfold JS.of_nat, JS.div.
  assert (Hy : (0 < inject_Z (Z.of_nat t))%Q).
  { rewrite <- (Zlt_Qlt 0). lia. }
  destruct (Qeq_bool (inject_Z (Z.of_nat t)) 0) eqn:E.
  { apply Qeq_bool_iff in E. rewrite E in Hy. by apply Qlt_irrefl in Hy. }
  unfold JS.mul, JS.round. eexists; split; [reflexivity|].
  set (x := inject_Z (Z.of_nat c)). set (y := inject_Z (Z.of_nat t)).
  assert (H0 : (0 <= x / y)%Q).
  { apply Qle_shift_div_l; [done|]. rewrite Qmult_0_l.
    unfold x. rewrite <- (Zle_Qle 0). lia. }
  assert (H1 : (x / y <= 1)%Q).
  { apply Qle_shift_div_r; [done|]. rewrite Qmult_1_l.
    unfold x, y. rewrite <- Zle_Qle. lia. }
  assert (Hq0 : (0 <= rnd (x / y))%Q).
  { rewrite <- rnd_0. by apply rnd_monotone. }
  assert (Hq1 : (rnd (x / y) <= 1)%Q).
  { rewrite <- rnd_1. by apply rnd_monotone. }
  set (q := rnd (x / y)) in *.
  assert (Hm0 : (0 <= rnd (q * inject_Z (Z.of_nat 100)))%Q).
  { rewrite <- rnd_0. apply rnd_monotone.
    apply Qmult_le_0_compat; [done|]. by compute. }
  assert (Hm1 : (rnd (q * inject_Z (Z.of_nat 100)) <= 100)%Q).
  { rewrite <- rnd_100. apply rnd_monotone.
    apply Qle_trans with (1 * inject_Z (Z.of_nat 100))%Q; [|by compute].
    apply Qmult_le_compat_r; [done|]. by compute. }
  set (m := rnd (q * inject_Z (Z.of_nat 100))) in *.
  split.
  - change 0%Z with (Qfloor (1 # 2)). apply Qfloor_resp_le.
    rewrite <- (Qplus_0_l (1 # 2)) at 1. by apply Qplus_le_l.
  - change 100%Z with (Qfloor (100 + (1 # 2))). apply Qfloor_resp_le.
    by apply Qplus_le_l.
Qed.

Lemma percentage_bounds c :
  (completedItems c <= totalItems c)%nat ->
  exists z : Z, percentage rnd c = JS.Num (inject_Z z) /\ (0 <= z <= 100)%Z.
Proof.
  intros Hc. unfold percentage.
  destruct (0 <? totalItems c)%nat eqn:E.
  - apply Nat.ltb_lt in E. by apply ratio_bounds.
  - exists 0%Z. split; [reflexivity | lia].
Qed.

(** The persisted progress of a phase-based roadmap is an integer between
    0 and 100. *)
Theorem calculateProgressFromRoadmap_bounds (r : Roadmap.t) :
  exists z : Z,
    calculateProgressFromRoadmap rnd r = JS.Num (inject_Z z)
    /\ (0 <= z <= 100)%Z.
Proof.
  unfold calculateProgressFromRoadmap, forEach.
  apply percentage_bounds, count_phases_le. simpl. lia.
Qed.

(** The progress of one phase is an integer between 0 and 100. *)
Theorem getPhaseProgress_bounds (phase : Phase.t) :
  exists z : Z,
    getPhaseProgress rnd phase = JS.Num (inject_Z z) /\ (0 <= z <= 100)%Z.
Proof.
  unfold getPhaseProgress.
  set (os := default [] (Phase.learning_objectives phase)).
  set (ms := default [] (Phase.milestones phase)).
  destruct (length os + length ms =? 0)%nat eqn:E.
  - exists 0%Z. split; [reflexivity | lia].
  - apply Nat.eqb_neq in E. apply ratio_bounds; [|lia].
    pose proof (length_filter (fun obj => entry_completed obj = true) os).
    pose proof (length_filter (fun obj => entry_completed obj = true) ms).
    lia.
Qed.
End ProgressBounds.

(** *** The binary64 rounding is monotone and exact on 0, 1 and 100 *)

Module Binary64.
Import JS.

Lemma two_pow_pos z : (0 < 2 ^ z)%Q.
Proof. by apply Qpower_0_lt. Qed.

Lemma two_pow_plus n m : (2 ^ (n + m) == 2 ^ n * 2 ^ m)%Q.
Proof. by apply Qpower_plus. Qed.

Lemma exponent_spec a :
  (0 < a)%Q -> (2 ^ exponent a <= a)%Q /\ (a < 2 ^ (exponent a + 1))%Q.
Proof.
  intros Hpos. destruct a as [p d].
  assert (Hp : (0 < p)%Z).
  { unfold Qlt in Hpos. simpl in Hpos. lia. }
  set (lp := Z.log2 p). set (ld := Z.log2 (Z.pos d)).
  destruct (Z.log2_spec p Hp) as [Hp1 Hp2]. fold lp in Hp1, Hp2.
  destruct (Z.log2_spec (Z.pos d) eq_refl) as [Hd1 Hd2]. fold ld in Hd1, Hd2.
  assert (Hlp : (0 <= lp)%Z) by apply Z.log2_nonneg.
  assert (Hld : (0 <= ld)%Z) by apply Z.log2_nonneg.
  assert (HP1 : (2 ^ lp <= inject_Z p)%Q).
  { rewrite <- (Zpower_Qpower 2 lp) by done. by rewrite <- Zle_Qle. }
  assert (HP2 : (inject_Z p < 2 ^ (lp + 1))%Q).
  { rewrite <- (Zpower_Qpower 2 (lp + 1)) by lia. rewrite <- Zlt_Qlt.
    by rewrite <- Z.add_1_r in Hp2. }
  assert (HD1 : (2 ^ ld <= inject_Z (Z.pos d))%Q).
  { rewrite <- (Zpower_Qpower 2 ld) by done. by rewrite <- Zle_Qle. }
  assert (HD2 : (inject_Z (Z.pos d) < 2 ^ (ld + 1))%Q).
  { rewrite <- (Zpower_Qpower 2 (ld + 1)) by lia. rewrite <- Zlt_Qlt.
    by rewrite <- Z.add_1_r in Hd2. }
  assert (HD0 : (0 < inject_Z (Z.pos d))%Q) by done.
  assert (Ha : (p # d == inject_Z p / inject_Z (Z.pos d))%Q)
    by apply Qmake_Qdiv.
  assert (Hup : (p # d < 2 ^ (lp - ld + 1))%Q).
  { rewrite Ha. apply Qlt_shift_div_r; [done|].
    eapply Qlt_le_trans; [exact HP2|].
    replace (lp + 1)%Z with ((lp - ld + 1) + ld)%Z by lia.
    rewrite two_pow_plus. apply Qmult_le_l; [apply two_pow_pos | done]. }
  assert (Hlow : (2 ^ (lp - ld - 1) < p # d)%Q).
  { rewrite Ha. apply Qlt_shift_div_l; [done|].
    eapply Qlt_le_trans; [|exact HP1].
    replace lp with ((lp - ld - 1) + (ld + 1))%Z at 2 by lia.
    rewrite two_pow_plus. apply Qmult_lt_l; [apply two_pow_pos | done]. }
  unfold exponent. simpl Qnum. simpl Qden. fold lp ld.
  destruct (Qle_bool (2 ^ (lp - ld)) (p # d)) eqn:E.
  - apply Qle_bool_iff in E. by split.
  - assert (Hlt : (p # d < 2 ^ (lp - ld))%Q).
    { apply Qnot_le_lt. intros H. apply Qle_bool_iff in H. congruence. }
    split; [by apply Qlt_le_weak|].
    by replace (lp - ld - 1 + 1)%Z with (lp - ld)%Z by lia.
Qed.

Lemma nearest_even_floor m :
  (Qfloor m <= nearest_even m <= Qfloor m + 1)%Z.
Proof.
  unfold nearest_even. repeat case_match; lia.
Qed.

Lemma nearest_even_ge (L : Z) m :
  (inject_Z L <= m)%Q -> (L <= nearest_even m)%Z.
Proof.
  intros H. apply Qfloor_resp_le in H. rewrite Qfloor_Z in H.
  pose proof (nearest_even_floor m). lia.
Qed.

Lemma nearest_even_le (U : Z) m :
  (m <= inject_Z U)%Q -> (nearest_even m <= U)%Z.
Proof.
  intros H. pose proof (Qfloor_resp_le _ _ H) as Hf. rewrite Qfloor_Z in Hf.
  pose proof (nearest_even_floor m) as Hn.
  destruct (Z.eq_dec (Qfloor m) U) as [E|E]; [|lia].
  unfold nearest_even. rewrite E.
  assert (Hr : (m - inject_Z U <= 0)%Q).
  { apply (Qplus_le_l _ _ (inject_Z U)). ring_simplify. exact H. }
  assert (H1 : Qle_bool (m - inject_Z U) (1 # 2) = true).
  { apply Qle_bool_iff. eapply Qle_trans; [exact Hr | done]. }
  assert (H2 : Qeq_bool (m - inject_Z U) (1 # 2) = false).
  { apply not_true_is_false. intros E2%Qeq_bool_iff. rewrite E2 in Hr. by apply Hr. }
  rewrite H1, H2. lia.
Qed.

Lemma nearest_even_monotone m m' :
  (m <= m')%Q -> (nearest_even m <= nearest_even m')%Z.
Proof.
  intros H. pose proof (Qfloor_resp_le _ _ H) as Hf.
  pose proof (nearest_even_floor m) as Hn. pose proof (nearest_even_floor m') as Hn'.
  destruct (Z.eq_dec (Qfloor m) (Qfloor m')) as [E|E]; [|lia].
  unfold nearest_even. rewrite <- E.
  set (f := Qfloor m) in *.
  assert (Hr : (m - inject_Z f <= m' - inject_Z f)%Q).
  { by apply Qplus_le_l. }
  set (r := (m - inject_Z f)%Q) in *. set (r' := (m' - inject_Z f)%Q) in *.
  destruct (Qle_bool r (1 # 2)) eqn:E1, (Qle_bool r' (1 # 2)) eqn:E1';
    destruct (Qeq_bool r (1 # 2)) eqn:E2, (Qeq_bool r' (1 # 2)) eqn:E2';
    destruct (Z.even f); try lia.
  all: exfalso.
  all: try (apply Qeq_bool_iff in E2).
  all: try (apply Qeq_bool_iff in E2').
  all: try (apply Qle_bool_iff in E1').
  all: try (apply Qle_bool_iff in E1).
  all: try (assert (Hgt : ~ (r <= 1 # 2)%Q)
              by (intros Hc%Qle_bool_iff; congruence)).
  all: try (assert (Hne' : ~ (r' == 1 # 2)%Q)
              by (intros Hc%Qeq_bool_iff; congruence)).
  all: try (apply Hgt; eapply Qle_trans; [exact Hr | done]).
  all: try (apply Hgt; rewrite E2; apply Qle_refl).
  all: try (apply Hne'; apply Qle_antisym; [done | by rewrite <- E2]).
Qed.

Lemma scaled_range a :
  (0 < a)%Q ->
  (inject_Z (2 ^ 52) <= a / 2 ^ (exponent a - 52))%Q
  /\ (a / 2 ^ (exponent a - 52) <= inject_Z (2 ^ 53))%Q.
Proof.
  intros Hpos. destruct (exponent_spec a Hpos) as [Hlo Hhi].
  set (e := exponent a) in *.
  pose proof (two_pow_pos (e - 52)) as Hulp.
  rewrite !Zpower_Qpower by lia. split.
  - apply Qle_shift_div_l; [done|]. rewrite <- two_pow_plus.
    by replace (52 + (e - 52))%Z with e by lia.
  - apply Qle_shift_div_r; [done|]. rewrite <- two_pow_plus.
    replace (53 + (e - 52))%Z with (e + 1)%Z by lia. by apply Qlt_le_weak.
Qed.

Lemma round_pos_range a :
  (0 < a)%Q ->
  (2 ^ exponent a <= round_pos a)%Q /\ (round_pos a <= 2 ^ (exponent a + 1))%Q.
Proof.
  intros Hpos. destruct (scaled_range a Hpos) as [Hlo Hhi].
  apply nearest_even_ge in Hlo. apply nearest_even_le in Hhi.
  unfold round_pos. set (e := exponent a) in *.
  set (n := nearest_even (a / 2 ^ (e - 52))) in *.
  pose proof (two_pow_pos (e - 52)) as Hulp. split.
  - replace e with (52 + (e - 52))%Z at 1 by lia. rewrite two_pow_plus.
    apply Qmult_le_compat_r; [|by apply Qlt_le_weak].
    rewrite <- (Zpower_Qpower 2 52) by lia. by rewrite <- Zle_Qle.
  - replace (e + 1)%Z with (53 + (e - 52))%Z by lia. rewrite two_pow_plus.
    apply Qmult_le_compat_r; [|by apply Qlt_le_weak].
    rewrite <- (Zpower_Qpower 2 53) by lia. by rewrite <- Zle_Qle.
Qed.

Lemma round_pos_positive a : (0 < a)%Q -> (0 < round_pos a)%Q.
Proof.
  intros Hpos. eapply Qlt_le_trans; [apply two_pow_pos|].
  apply (round_pos_range a Hpos).
Qed.

Lemma exponent_monotone a b :
  (0 < a)%Q -> (a <= b)%Q -> (exponent a <= exponent b)%Z.
Proof.
  intros Ha Hab.
  assert (Hb : (0 < b)%Q) by (eapply Qlt_le_trans; eassumption).
  destruct (exponent_spec a Ha) as [Hlo _].
  destruct (exponent_spec b Hb) as [_ Hhi].
  assert (H : (2 ^ exponent a < 2 ^ (exponent b + 1))%Q).
  { eapply Qle_lt_trans; [exact Hlo|]. eapply Qle_lt_trans; eassumption. }
  apply Qpower_lt_compat_l_inv in H; [lia | done].
Qed.

Lemma round_pos_monotone a b :
  (0 < a)%Q -> (a <= b)%Q -> (round_pos a <= round_pos b)%Q.
Proof.
  intros Ha Hab.
  assert (Hb : (0 < b)%Q) by (eapply Qlt_le_trans; eassumption).
  pose proof (exponent_monotone a b Ha Hab) as He.
  destruct (Z.eq_dec (exponent a) (exponent b)) as [E|E].
  - unfold round_pos. rewrite E.
    pose proof (two_pow_pos (exponent b - 52)) as Hulp.
    apply Qmult_le_compat_r; [|by apply Qlt_le_weak].
    rewrite <- Zle_Qle. apply nearest_even_monotone.
    apply Qmult_le_compat_r; [done|]. by apply Qlt_le_weak, Qinv_lt_0_compat.
  - eapply Qle_trans; [apply (round_pos_range a Ha)|].
    eapply Qle_trans; [|apply (round_pos_range b Hb)].
    apply Qpower_le_compat_l; [lia | done].
Qed.

Lemma binary64_zero q : (q == 0)%Q -> binary64 q = 0%Q.
Proof.
  intros H. unfold binary64.
  by replace (Qeq_bool q 0) with true by (symmetry; by apply Qeq_bool_iff).
Qed.

Lemma binary64_positive q : (0 < q)%Q -> (binary64 q == round_pos q)%Q.
Proof.
  intros H. unfold binary64.
  destruct (Qeq_bool q 0) eqn:E.
  { apply Qeq_bool_iff in E. rewrite E in H. by apply Qlt_irrefl in H. }
  replace (Qle_bool 0 q) with true
    by (symmetry; by apply Qle_bool_iff, Qlt_le_weak).
  apply Qred_correct.
Qed.

Lemma binary64_negative q : (q < 0)%Q -> (binary64 q == - round_pos (- q))%Q.
Proof.
  intros H. unfold binary64.
  destruct (Qeq_bool q 0) eqn:E.
  { apply Qeq_bool_iff in E. rewrite E in H. by apply Qlt_irrefl in H. }
  destruct (Qle_bool 0 q) eqn:E2.
  { apply Qle_bool_iff in E2. exfalso. eapply Qlt_irrefl, Qlt_le_trans; eassumption. }
  apply Qred_correct.
Qed.

Lemma Qopp_pos q : (q < 0)%Q -> (0 < - q)%Q.
Proof. intros H. apply (Qplus_lt_l _ _ q). by ring_simplify. Qed.

Theorem binary64_monotone x y : (x <= y)%Q -> (binary64 x <= binary64 y)%Q.
Proof.
  intros Hxy.
  destruct (Q_dec x 0) as [[Hx|Hx]|Hx], (Q_dec y 0) as [[Hy|Hy]|Hy].
  - rewrite (binary64_negative x Hx), (binary64_negative y Hy).
    apply Qopp_le_compat, round_pos_monotone; [by apply Qopp_pos|].
    by apply Qopp_le_compat.
  - rewrite (binary64_negative x Hx), (binary64_positive y Hy).
    apply Qle_trans with 0%Q.
    + apply (Qopp_le_compat 0), Qlt_le_weak, round_pos_positive, Qopp_pos, Hx.
    + by apply Qlt_le_weak, round_pos_positive.
  - rewrite (binary64_negative x Hx), (binary64_zero y Hy).
    apply (Qopp_le_compat 0), Qlt_le_weak, round_pos_positive, Qopp_pos, Hx.
  - exfalso. eapply Qlt_irrefl, Qlt_le_trans; [exact Hy|].
    eapply Qle_trans; [|exact Hxy]. by apply Qlt_le_weak.
  - rewrite (binary64_positive x Hx), (binary64_positive y Hy).
    by apply round_pos_monotone.
  - exfalso. rewrite Hy in Hxy. eapply Qlt_irrefl, Qlt_le_trans; eassumption.
  - exfalso. rewrite Hx in Hxy. eapply Qlt_irrefl, Qlt_le_trans; eassumption.
  - rewrite (binary64_zero x Hx), (binary64_positive y Hy).
    by apply Qlt_le_weak, round_pos_positive.
  - rewrite (binary64_zero x Hx), (binary64_zero y Hy). apply Qle_refl.
Qed.

Lemma binary64_exact : (binary64 0 == 0 /\ binary64 1 == 1 /\ binary64 100 == 100)%Q.
Proof. repeat split; by vm_compute. Qed.
End Binary64.

(** X7: with the arithmetic of the language itself (binary64, round to
    nearest even), the progress [calculateProgressFromRoadmap] computes
    for any roadmap object is an integer between 0 and 100. *)
Theorem calculateProgressFromRoadmap_binary64 (r : Roadmap.t) :
  exists z : Z,
    calculateProgressFromRoadmap JS.binary64 r = JS.Num (inject_Z z)
    /\ (0 <= z <= 100)%Z.
Proof.
  destruct Binary64.binary64_exact as (H0 & H1 & H100).
  exact (calculateProgressFromRoadmap_bounds JS.binary64
           Binary64.binary64_monotone H0 H1 H100 r).
Qed.

(** X8: with the arithmetic of the language itself, the progress
    [getPhaseProgress] shows for any phase is an integer between 0 and
    100. *)
Theorem getPhaseProgress_binary64 (phase : Phase.t) :
  exists z : Z,
    getPhaseProgress JS.binary64 phase = JS.Num (inject_Z z) /\ (0 <= z <= 100)%Z.
Proof.
  destruct Binary64.binary64_exact as (H0 & H1 & H100).
  exact (getPhaseProgress_bounds JS.binary64
           Binary64.binary64_monotone H0 H1 H100 phase).
Qed.

(** With no checklist item at all the progress is 0, whatever the
    rounding. *)
Theorem calculateProgressFromRoadmap_empty rnd (r : Roadmap.t) :
  totalItems (forEach (Roadmap.phases r) count_phase
                {| totalItems := 0; completedItems := 0 |}) = 0%nat ->
  calculateProgressFromRoadmap rnd r = JS.Num 0.
Proof.
  intros H. unfold calculateProgressFromRoadmap, percentage. by rewrite H.
Qed.

(** Scenario: three phases with two objectives and one milestone each, three
    of the nine items done: 33 percent. *)
Example nine_items_three_done :
  let item (n : string) (c : bool) :=
    Structured {| Item.id := Some n; Item.text := n; Item.completed := Some c |} in
  let phase (n : string) (o1 m1 : bool) :=
    {| Phase.id := Some n; Phase.phase_number := None; Phase.title := Some n;
       Phase.duration_weeks := None; Phase.tools_covered := None;
       Phase.learning_objectives := Some [item "o1" o1; item "o2" false];
       Phase.milestones := Some [item "m1" m1];
       Phase.expanded := None |} in
  let r := Roadmap.with_phases
             [phase "p1" true true; phase "p2" true false; phase "p3" false false]
             (Sample.blank "r" "u") in
  calculateProgressFromRoadmap JS.binary64 r = JS.Num 33
  /\ calculateProgress JS.binary64 (Some r) = JS.Num 33.
Proof. vm_compute. split; reflexivity. Qed.

(** C2: the progress shown by the detail view ([calculateProgress], over
    the roadmap in the component state) and the progress written back
    ([calculateProgressFromRoadmap]) are the same number for every
    roadmap, under every rounding of the arithmetic. *)
Theorem calculateProgress_agrees (rnd : Q -> Q) (r : Roadmap.t) :
  calculateProgress rnd (Some r) = calculateProgressFromRoadmap rnd r.
Proof.
  unfold calculateProgress, calculateProgressFromRoadmap, forEach.
  destruct (Roadmap.phases r) as [ps|]; reflexivity.
Qed.

(** ** Tool completion *)

Lemma find_after_prefix (done : list string) (sel : list Tool.t) (n : nat) :
  NoDup (Tool.name <$> sel) ->
  (forall t, t ∈ sel ->
     JSSet.has done (Tool.name t) = true <-> Tool.name t ∈ Tool.name <$> take n sel) ->
  List.find (fun t => negb (JSSet.has done (Tool.name t))) sel = sel !! n.
Proof.
  revert n. induction sel as [|t0 sel IH]; intros n Hnd Hdone; [by destruct n|].
  rewrite fmap_cons in Hnd. apply NoDup_cons in Hnd as [Hfresh Hnd].
  destruct n as [|n]; simpl.
  - destruct (JSSet.has done (Tool.name t0)) eqn:E; [|done].
    apply (Hdone t0) in E; [|left]. simpl in E. by apply elem_of_nil in E.
  - assert (E : JSSet.has done (Tool.name t0) = true).
    { apply Hdone; [left|]. simpl. left. }
    rewrite E. simpl. apply IH; [done|].
    intros t Ht. rewrite (Hdone t) by (by right). simpl.
    rewrite elem_of_cons. split; [|by right].
    intros [Heq|Hin]; [|done].
    exfalso. apply Hfresh. rewrite <- Heq. by apply list_elem_of_fmap_2.
Qed.

(** In general the pointer is the tool whose index is the number of
    completed tools. *)
Lemma currentTool_by_count rnd st toolName sel data :
  Roadmap.selectedTools (FlatDetail.roadmap st) = Some sel ->
  FlatDetail.payload rnd st toolName = Ok data ->
  FlatDetail.currentTool data
  = Tool.name <$> sel !! length (FlatDetail.completedTools data).
Proof.
  unfold FlatDetail.payload. intros -> [= <-]. simpl.
  destruct (_ <? _)%nat eqn:E; [done|].
  apply Nat.ltb_ge in E. by rewrite lookup_ge_None_2.
Qed.

(** C3 as stated fails: with tools A, B, C selected and none completed,
    marking B complete persists [currentTool = "B"], while the first tool
    not yet completed is A. *)
Lemma currentTool_not_first_incomplete :
  FlatDetail.payload JS.binary64 (Sample.flat Sample.abc []) "B"
  = Ok {| FlatDetail.completedTools := ["B"];
          FlatDetail.progress := JS.Num 33;
          FlatDetail.currentTool := Some "B" |}
  /\ FlatDetail.first_incomplete Sample.abc ["B"] = Some "A".
Proof. split; vm_compute; reflexivity. Qed.

(** C3, amended: when the tool names are distinct and the tools completed
    after the toggle are exactly the first [n] tools of the selection
    ([n] being their number), the persisted [currentTool] is the name of
    the first tool not yet completed, in selection order, and [None]
    (null) when all are complete. *)
Theorem currentTool_first_incomplete rnd st toolName sel data :
  Roadmap.selectedTools (FlatDetail.roadmap st) = Some sel ->
  FlatDetail.payload rnd st toolName = Ok data ->
  NoDup (Tool.name <$> sel) ->
  FlatDetail.completedTools data
    ≡ₚ Tool.name <$> take (length (FlatDetail.completedTools data)) sel ->
  FlatDetail.currentTool data
  = FlatDetail.first_incomplete sel (FlatDetail.completedTools data).
Proof.
  intros Hsel Hpay Hnd Hprefix.
  rewrite (currentTool_by_count _ _ _ _ _ Hsel Hpay).
  unfold FlatDetail.first_incomplete. f_equal. symmetry.
  apply find_after_prefix; [done|].
  intros t _. unfold JSSet.has. rewrite bool_decide_eq_true.
  by rewrite Hprefix at 1.
Qed.

Lemma currentTool_first_incomplete_witness :
  FlatDetail.currentTool
    {| FlatDetail.completedTools := ["A"; "B"];
       FlatDetail.progress := JS.Num 67;
       FlatDetail.currentTool := Some "C" |}
  = FlatDetail.first_incomplete Sample.abc ["A"; "B"].
Proof.
  apply (currentTool_first_incomplete JS.binary64
           (Sample.flat Sample.abc ["A"]) "B" Sample.abc).
  - reflexivity.
  - vm_compute. reflexivity.
  - refine (bool_decide_unpack _ _). vm_compute. exact I.
  - reflexivity.
Defined.

(** The completed set stays duplicate-free and within the tool names. *)
Lemma JSSet_add_NoDup s x : NoDup s -> NoDup (JSSet.add s x).
Proof.
  intros H. unfold JSSet.add, JSSet.has. case_bool_decide; [done|].
  apply NoDup_app. repeat split; [done| |apply NoDup_singleton].
  intros y Hy ->%list_elem_of_singleton. done.
Qed.

Lemma JSSet_delete_NoDup s x : NoDup s -> NoDup (JSSet.delete s x).
Proof. intros H. by apply NoDup_filter. Qed.

Lemma JSSet_of_array_NoDup xs : NoDup (JSSet.of_array xs).
Proof.
  unfold JSSet.of_array. generalize (NoDup_nil_2 (A:=string)).
  generalize (@nil string). induction xs as [|x xs IH]; intros acc Hacc; [done|].
  simpl. by apply IH, JSSet_add_NoDup.
Qed.

Lemma newCompleted_NoDup completed toolName :
  NoDup completed -> NoDup (FlatDetail.newCompleted completed toolName).
Proof.
  intros H. unfold FlatDetail.newCompleted.
  destruct (JSSet.has completed toolName);
    [by apply JSSet_delete_NoDup | by apply JSSet_add_NoDup].
Qed.

Lemma newCompleted_within completed toolName (names : list string) :
  (forall x, x ∈ completed -> x ∈ names) -> toolName ∈ names ->
  forall x, x ∈ FlatDetail.newCompleted completed toolName -> x ∈ names.
Proof.
  intros Hsub Hin x. unfold FlatDetail.newCompleted, JSSet.delete, JSSet.add.
  destruct (JSSet.has completed toolName).
  - intros [_ Hx]%list_elem_of_filter. by apply Hsub.
  - intros [Hx| ->%list_elem_of_singleton]%elem_of_app; [by apply Hsub | done].
Qed.

Section FlatBounds.
Variable rnd : Q -> Q.
Hypothesis rnd_monotone : forall x y, (x <= y)%Q -> (rnd x <= rnd y)%Q.
Hypothesis rnd_0 : (rnd 0 == 0)%Q.
Hypothesis rnd_1 : (rnd 1 == 1)%Q.
Hypothesis rnd_100 : (rnd 100 == 100)%Q.

(** With at least one selected tool, a completed set drawn from the tool
    names and a toggled tool of the selection (what the view offers), the
    persisted progress of the flat view is an integer between 0 and 100. *)
Theorem flat_progress_bounds st toolName sel :
  Roadmap.selectedTools (FlatDetail.roadmap st) = Some sel ->
  sel <> [] ->
  NoDup (FlatDetail.completedItems st) ->
  (forall x, x ∈ FlatDetail.completedItems st -> x ∈ Tool.name <$> sel) ->
  toolName ∈ Tool.name <$> sel ->
  exists data z,
    FlatDetail.payload rnd st toolName = Ok data
    /\ FlatDetail.progress data = JS.Num (inject_Z z) /\ (0 <= z <= 100)%Z.
Proof.
  intros Hsel Hne Hnd Hsub Hin. unfold FlatDetail.payload. rewrite Hsel. simpl.
  set (done := FlatDetail.newCompleted (FlatDetail.completedItems st) toolName).
  assert (Hlen : (length (JSSet.to_array done) <= length sel)%nat).
  { unfold JSSet.to_array. rewrite <- (length_fmap Tool.name sel).
    apply submseteq_length, NoDup_submseteq.
    - by apply newCompleted_NoDup.
    - by apply newCompleted_within. }
  assert (Hpos : (0 < length sel)%nat) by (destruct sel; [done | simpl; lia]).
  destruct (ratio_bounds rnd rnd_monotone rnd_0 rnd_1 rnd_100 _ _ Hlen Hpos)
    as (z & Hz & Hrange).
  eexists _, z. split; [reflexivity|]. by split.
Qed.
End FlatBounds.

(** X9: in the flat view, with at least one selected tool, a completed
    set without duplicates drawn from the tool names and a toggled tool of
    the selection (what the view offers), [handleToggleComplete] raises
    nothing and the progress it persists is, in the arithmetic of the
    language itself, an integer between 0 and 100. *)
Theorem flat_progress_binary64 st toolName sel :
  Roadmap.selectedTools (FlatDetail.roadmap st) = Some sel ->
  sel <> [] ->
  NoDup (FlatDetail.completedItems st) ->
  (forall x, x ∈ FlatDetail.completedItems st -> x ∈ Tool.name <$> sel) ->
  toolName ∈ Tool.name <$> sel ->
  exists data z,
    FlatDetail.payload JS.binary64 st toolName = Ok data
    /\ FlatDetail.progress data = JS.Num (inject_Z z) /\ (0 <= z <= 100)%Z.
Proof.
  destruct Binary64.binary64_exact as (H0 & H1 & H100).
  exact (flat_progress_bounds JS.binary64 Binary64.binary64_monotone H0 H1 H100
           st toolName sel).
Qed.

Lemma flat_progress_binary64_witness :
  exists data z,
    FlatDetail.payload JS.binary64 (Sample.flat Sample.abc ["A"]) "B" = Ok data
    /\ FlatDetail.progress data = JS.Num (inject_Z z) /\ (0 <= z <= 100)%Z.
Proof.
  apply (flat_progress_binary64 (Sample.flat Sample.abc ["A"]) "B" Sample.abc).
  - reflexivity.
  - discriminate.
  - refine (bool_decide_unpack _ _). vm_compute. exact I.
  - intros x Hx. vm_compute in Hx. apply list_elem_of_singleton in Hx as ->.
    refine (bool_decide_unpack _ _). vm_compute. exact I.
  - refine (bool_decide_unpack _ _). vm_compute. exact I.
Defined.

(** C1 as stated fails for the flat view: a stored roadmap whose
    [completedTools] names a tool outside its [selectedTools] (here one
    selected tool, A, and B recorded as completed) is loaded by
    [fetchRoadmapDetail] as it is; ticking A then persists a progress of
    200. *)
Lemma flat_progress_above_100 :
  Roadmap.selectedTools Draft.foreign = Some [Sample.tool "A"]
  /\ Roadmap.completedTools Draft.foreign = Some ["B"]
  /\ FlatDetail.payload JS.binary64 (fetchRoadmapDetail Draft.foreign) "A"
     = Ok {| FlatDetail.completedTools := ["B"; "A"];
             FlatDetail.progress := JS.Num 200;
             FlatDetail.currentTool := None |}.
Proof. repeat split; vm_compute; reflexivity. Qed.

(** C1, amended.  In the arithmetic of the language itself the progress
    of a phase-based roadmap is, for every roadmap object, an integer
    between 0 and 100, and 0 when the roadmap has no checklist item.  In
    the flat view the progress is computed only on a click on the checkbox
    of a selected tool (so with at least one selected tool); when the
    completed set, a set, holds names of selected tools only, the
    progress that the click persists is an integer between 0 and 100. *)
Theorem progress_is_a_percentage :
  (forall r : Roadmap.t,
     exists z : Z,
       calculateProgressFromRoadmap JS.binary64 r = JS.Num (inject_Z z)
       /\ (0 <= z <= 100)%Z
       /\ (totalItems (item_counters r) = 0%nat -> z = 0%Z))
  /\ (forall (st : FlatDetail.State) (toolName : string) (sel : list Tool.t),
        Roadmap.selectedTools (FlatDetail.roadmap st) = Some sel ->
        NoDup (FlatDetail.completedItems st) ->
        (forall x, x ∈ FlatDetail.completedItems st -> x ∈ Tool.name <$> sel) ->
        toolName ∈ Tool.name <$> sel ->
        exists data z,
          FlatDetail.payload JS.binary64 st toolName = Ok data
          /\ FlatDetail.progress data = JS.Num (inject_Z z)
          /\ (0 <= z <= 100)%Z).
Proof.
  destruct Binary64.binary64_exact as (H0 & H1 & H100). split.
  - intros r.
    destruct (calculateProgressFromRoadmap_bounds JS.binary64
                Binary64.binary64_monotone H0 H1 H100 r) as (z & Hz & Hrange).
    exists z. do 2 (split; [done|]). intros Hnone.
    revert Hz. unfold calculateProgressFromRoadmap, percentage.
    fold (item_counters r). rewrite Hnone. simpl. by intros [= <-].
  - intros st toolName sel Hsel Hnd Hsub Hin.
    apply (flat_progress_bounds JS.binary64 Binary64.binary64_monotone H0 H1 H100
             st toolName sel); try done.
    intros ->. by apply elem_of_nil in Hin.
Qed.

Lemma progress_is_a_percentage_witness :
  exists data z,
    FlatDetail.payload JS.binary64 (fetchRoadmapDetail (FlatDetail.roadmap
                                      (Sample.flat Sample.abc ["A"; "A"]))) "B"
    = Ok data
    /\ FlatDetail.progress data = JS.Num (inject_Z z)
    /\ (0 <= z <= 100)%Z.
Proof.
  apply (proj2 progress_is_a_percentage
           (fetchRoadmapDetail (FlatDetail.roadmap (Sample.flat Sample.abc ["A"; "A"])))
           "B" Sample.abc).
  - reflexivity.
  - refine (bool_decide_unpack _ _). vm_compute. exact I.
  - intros x Hx. vm_compute in Hx. apply list_elem_of_singleton in Hx as ->.
    refine (bool_decide_unpack _ _). vm_compute. exact I.
  - refine (bool_decide_unpack _ _). vm_compute. exact I.
Defined.

(** ** Normalisation *)

Section NormalizerFacts.
Variable stamp : nat -> string.

Lemma wrap_entries_structured prefix k xs :
  forallb is_structured (wrap_entries stamp prefix k xs).1 = true.
Proof.
  revert k. induction xs as [|obj xs IH]; intros k; [done|]. simpl.
  destruct obj as [s|it]; simpl.
  - specialize (IH (S k)). by destruct (wrap_entries stamp prefix (S k) xs).
  - specialize (IH k). by destruct (wrap_entries stamp prefix k xs).
Qed.

(** Structured items pass through unchanged and draw no identifier. *)
Lemma wrap_entries_id prefix k xs :
  forallb is_structured xs = true ->
  wrap_entries stamp prefix k xs = (xs, k).
Proof.
  induction xs as [|obj xs IH]; intros H; [done|]. simpl in *.
  apply andb_true_iff in H as [Hobj Hxs].
  destruct obj as [s|it]; [done|]. simpl. by rewrite IH.
Qed.

Lemma init_checkboxes_initialised k phase :
  phase_initialised (init_checkboxes stamp k phase).1 = true.
Proof.
  unfold init_checkboxes, phase_initialised.
  pose proof (wrap_entries_structured "obj" k
                (default [] (Phase.learning_objectives phase))) as Hl.
  destruct (wrap_entries stamp "obj" k _) as [los k1].
  pose proof (wrap_entries_structured "ms" k1
                (default [] (Phase.milestones phase))) as Hm.
  destruct (wrap_entries stamp "ms" k1 _) as [mss k2].
  simpl in *. by rewrite Hl, Hm.
Qed.

Lemma init_checkboxes_id k phase :
  phase_initialised phase = true ->
  init_checkboxes stamp k phase = (phase, k).
Proof.
  unfold init_checkboxes, phase_initialised. destruct phase as [i n t d c los mss e].
  simpl. destruct los as [los|]; [|done]. destruct mss as [mss|]; [|done].
  intros [Hl Hm]%andb_true_iff. simpl.
  by rewrite (wrap_entries_id _ _ _ Hl), (wrap_entries_id _ _ _ Hm).
Qed.

Lemma init_phases_initialised k ps :
  forallb phase_initialised (init_phases stamp k ps).1 = true.
Proof.
  revert k. induction ps as [|phase ps IH]; intros k; [done|]. simpl.
  pose proof (init_checkboxes_initialised k phase) as Hp.
  destruct (init_checkboxes stamp k phase) as [phase' k1].
  specialize (IH k1). destruct (init_phases stamp k1 ps) as [ps' k2].
  simpl in *. by rewrite Hp, IH.
Qed.

Lemma init_phases_length k ps :
  length (init_phases stamp k ps).1 = length ps.
Proof.
  revert k. induction ps as [|phase ps IH]; intros k; [done|]. simpl.
  destruct (init_checkboxes stamp k phase) as [phase' k1].
  specialize (IH k1). destruct (init_phases stamp k1 ps) as [ps' k2].
  simpl in *. by rewrite IH.
Qed.

Lemma init_phases_id k ps :
  forallb phase_initialised ps = true ->
  init_phases stamp k ps = (ps, k).
Proof.
  induction ps as [|phase ps IH]; intros H; [done|]. simpl in *.
  apply andb_true_iff in H as [Hp Hps].
  by rewrite (init_checkboxes_id _ _ Hp), (IH Hps).
Qed.
End NormalizerFacts.

Lemma phase_initialised_loaded phase :
  phase_initialised phase = true -> phase_loaded phase = true.
Proof.
  unfold phase_initialised, phase_loaded.
  destruct (Phase.learning_objectives phase), (Phase.milestones phase); try done.
Qed.

Lemma initialised_loaded r : initialised r = true -> loaded r = true.
Proof.
  unfold initialised, loaded. destruct (Roadmap.phases r) as [ps|]; [|done].
  induction ps as [|phase ps IH]; [done|]. simpl.
  intros [Hp Hps]%andb_true_iff.
  by rewrite (phase_initialised_loaded _ Hp), (IH Hps).
Qed.

(** After the first block, either there are phases or there is nothing to
    create them from. *)
Lemma create_phases_settled x :
  no_phases (create_phases x) && has_resources (create_phases x) = false.
Proof.
  unfold create_phases.
  destruct (no_phases x && has_resources x) eqn:E; [|done].
  apply andb_true_iff in E as [_ Hres].
  unfold no_phases, has_resources in *. simpl.
  destruct (Roadmap.learningResources x) as [rs|]; [|done]. simpl.
  rewrite length_imap. apply Nat.ltb_lt in Hres.
  destruct (length rs); [lia|done].
Qed.

(** Normalisation fails exactly on a document that has neither a [phases]
    property nor a non-empty [learningResources]. *)
Lemma normalize_throws_iff stamp k x :
  (exists e, normalize stamp k x = Throw e)
  <-> Roadmap.phases x = None /\ has_resources x = false.
Proof.
  unfold normalize, create_phases, no_phases.
  destruct (Roadmap.phases x) as [ps|] eqn:Ep; simpl.
  - split; [|by intros [? _]].
    intros [e He]. exfalso.
    destruct ((length ps =? 0)%nat && has_resources x); simpl in He;
      rewrite ?Ep in He; simpl in He;
      by destruct (init_phases stamp k _).
  - destruct (has_resources x) eqn:Er; simpl.
    + split; [|by intros [_ ?]].
      intros [e He]. by destruct (init_phases stamp k _).
    + rewrite Ep. simpl. split; [done|]. intros _. by eexists.
Qed.

(** What normalisation returns has a [phases] array whose checklists hold
    structured items only. *)
Lemma normalize_initialised stamp k x y k' :
  normalize stamp k x = Ok (y, k') -> initialised y = true.
Proof.
  unfold normalize.
  destruct (Roadmap.phases (create_phases x)) as [ps|]; [|done]. simpl.
  pose proof (init_phases_initialised stamp k ps) as Hi.
  destruct (init_phases stamp k ps) as [ps' k'']. intros [= <- <-].
  by unfold initialised.
Qed.

(** A second pass returns its input and draws no identifier, whatever the
    clock and the random source give. *)
Lemma normalize_again stamp stamp' k k' j x y :
  normalize stamp k x = Ok (y, k') ->
  normalize stamp' j y = Ok (y, j).
Proof.
  unfold normalize at 1.
  pose proof (create_phases_settled x) as Hsettled.
  destruct (Roadmap.phases (create_phases x)) as [ps|] eqn:Ep; [|done]. simpl.
  pose proof (init_phases_initialised stamp k ps) as Hi.
  pose proof (init_phases_length stamp k ps) as Hlen.
  destruct (init_phases stamp k ps) as [ps' k'']. simpl in *.
  intros [= <- <-].
  assert (Hcreate : create_phases (Roadmap.with_phases ps' (create_phases x))
                    = Roadmap.with_phases ps' (create_phases x)).
  { unfold create_phases at 1.
    replace (no_phases (Roadmap.with_phases ps' (create_phases x)))
      with (no_phases (create_phases x)).
    2:{ unfold no_phases. rewrite Ep. simpl. by rewrite Hlen. }
    replace (has_resources (Roadmap.with_phases ps' (create_phases x)))
      with (has_resources (create_phases x)) by done.
    by rewrite Hsettled. }
  unfold normalize. rewrite Hcreate. simpl.
  by rewrite (init_phases_id _ _ _ Hi).
Qed.

(** C4, at the input where the code departs from it: a document with no
    [phases] and no [learningResources] makes the normalisation of
    [fetchRoadmap] raise a [TypeError] ([roadmapData.phases.map] on
    [undefined]) instead of substituting a default. *)
Theorem normalize_raises_without_phases (stamp : nat -> string) (k : nat) :
  normalize stamp k (Sample.blank "r1" "u1")
  = Throw (TypeError "Cannot read properties of undefined (reading 'map')")
  /\ forall st,
      fetchRoadmap stamp k
        {| get_success := true;
           get_roadmap := Some (Sample.blank "r1" "u1");
           get_error := None |} st
      = Throw (TypeError "Cannot read properties of undefined (reading 'map')").
Proof. split; [reflexivity | intros st; reflexivity]. Qed.

(** C5: normalising the result of a normalisation changes nothing: no
    item is wrapped again, no phase and no identifier is created (the
    counter of drawn identifiers stays where the first pass left it), and
    an exception of the first pass is the exception of both. *)
Theorem normalize_idempotent (stamp stamp' : nat -> string) (k : nat) (x : Roadmap.t) :
  (normalize stamp k x ≫= fun '(y, k') => normalize stamp' k' y)
  = normalize stamp k x.
Proof.
  destruct (normalize stamp k x) as [[y k']|e] eqn:E; [|done].
  simpl. by apply (normalize_again stamp stamp' k k' k' x y).
Qed.

(** The default of P5: an empty [phases] and one resource for Git with a
    duration of two weeks give exactly one phase, titled Git, two weeks
    long and expanded. *)
Example phase_from_git_resource (stamp : nat -> string) :
  let git := {| Resource.toolName := Some "Git"; Resource.phase_number := None;
                Resource.duration_weeks := Some 2%Z;
                Resource.tools_covered := None;
                Resource.learning_objectives := None;
                Resource.milestones := None |} in
  let x := {| Roadmap.doc_id := "r"; Roadmap.data_id := None; Roadmap.userId := "u";
              Roadmap.createdAt := None; Roadmap.updatedAt := None;
              Roadmap.status := "active"; Roadmap.progress := None;
              Roadmap.phases := Some [];
              Roadmap.learningResources := Some [git];
              Roadmap.selectedTools := None; Roadmap.completedTools := None;
              Roadmap.currentTool := None |} in
  normalize stamp 0 x
  = Ok (Roadmap.with_phases
          [ {| Phase.id := Some "phase-1"; Phase.phase_number := Some 1%Z;
               Phase.title := Some "Git"; Phase.duration_weeks := Some 2%Z;
               Phase.tools_covered := Some [Some "Git"];
               Phase.learning_objectives := Some [];
               Phase.milestones := Some [];
               Phase.expanded := Some true |} ] x, 0%nat).
Proof. reflexivity. Qed.

(** The adapter returns an object for every object, and adapting twice is
    adapting once. *)
Lemma adaptRoadmapData_total (r : Adapter.response) :
  exists r', Adapter.adaptRoadmapData (Some r) = Some r'.
Proof. by eexists. Qed.

Lemma adaptRoadmapData_idempotent (x : option Adapter.response) :
  Adapter.adaptRoadmapData (Adapter.adaptRoadmapData x) = Adapter.adaptRoadmapData x.
Proof. by destruct x as [r|]. Qed.

(** ** Checklist toggles *)

Section MapByWeight.
Context {A : Type} (w : A -> nat) (g : A -> A).

Lemma map_weight_zero (l : list A) :
  (forall y, y ∈ l -> w y = 0%nat -> g y = y) ->
  sum_list (w <$> l) = 0%nat ->
  map g l = l.
Proof.
  induction l as [|x l IH]; intros Hg Hsum; [done|].
  rewrite fmap_cons in Hsum. simpl in Hsum. simpl.
  rewrite Hg; [|left|lia]. rewrite IH; [done| |lia].
  intros y Hy. apply Hg. by right.
Qed.

Lemma map_weight_one (l : list A) :
  (forall y, y ∈ l -> w y = 0%nat -> g y = y) ->
  sum_list (w <$> l) = 1%nat ->
  exists j x, l !! j = Some x /\ w x = 1%nat /\ map g l = <[j := g x]> l.
Proof.
  induction l as [|x l IH]; intros Hg Hsum; [done|].
  rewrite fmap_cons in Hsum. simpl in Hsum.
  assert (Hg' : forall y, y ∈ l -> w y = 0%nat -> g y = y).
  { intros y Hy. apply Hg. by right. }
  destruct (w x) as [|n] eqn:Ex.
  - destruct (IH Hg') as (j & x' & Hj & Hw & Hmap); [lia|].
    exists (S j), x'. repeat split; [done..|]. simpl.
    rewrite Hg; [|left|done]. by rewrite Hmap.
  - exists 0%nat, x. repeat split; [lia|]. simpl.
    by rewrite (map_weight_zero l Hg') by lia.
Qed.
End MapByWeight.

Lemma length_filter_sum {A} (P : A -> bool) (l : list A) :
  length (filter (fun x => P x = true) l)
  = sum_list ((fun x => if P x then 1 else 0)%nat <$> l).
Proof.
  induction l as [|x l IH]; [done|].
  rewrite filter_cons, fmap_cons. simpl.
  destruct (P x) eqn:E.
  - rewrite decide_True by done. simpl. by rewrite IH.
  - rewrite decide_False by done. by rewrite IH.
Qed.

Lemma toggle_entry_other itemId e :
  (if entry_has_id itemId e then 1 else 0)%nat = 0%nat ->
  toggle_entry itemId e = e.
Proof.
  destruct e as [s|it]; [done|]. simpl.
  by destruct (bool_decide (Item.id it = Some itemId)).
Qed.

Lemma toggle_entry_twice itemId e :
  toggle_entry itemId (toggle_entry itemId e) = settle_entry itemId e.
Proof.
  destruct e as [s|[i t c]]; [done|]. simpl.
  destruct (bool_decide (i = Some itemId)) eqn:E; simpl; rewrite E; [|done].
  unfold Item.with_completed, Item.is_completed. simpl.
  by rewrite negb_involutive.
Qed.

Lemma settle_entry_fixed itemId e :
  settle_entry itemId e = e <-> entry_boolean itemId e = true.
Proof.
  destruct e as [s|[i t c]]; [done|]. simpl.
  destruct (bool_decide (i = Some itemId)); [|done].
  rewrite bool_decide_eq_true. destruct c as [c|]; simpl.
  - split; [by eexists | done].
  - split; [done | by intros [? ?]].
Qed.

Lemma with_items_same k phase es :
  items_of k phase = Some es -> with_items k es phase = phase.
Proof. destruct k, phase; simpl; by intros ->. Qed.

Lemma items_of_with_items k es phase :
  items_of k (with_items k es phase) = Some es.
Proof. by destruct k. Qed.

Lemma with_items_with_items k es es' phase :
  with_items k es (with_items k es' phase) = with_items k es phase.
Proof. by destruct k. Qed.

Lemma phase_loaded_items k phase :
  phase_loaded phase = true -> is_Some (items_of k phase).
Proof.
  unfold phase_loaded. intros [Hl Hm]%andb_true_iff.
  apply bool_decide_eq_true in Hl, Hm. by destruct k.
Qed.

Lemma toggle_phase_loaded k phaseId itemId phase :
  phase_loaded phase = true ->
  phase_loaded (toggle_phase k phaseId itemId phase) = true.
Proof.
  unfold toggle_phase. destruct (bool_decide _); [|done].
  unfold phase_loaded. intros [Hl Hm]%andb_true_iff.
  destruct k; simpl; rewrite ?Hl, ?Hm; simpl;
    rewrite ?andb_true_r; first [done | by apply bool_decide_eq_true].
Qed.

Lemma toggle_phase_id k phaseId itemId phase :
  Phase.id (toggle_phase k phaseId itemId phase) = Phase.id phase.
Proof. unfold toggle_phase. destruct (bool_decide _); [|done]. by destruct k. Qed.

Lemma toggle_phase_twice k phaseId itemId phase :
  toggle_phase k phaseId itemId (toggle_phase k phaseId itemId phase)
  = settle_phase k phaseId itemId phase.
Proof.
  unfold toggle_phase at 1. rewrite toggle_phase_id.
  unfold toggle_phase, settle_phase. destruct (bool_decide _); [|done].
  rewrite items_of_with_items, with_items_with_items. simpl.
  rewrite map_map. f_equal. apply map_ext, toggle_entry_twice.
Qed.

Lemma map_fixed {A} (g : A -> A) (l : list A) :
  map g l = l <-> forall x, x ∈ l -> g x = x.
Proof.
  induction l as [|x l IH]; simpl.
  - split; [by intros _ ? ?%elem_of_nil | done].
  - split.
    + intros [= Hx Hl] y [->|Hy]%elem_of_cons; [done|]. by apply IH.
    + intros Hall. rewrite Hall by left. f_equal. apply IH.
      intros y Hy. apply Hall. by right.
Qed.

Lemma settle_phase_fixed k phaseId itemId phase :
  phase_loaded phase = true ->
  settle_phase k phaseId itemId phase = phase
  <-> (if bool_decide (Phase.id phase = Some phaseId)
       then forallb (entry_boolean itemId) (default [] (items_of k phase))
       else true) = true.
Proof.
  intros Hl. destruct (phase_loaded_items k _ Hl) as [es Hes].
  unfold settle_phase. destruct (bool_decide _); [|done].
  rewrite Hes. simpl. rewrite forallb_forall. split.
  - intros Heq e He%list_elem_of_In.
    assert (Hmap : map (settle_entry itemId) es = es).
    { apply (f_equal (items_of k)) in Heq.
      rewrite items_of_with_items, Hes in Heq. by injection Heq. }
    apply settle_entry_fixed. by apply (proj1 (map_fixed _ _) Hmap).
  - intros Hall.
    assert (Hmap : map (settle_entry itemId) es = es).
    { apply map_fixed. intros e He. apply settle_entry_fixed, Hall.
      by apply list_elem_of_In. }
    rewrite Hmap. by apply with_items_same.
Qed.

Lemma toggle_phase_unmatched k phaseId itemId phase :
  phase_loaded phase = true ->
  phase_match_count k phaseId itemId phase = 0%nat ->
  toggle_phase k phaseId itemId phase = phase.
Proof.
  intros Hl. destruct (phase_loaded_items k _ Hl) as [es Hes].
  unfold phase_match_count, toggle_phase.
  destruct (bool_decide _); [|done]. rewrite Hes. simpl.
  rewrite length_filter_sum. intros Hsum.
  rewrite (map_weight_zero _ _ es (fun e _ => toggle_entry_other itemId e) Hsum).
  by apply with_items_same.
Qed.

(** On a roadmap with all its arrays, [map] raises nothing and the toggle
    is [toggle_phase] on every phase. *)
Lemma mapR_toggle_in k phaseId itemId ps :
  forallb phase_loaded ps = true ->
  mapR (match k with
        | Objective => toggle_objective_in phaseId itemId
        | Milestone => toggle_milestone_in phaseId itemId
        end) ps
  = Ok (map (toggle_phase k phaseId itemId) ps).
Proof.
  induction ps as [|phase ps IH]; [done|]. simpl.
  intros [Hp Hps]%andb_true_iff. rewrite (IH Hps).
  destruct (phase_loaded_items k _ Hp) as [es Hes].
  unfold toggle_phase.
  destruct k; simpl in Hes;
    unfold toggle_objective_in, toggle_milestone_in;
    destruct (bool_decide _); try done; simpl; by rewrite Hes.
Qed.

Lemma toggle_loaded k r phaseId itemId ps :
  Roadmap.phases r = Some ps ->
  forallb phase_loaded ps = true ->
  toggle k r phaseId itemId
  = Ok (Roadmap.with_phases (map (toggle_phase k phaseId itemId) ps) r).
Proof.
  intros Hps Hl. pose proof (mapR_toggle_in k phaseId itemId ps Hl) as Hmap.
  destruct k; unfold toggle, toggleObjective, toggleMilestone;
    rewrite Hps; simpl; by rewrite Hmap.
Qed.

Lemma with_phases_same r ps :
  Roadmap.phases r = Some ps -> Roadmap.with_phases ps r = r.
Proof. destruct r; simpl; by intros ->. Qed.

(** A toggle keeps the roadmap in the shape the view relies on. *)
Lemma toggle_keeps_loaded k r phaseId itemId r' :
  loaded r = true -> toggle k r phaseId itemId = Ok r' -> loaded r' = true.
Proof.
  unfold loaded at 1. destruct (Roadmap.phases r) as [ps|] eqn:Hps; [|done].
  intros Hl. rewrite (toggle_loaded _ _ _ _ _ Hps Hl). intros [= <-].
  unfold loaded. simpl. clear Hps.
  induction ps as [|phase ps IH]; [done|]. simpl in *.
  apply andb_true_iff in Hl as [Hp Hl].
  by rewrite toggle_phase_loaded, IH.
Qed.

Lemma toggle_unmatched k r phaseId itemId :
  loaded r = true ->
  match_count k r phaseId itemId = 0%nat ->
  toggle k r phaseId itemId = Ok r.
Proof.
  unfold loaded, match_count.
  destruct (Roadmap.phases r) as [ps|] eqn:Hps; [|done]. simpl.
  intros Hl Hsum. rewrite (toggle_loaded _ _ _ _ _ Hps Hl). f_equal.
  rewrite (map_weight_zero (phase_match_count k phaseId itemId) _ ps).
  - by apply with_phases_same.
  - intros phase Hin. apply toggle_phase_unmatched.
    rewrite forallb_forall in Hl. by apply Hl, list_elem_of_In.
  - done.
Qed.

Lemma toggle_single k r phaseId itemId :
  loaded r = true ->
  match_count k r phaseId itemId = 1%nat ->
  exists r', toggle k r phaseId itemId = Ok r' /\ toggled_at k r phaseId itemId r'.
Proof.
  unfold loaded, match_count.
  destruct (Roadmap.phases r) as [ps|] eqn:Hps; [|done]. simpl.
  intros Hl Hsum. rewrite (toggle_loaded _ _ _ _ _ Hps Hl).
  eexists; split; [reflexivity|].
  assert (Hall : forall phase, phase ∈ ps -> phase_loaded phase = true).
  { intros phase Hin. rewrite forallb_forall in Hl. by apply Hl, list_elem_of_In. }
  destruct (map_weight_one (phase_match_count k phaseId itemId)
              (toggle_phase k phaseId itemId) ps) as (a & phase & Ha & Hw & Hmap);
    [intros y Hy; by apply toggle_phase_unmatched, Hall | done |].
  rewrite Hmap.
  assert (Hp : phase_loaded phase = true) by (eapply Hall, list_elem_of_lookup_2, Ha).
  destruct (phase_loaded_items k _ Hp) as [es Hes].
  unfold phase_match_count in Hw. unfold toggle_phase.
  destruct (bool_decide (Phase.id phase = Some phaseId)) eqn:Eid; [|done].
  apply bool_decide_eq_true in Eid.
  rewrite Hes in Hw |- *. simpl in Hw |- *. rewrite length_filter_sum in Hw.
  destruct (map_weight_one _ (toggle_entry itemId) es
              (fun e _ => toggle_entry_other itemId e) Hw)
    as (b & e & Hb & He & Hes').
  rewrite Hes'.
  destruct e as [s|it]; [done|]. simpl in He |- *.
  destruct (bool_decide (Item.id it = Some itemId)) eqn:Eit; [|done].
  apply bool_decide_eq_true in Eit.
  by exists ps, a, phase, es, b, it.
Qed.

(** What the [map]s build differs from the roadmap in one [completed]
    property and in nothing else. *)
Lemma toggled_at_flips_one k r phaseId itemId r' :
  toggled_at k r phaseId itemId r' -> flips_one k r phaseId itemId r'.
Proof.
  intros (ps & a & phase & es & b & it & Hps & Ha & Hid & Hes & Hb & Hit & ->).
  eexists ps, a, phase, es, b, it, _.
  do 6 (split; [done|]). split; [by repeat split|].
  split; [reflexivity|]. split.
  - destruct k; by repeat split.
  - rewrite items_of_with_items. do 3 f_equal.
    unfold Item.with_completed, Item.is_completed.
    by destruct (Item.completed it) as [[]|].
Qed.

Lemma toggle_twice k r phaseId itemId :
  loaded r = true ->
  (toggle k r phaseId itemId ≫= fun r' => toggle k r' phaseId itemId)
  = Ok (settle k r phaseId itemId).
Proof.
  unfold loaded, settle.
  destruct (Roadmap.phases r) as [ps|] eqn:Hps; [|done].
  intros Hl. rewrite (toggle_loaded _ _ _ _ _ Hps Hl). simpl.
  assert (Hl' : forallb phase_loaded (map (toggle_phase k phaseId itemId) ps) = true).
  { clear Hps. induction ps as [|phase ps IH]; [done|]. simpl in *.
    apply andb_true_iff in Hl as [Hp Hl]. by rewrite toggle_phase_loaded, IH. }
  rewrite (toggle_loaded k (Roadmap.with_phases _ r) phaseId itemId
             (map (toggle_phase k phaseId itemId) ps) eq_refl Hl'). f_equal.
  rewrite map_map.
  by rewrite (map_ext _ _ (toggle_phase_twice k phaseId itemId)).
Qed.

Lemma settle_fixed k r phaseId itemId :
  loaded r = true ->
  settle k r phaseId itemId = r <-> designated_boolean k r phaseId itemId = true.
Proof.
  unfold loaded, settle, designated_boolean.
  destruct (Roadmap.phases r) as [ps|] eqn:Hps; [|done]. simpl.
  intros Hl. rewrite forallb_forall in Hl. rewrite forallb_forall. split.
  - intros Heq phase Hin.
    assert (Hmap : map (settle_phase k phaseId itemId) ps = ps).
    { apply (f_equal Roadmap.phases) in Heq. simpl in Heq.
      rewrite Hps in Heq. by injection Heq. }
    apply settle_phase_fixed; [by apply Hl|].
    by apply (proj1 (map_fixed _ _) Hmap), list_elem_of_In.
  - intros Hall.
    assert (Hmap : map (settle_phase k phaseId itemId) ps = ps).
    { apply map_fixed. intros phase Hin%list_elem_of_In.
      apply settle_phase_fixed; [by apply Hl | by apply Hall]. }
    rewrite Hmap. by apply with_phases_same.
Qed.

(** Every roadmap that [fetchRoadmap] stores in the state has the shape
    [loaded]. *)
Lemma normalize_loaded stamp k x y k' :
  normalize stamp k x = Ok (y, k') -> loaded y = true.
Proof. intros H. eapply initialised_loaded, normalize_initialised, H. Qed.

(** C6: on a roadmap held by the detail view, toggling a pair
    [(phaseId, itemId)] that designates no item (no phase has that id, or
    no item of the phases with that id has that item id) raises nothing
    and returns the roadmap itself, for objectives and for milestones. *)
Theorem toggle_unknown_is_noop (r : Roadmap.t) (phaseId itemId : string) :
  loaded r = true ->
  (match_count Objective r phaseId itemId = 0%nat ->
   toggleObjective r phaseId itemId = Ok r)
  /\ (match_count Milestone r phaseId itemId = 0%nat ->
      toggleMilestone r phaseId itemId = Ok r).
Proof.
  intros Hl. split; intros H0.
  - exact (toggle_unmatched Objective r phaseId itemId Hl H0).
  - exact (toggle_unmatched Milestone r phaseId itemId Hl H0).
Qed.

Lemma toggle_unknown_is_noop_witness :
  toggleObjective Sample.plan "nonexistent-phase" "nonexistent-item" = Ok Sample.plan
  /\ toggleMilestone Sample.plan "phase-1" "o1" = Ok Sample.plan.
Proof.
  split.
  - apply (toggle_unknown_is_noop Sample.plan "nonexistent-phase" "nonexistent-item");
      reflexivity.
  - apply (toggle_unknown_is_noop Sample.plan "phase-1" "o1"); reflexivity.
Defined.

(** C7: on a roadmap held by the detail view, when the pair
    [(phaseId, itemId)] designates exactly one item of the checklist, the
    toggle returns a roadmap that differs from the input in the
    [completed] property of that one item and in nothing else: it is
    [false] where the item was completed and [true] where it was not or
    had no such property, while the item's [id] and [text], every other
    entry of the checklist, the other checklist and every other property
    of the phase, every other phase and every other property of the
    roadmap are those of the input ([flips_one], stated on the properties
    of the result). *)
Theorem toggle_flips_exactly_one (r : Roadmap.t) (phaseId itemId : string) :
  loaded r = true ->
  (match_count Objective r phaseId itemId = 1%nat ->
   exists r', toggleObjective r phaseId itemId = Ok r'
              /\ flips_one Objective r phaseId itemId r')
  /\ (match_count Milestone r phaseId itemId = 1%nat ->
      exists r', toggleMilestone r phaseId itemId = Ok r'
                 /\ flips_one Milestone r phaseId itemId r').
Proof.
  intros Hl. split; intros H1.
  - destruct (toggle_single Objective r phaseId itemId Hl H1) as (r' & Hr' & Hat).
    exists r'. split; [done|]. by apply toggled_at_flips_one.
  - destruct (toggle_single Milestone r phaseId itemId Hl H1) as (r' & Hr' & Hat).
    exists r'. split; [done|]. by apply toggled_at_flips_one.
Qed.

Lemma toggle_flips_exactly_one_witness :
  (exists r', toggleObjective Sample.plan "phase-1" "o2" = Ok r'
              /\ flips_one Objective Sample.plan "phase-1" "o2" r')
  /\ (exists r', toggleMilestone Sample.plan "phase-2" "m2" = Ok r'
                 /\ flips_one Milestone Sample.plan "phase-2" "m2" r').
Proof.
  split.
  - apply (toggle_flips_exactly_one Sample.plan "phase-1" "o2"); reflexivity.
  - apply (toggle_flips_exactly_one Sample.plan "phase-2" "m2"); reflexivity.
Defined.

(** C8 as stated fails: an item that was stored without [completed]
    (an entry that is not a string passes through [fetchRoadmap] as it
    is) comes back from two toggles with [completed: false], so the
    roadmap is not the one the toggles started from. *)
Lemma toggle_twice_adds_completed :
  loaded Draft.unmarked = true
  /\ match_count Objective Draft.unmarked "phase-1" "o1" = 1%nat
  /\ (toggleObjective Draft.unmarked "phase-1" "o1"
        ≫= fun r' => toggleObjective r' "phase-1" "o1")
     = Ok (Roadmap.with_phases
             [Sample.phase "phase-1" [Sample.item "o1" false] [Sample.item "m1" false]]
             (Sample.blank "r5" "u1"))
  /\ (toggleObjective Draft.unmarked "phase-1" "o1"
        ≫= fun r' => toggleObjective r' "phase-1" "o1")
     <> Ok Draft.unmarked.
Proof. repeat split; done. Qed.

(** C8, amended: on a roadmap held by the detail view, toggling the same
    pair twice raises nothing and returns the roadmap in which every
    designated item has a boolean [completed] ([false] where it had none);
    this is the roadmap the toggles started from exactly when every item
    the pair designates carries a boolean [completed], for objectives and
    for milestones, whatever the pair. *)
Theorem toggle_twice_restores (r : Roadmap.t) (phaseId itemId : string) :
  loaded r = true ->
  ((toggleObjective r phaseId itemId ≫= fun r' => toggleObjective r' phaseId itemId)
   = Ok (settle Objective r phaseId itemId)
   /\ ((toggleObjective r phaseId itemId
        ≫= fun r' => toggleObjective r' phaseId itemId) = Ok r
       <-> designated_boolean Objective r phaseId itemId = true))
  /\ ((toggleMilestone r phaseId itemId ≫= fun r' => toggleMilestone r' phaseId itemId)
      = Ok (settle Milestone r phaseId itemId)
      /\ ((toggleMilestone r phaseId itemId
           ≫= fun r' => toggleMilestone r' phaseId itemId) = Ok r
          <-> designated_boolean Milestone r phaseId itemId = true)).
Proof.
  intros Hl. split.
  - pose proof (toggle_twice Objective r phaseId itemId Hl) as Htwice.
    simpl in Htwice. rewrite Htwice. split; [done|].
    rewrite <- (settle_fixed Objective r phaseId itemId Hl).
    split; [by intros [= ->] | by intros ->].
  - pose proof (toggle_twice Milestone r phaseId itemId Hl) as Htwice.
    simpl in Htwice. rewrite Htwice. split; [done|].
    rewrite <- (settle_fixed Milestone r phaseId itemId Hl).
    split; [by intros [= ->] | by intros ->].
Qed.

Lemma toggle_twice_restores_witness :
  ((toggleObjective Sample.plan "phase-1" "o2"
      ≫= fun r' => toggleObjective r' "phase-1" "o2")
   = Ok (settle Objective Sample.plan "phase-1" "o2")
   /\ ((toggleObjective Sample.plan "phase-1" "o2"
        ≫= fun r' => toggleObjective r' "phase-1" "o2") = Ok Sample.plan
       <-> designated_boolean Objective Sample.plan "phase-1" "o2" = true))
  /\ ((toggleMilestone Sample.plan "phase-1" "o2"
         ≫= fun r' => toggleMilestone r' "phase-1" "o2")
      = Ok (settle Milestone Sample.plan "phase-1" "o2")
      /\ ((toggleMilestone Sample.plan "phase-1" "o2"
           ≫= fun r' => toggleMilestone r' "phase-1" "o2") = Ok Sample.plan
          <-> designated_boolean Milestone Sample.plan "phase-1" "o2" = true)).
Proof.
  apply (toggle_twice_restores Sample.plan "phase-1" "o2"). reflexivity.
Defined.

(** The toggle of the sample plan, computed. *)
Example toggle_o2 :
  toggleObjective Sample.plan "phase-1" "o2"
  = Ok (Roadmap.with_phases
          [ Sample.phase "phase-1"
              [Sample.item "o1" true; Sample.item "o2" true] [Sample.item "m1" false];
            Sample.phase "phase-2"
              [Sample.item "o3" false; Sample.item "o4" false] [Sample.item "m2" false] ]
          (Sample.blank "r1" "u1")).
Proof. reflexivity. Qed.

(** Normalisation of the sample document: one phase per resource with
    the defaults filled in, the strings wrapped with fresh identifiers. *)
Example normalize_raw :
  normalize Sample.stamp 0 Sample.raw
  = Ok (Roadmap.with_phases
          [ {| Phase.id := Some "phase-1"; Phase.phase_number := Some 1%Z;
               Phase.title := Some "Git"; Phase.duration_weeks := Some 2%Z;
               Phase.tools_covered := Some [Some "Git"];
               Phase.learning_objectives :=
                 Some [ Structured {| Item.id := Some "obj-1700000000000-0.0";
                                      Item.text := "Branching";
                                      Item.completed := Some false |};
                        Structured {| Item.id := Some "obj-1700000000000-0.1";
                                      Item.text := "Rebasing";
                                      Item.completed := Some false |} ];
               Phase.milestones :=
                 Some [ Structured {| Item.id := Some "ms-1700000000000-0.2";
                                      Item.text := "First pull request";
                                      Item.completed := Some false |} ];
               Phase.expanded := Some true |};
            {| Phase.id := Some "phase-2"; Phase.phase_number := Some 2%Z;
               Phase.title := Some "Phase 2"; Phase.duration_weeks := Some 4%Z;
               Phase.tools_covered := Some [None];
               Phase.learning_objectives := Some [];
               Phase.milestones := Some [];
               Phase.expanded := Some false |} ]
          Sample.raw, 3%nat).
Proof. vm_compute. reflexivity. Qed.

(** ** Store adapter *)

Section SortByKey.
Context {A : Type} (key : A -> Z).

Lemma sort_insert_perm (compare : A -> A -> Z) a l :
  sort_insert compare a l ≡ₚ a :: l.
Proof.
  induction l as [|b l IH]; [done|]. simpl.
  destruct (compare a b <=? 0)%Z; [done|].
  rewrite IH. apply Permutation_swap.
Qed.

Lemma Array_sort_perm (compare : A -> A -> Z) l :
  Array_sort compare l ≡ₚ l.
Proof.
  induction l as [|a l IH]; [done|]. unfold Array_sort in *. simpl.
  by rewrite sort_insert_perm, IH.
Qed.

(** With the comparator [(a, b) => key(b) - key(a)] the keys descend. *)
Lemma sort_insert_sorted a l :
  StronglySorted (fun a b => (key b <= key a)%Z) l ->
  StronglySorted (fun a b => (key b <= key a)%Z)
    (sort_insert (fun a b => (key b - key a)%Z) a l).
Proof.
  induction l as [|b l IH]; intros Hs; simpl.
  - by repeat constructor.
  - apply StronglySorted_inv in Hs as [Hl Hb].
    destruct (key b - key a <=? 0)%Z eqn:E.
    + apply Z.leb_le in E. constructor; [by constructor|].
      constructor; [lia|].
      eapply Forall_impl; [exact Hb|]. simpl. lia.
    + apply Z.leb_gt in E. constructor; [by apply IH|].
      rewrite sort_insert_perm. constructor; [lia | done].
Qed.

Lemma Array_sort_sorted l :
  StronglySorted (fun a b => (key b <= key a)%Z)
    (Array_sort (fun a b => (key b - key a)%Z) l).
Proof.
  induction l as [|a l IH]; [constructor|].
  unfold Array_sort in *. simpl. by apply sort_insert_sorted.
Qed.
End SortByKey.

Lemma filter_stamped (ds : list Roadmap.t) (P : Roadmap.t -> Prop)
    `{!forall d, Decision (P d)} :
  forallb (fun d => bool_decide (is_Some (Roadmap.createdAt d))) ds = true ->
  filter (fun d => is_Some (Roadmap.createdAt d)) (filter P ds) = filter P ds.
Proof.
  induction ds as [|d ds IH]; [done|]. simpl.
  intros [Hd Hds]%andb_true_iff. apply bool_decide_eq_true in Hd.
  rewrite (filter_cons P). destruct (decide (P d)); [|by apply IH].
  rewrite filter_cons, decide_True by done. by rewrite IH.
Qed.

(** The writers keep every document stamped. *)
Lemma saveRoadmap_stamped db newId now userId roadmapData :
  stamped db = true ->
  stamped (saveRoadmap db newId now userId roadmapData).2 = true.
Proof.
  unfold stamped, saveRoadmap. destruct (negb _); [done|].
  destruct (mapM _ _); [|done]. simpl. rewrite forallb_app. intros ->. done.
Qed.

Lemma updateRoadmapStatus_stamped db now roadmapId status :
  stamped db = true -> stamped (updateRoadmapStatus db now roadmapId status) = true.
Proof.
  unfold stamped, updateRoadmapStatus. simpl.
  induction (Firestore.documents db) as [|d ds IH]; [done|]. simpl.
  intros [Hd Hds]%andb_true_iff. rewrite (IH Hds), andb_true_r.
  by destruct (bool_decide (Roadmap.doc_id d = roadmapId)).
Qed.

Lemma updateRoadmapProgress_stamped db now roadmapId progressData :
  stamped db = true ->
  stamped (updateRoadmapProgress db now roadmapId progressData) = true.
Proof.
  unfold stamped, updateRoadmapProgress. simpl.
  induction (Firestore.documents db) as [|d ds IH]; [done|]. simpl.
  intros [Hd Hds]%andb_true_iff. rewrite (IH Hds), andb_true_r.
  destruct (bool_decide (Roadmap.doc_id d = roadmapId)); [|done].
  by destruct progressData.
Qed.

Lemma deleteRoadmap_stamped db roadmapId :
  stamped db = true -> stamped (deleteRoadmap db roadmapId) = true.
Proof.
  unfold stamped, deleteRoadmap. simpl.
  induction (Firestore.documents db) as [|d ds IH]; [done|]. simpl.
  intros [Hd Hds]%andb_true_iff. rewrite filter_cons.
  destruct (decide _); simpl; [rewrite Hd|]; by apply IH.
Qed.

(** Whenever the backend can be reached, [getUserRoadmaps] succeeds and
    returns exactly the documents of the given user (each once), ordered
    by the seconds of [createdAt], the larger first.  This holds when the
    composite index is missing, and when the index exists and the stored
    documents carry the [createdAt] that [saveRoadmap] gives every
    document. *)
Lemma getUserRoadmaps_by_seconds (db : Firestore.t) (userId : string) :
  Firestore.available db = true ->
  (Firestore.index_built db = true -> stamped db = true) ->
  success (getUserRoadmaps db userId) = true
  /\ roadmaps (getUserRoadmaps db userId)
       ≡ₚ filter (fun d => Roadmap.userId d = userId) (Firestore.documents db)
  /\ StronglySorted (fun a b => (createdAt_seconds b <= createdAt_seconds a)%Z)
       (roadmaps (getUserRoadmaps db userId)).
Proof.
  intros Hup Hstamped.
  unfold getUserRoadmaps, Firestore.getDocs. rewrite Hup. simpl.
  destruct (Firestore.index_built db) eqn:Eindex; simpl.
  - split; [done|]. split; [|apply Array_sort_sorted].
    rewrite !Array_sort_perm.
    by rewrite filter_stamped by (by apply Hstamped).
  - split; [done|]. split; [apply Array_sort_perm | apply Array_sort_sorted].
Qed.

(** C9, at the input where the code departs from it: two roadmaps of one
    user saved within the same second, in a collection without the
    composite index.  The ordered query raises, the plain query returns
    the documents in collection order, and the client's sort compares
    [createdAt.seconds] only: the list comes back with the older roadmap
    first, which is not descending by [createdAt].  With the index the
    same documents come back newest first, and roadmaps saved in different
    seconds are put newest first without it. *)
Theorem getUserRoadmaps_same_second :
  getUserRoadmaps Draft.twins "u1"
  = {| success := true;
       roadmaps := [ Sample.saved "a" "u1" 1700000200 100000000;
                     Sample.saved "b" "u1" 1700000200 700000000 ];
       error := None |}
  /\ created_before (Sample.saved "a" "u1" 1700000200 100000000)
       (Sample.saved "b" "u1" 1700000200 700000000)
  /\ ~ newest_first (roadmaps (getUserRoadmaps Draft.twins "u1"))
  /\ roadmaps (getUserRoadmaps
                 {| Firestore.documents := Firestore.documents Draft.twins;
                    Firestore.index_built := true;
                    Firestore.available := true |} "u1")
     = [ Sample.saved "b" "u1" 1700000200 700000000;
         Sample.saved "a" "u1" 1700000200 100000000 ]
  /\ roadmaps (getUserRoadmaps Sample.store "u1")
     = [ Sample.saved "c" "u1" 300 0; Sample.saved "d" "u1" 200 5;
         Sample.saved "a" "u1" 100 0 ]
  /\ newest_first (roadmaps (getUserRoadmaps Sample.store "u1")).
Proof.
  assert (Hbefore : created_before (Sample.saved "a" "u1" 1700000200 100000000)
                      (Sample.saved "b" "u1" 1700000200 700000000)).
  { right. simpl. split; [done|lia]. }
  split; [by vm_compute|]. split; [done|]. split.
  - replace (roadmaps (getUserRoadmaps Draft.twins "u1"))
      with [ Sample.saved "a" "u1" 1700000200 100000000;
             Sample.saved "b" "u1" 1700000200 700000000 ] by (by vm_compute).
    intros Hsorted. apply StronglySorted_inv in Hsorted as [_ Hfirst].
    apply Forall_cons in Hfirst as [Hnot _]. by apply Hnot.
  - split; [by vm_compute|]. split; [by vm_compute|].
    replace (roadmaps (getUserRoadmaps Sample.store "u1"))
      with [ Sample.saved "c" "u1" 300 0; Sample.saved "d" "u1" 200 5;
             Sample.saved "a" "u1" 100 0 ] by (by vm_compute).
    unfold newest_first.
    repeat constructor; intros [H|[H H']]; simpl in *; lia.
Qed.

(** With the index the server's order survives the client's stable sort. *)
Example getUserRoadmaps_with_index :
  roadmaps (getUserRoadmaps
              {| Firestore.documents :=
                   [ Sample.saved "a" "u1" 200 1; Sample.saved "b" "u1" 200 7;
                     Sample.saved "c" "u1" 300 0 ];
                 Firestore.index_built := true;
                 Firestore.available := true |} "u1")
  = [ Sample.saved "c" "u1" 300 0; Sample.saved "b" "u1" 200 7;
      Sample.saved "a" "u1" 200 1 ].
Proof. vm_compute. reflexivity. Qed.

(** When the backend cannot be reached both queries raise and the call
    reports the failure. *)
Example getUserRoadmaps_unavailable :
  getUserRoadmaps
    {| Firestore.documents := [Sample.saved "a" "u1" 200 1];
       Firestore.index_built := true;
       Firestore.available := false |} "u1"
  = {| success := false; roadmaps := []; error := Some "unavailable" |}.
Proof. reflexivity. Qed.

(** Without the index the documents come back in collection order and the
    client puts them newest first. *)
Example getUserRoadmaps_without_index :
  getUserRoadmaps Sample.store "u1"
  = {| success := true;
       roadmaps := [ Sample.saved "c" "u1" 300 0; Sample.saved "d" "u1" 200 5;
                     Sample.saved "a" "u1" 100 0 ];
       error := None |}.
Proof. vm_compute. reflexivity. Qed.

(** ** The wizard *)

Module WizardFacts.
Import Wizard.
Local Open Scope nat_scope.

(** [toggleTool] never grows a selection beyond 8 tools. *)
Lemma toggleTool_length t prev :
  length prev <= 8 -> length (toggleTool t prev) <= 8.
Proof.
  intros H. unfold toggleTool.
  destruct (List.find _ prev).
  - etrans; [apply length_filter | done].
  - destruct (8 <=? length prev) eqn:E; [done|].
    apply Nat.leb_gt in E. rewrite length_app. simpl. lia.
Qed.

Lemma invariant_initial : invariant (render initial).
Proof. split; [intros sel [= <-]; simpl; lia | done]. Qed.

Lemma invariant_render s : invariant s -> invariant (render s).
Proof.
  intros [Hsel Hstep]. split; [|done]. simpl.
  destruct (shows_InterestSelector s); [|done].
  intros sel [= <-]. destruct (selector s) as [sel|] eqn:E; simpl; [|lia].
  by apply Hsel.
Qed.

Lemma invariant_handle s e :
  invariant s -> enabled s e = true -> invariant (handle e s).
Proof.
  intros [Hsel Hstep] Hen. destruct e; simpl in *.
  - (* handleResumeComplete *) by split.
  - (* toggleTool *)
    split; [|done]. simpl. intros sel Hsome.
    destruct (selector s) as [prev|]; [|done]. injection Hsome as <-.
    by apply toggleTool_length, Hsel.
  - (* handleGenerate *)
    unfold handleGenerate.
    destruct (selector s) as [tools|] eqn:E; [|by split; rewrite ?E].
    destruct (2 <=? length tools) eqn:E2; [|by split; rewrite ?E].
    apply Nat.leb_le in E2. split; simpl; [by rewrite E|].
    intros _. split; [done|]. by apply Hsel.
  - (* handlePreferencesSet *) by split.
  - (* generation_settled *)
    unfold generation_settled. destruct outcome as [response|exn]; [|by split].
    destruct (gen_success response); by split.
  - (* handleBack *)
    unfold handleBack. destruct (1 <? step s) eqn:E; [|by split].
    split; [done|]. simpl. intros H3.
    unfold shows_Back, shows_InterestSelector, shows_TimeCommitment in Hen.
    apply orb_true_iff in Hen as [Hen|Hen];
      apply andb_true_iff in Hen as [Hen _];
      apply andb_true_iff in Hen as [_ Hen];
      apply Nat.eqb_eq in Hen; lia.
  - (* handleStartOver *) by split.
  - (* dismiss *) by split.
Qed.

Lemma invariant_dispatch s e : invariant s -> invariant (dispatch s e).
Proof.
  intros H. unfold dispatch. destruct (enabled s e) eqn:E; [|done].
  by apply invariant_render, invariant_handle.
Qed.

Lemma invariant_run events : invariant (run events).
Proof.
  unfold run. generalize invariant_initial. generalize (render initial).
  induction events as [|e events IH]; intros s Hs; [done|]. simpl.
  by apply IH, invariant_dispatch.
Qed.

Lemma invariant_reachable s : reachable s -> invariant s.
Proof.
  induction 1 as [|s e _ IH Hen]; [apply invariant_initial|].
  by apply invariant_render, invariant_handle.
Qed.

(** The states of the runs are the reachable states. *)
Lemma reachable_run events : reachable (run events).
Proof.
  unfold run. generalize reachable_initial. generalize (render initial).
  induction events as [|e events IH]; intros s Hs; [done|]. simpl.
  apply IH. unfold dispatch. destruct (enabled s e) eqn:E; [|done].
  by constructor.
Qed.

Lemma run_reachable s : reachable s -> exists events, run events = s.
Proof.
  induction 1 as [|s e _ [events Heq] Hen]; [by exists []|].
  exists (events ++ [e]). unfold run in *. rewrite fold_left_app. simpl.
  rewrite Heq. unfold dispatch. by rewrite Hen.
Qed.
End WizardFacts.

(** C10: after any sequence of events, from the first render, if the
    wizard is at step 3 (SetPreferences) then between 2 and 8 tools are
    selected.  ([WizardFacts.toggleTool_length] is the bound on the
    toggle; the step is only left for step 3 by [handleGenerate], under
    its guard [selectedTools.length >= 2].) *)
Theorem SetPreferences_has_2_to_8_tools (events : list Wizard.event) :
  Wizard.step (Wizard.run events) = 3 ->
  2 <= length (Wizard.selectedTools (Wizard.run events)) <= 8.
Proof. intros H3. by apply (WizardFacts.invariant_run events). Qed.

Lemma SetPreferences_has_2_to_8_tools_witness :
  2 <= length (Wizard.selectedTools (Wizard.run Sample.session)) <= 8.
Proof.
  apply (SetPreferences_has_2_to_8_tools Sample.session).
  vm_compute. reflexivity.
Defined.

(** The sample session: the first Generate click, with one tool, does
    nothing; the second hands over the two remaining tools. *)
Example session_result :
  Wizard.step (Wizard.run Sample.session) = 3
  /\ Wizard.name <$> Wizard.selectedTools (Wizard.run Sample.session)
     = ["Kubernetes"; "React"]
  /\ Wizard.selector (Wizard.run Sample.session) = None.
Proof. vm_compute. repeat split; reflexivity. Qed.


(** * Further properties *)

(** ** The counters in closed form *)

Lemma fold_count_entry l c :
  fold_left count_entry l c
  = {| totalItems := totalItems c + length l;
       completedItems :=
         completedItems c
         + length (filter (fun x => entry_completed x = true) l) |}.
Proof.
  revert c. induction l as [|obj l IH]; intros c; simpl.
  - destruct c. simpl. f_equal; lia.
  - rewrite IH, filter_cons. unfold count_entry. simpl.
    destruct (entry_completed obj) eqn:E.
    + rewrite decide_True by done. simpl. f_equal; lia.
    + rewrite decide_False by done. f_equal; lia.
Qed.

Lemma count_phase_closed c phase :
  count_phase c phase
  = {| totalItems := totalItems c + phase_total phase;
       completedItems := completedItems c + phase_done phase |}.
Proof.
  unfold count_phase, forEach. rewrite !fold_count_entry. simpl.
  unfold phase_total, phase_done, length_or_0, completed_length. f_equal; lia.
Qed.

Lemma count_phases_closed ps c :
  fold_left count_phase ps c
  = {| totalItems := totalItems c + sum_list (phase_total <$> ps);
       completedItems := completedItems c + sum_list (phase_done <$> ps) |}.
Proof.
  revert c. induction ps as [|phase ps IH]; intros c; csimpl.
  - destruct c. simpl. f_equal; lia.
  - rewrite IH, count_phase_closed. simpl. f_equal; lia.
Qed.

Lemma item_counters_closed r :
  item_counters r
  = {| totalItems := sum_list (phase_total <$> default [] (Roadmap.phases r));
       completedItems := sum_list (phase_done <$> default [] (Roadmap.phases r)) |}.
Proof. unfold item_counters, forEach. by rewrite count_phases_closed. Qed.

Lemma item_counters_le r :
  (completedItems (item_counters r) <= totalItems (item_counters r))%nat.
Proof. unfold item_counters, forEach. apply count_phases_le. simpl. lia. Qed.

(** X1: the list view and the detail view count the same: the
    [completedItems] and [totalItems] that [getProgressStats] shows on a
    card are the counters [calculateProgressFromRoadmap] computes the
    percentage from, for every stored roadmap. *)
Theorem getProgressStats_counts (r : Roadmap.t) :
  stats_completedItems (getProgressStats r) = completedItems (item_counters r)
  /\ stats_totalItems (getProgressStats r) = totalItems (item_counters r).
Proof.
  unfold getProgressStats, item_counters, forEach. simpl.
  destruct (Roadmap.phases r) as [ps|]; [|done]. simpl.
  generalize {| totalItems := 0; completedItems := 0 |}.
  induction ps as [|phase ps IH]; intros c; [done|]. simpl.
  replace (count_phase c phase)
    with (match Phase.milestones phase with
          | Some mss =>
              fold_left count_entry mss
                match Phase.learning_objectives phase with
                | Some los => fold_left count_entry los c
                | None => c
                end
          | None =>
              match Phase.learning_objectives phase with
              | Some los => fold_left count_entry los c
              | None => c
              end
          end); [apply IH|].
  unfold count_phase, forEach.
  by destruct (Phase.learning_objectives phase), (Phase.milestones phase).
Qed.

(** X2: the "Completed" tile of the detail view shows the counters of the
    progress computation: the two [reduce] expressions give
    [completedItems] and [totalItems] whenever the roadmap has a [phases]
    array (and [undefined] otherwise). *)
Theorem header_counts (r : Roadmap.t) :
  header_completed r
  = (fun _ => completedItems (item_counters r)) <$> Roadmap.phases r
  /\ header_total r
     = (fun _ => totalItems (item_counters r)) <$> Roadmap.phases r.
Proof.
  rewrite item_counters_closed. unfold header_completed, header_total.
  destruct (Roadmap.phases r) as [ps|]; [|done]. simpl.
  assert (Hd : forall n, fold_left
                 (fun acc p => acc + completed_length (Phase.learning_objectives p)
                               + completed_length (Phase.milestones p))%nat ps n
               = (n + sum_list (phase_done <$> ps))%nat).
  { induction ps as [|p ps IH]; intros n; csimpl; [lia|].
    rewrite IH. unfold phase_done. lia. }
  assert (Ht : forall n, fold_left
                 (fun acc p => acc + length_or_0 (Phase.learning_objectives p)
                               + length_or_0 (Phase.milestones p))%nat ps n
               = (n + sum_list (phase_total <$> ps))%nat).
  { clear Hd. induction ps as [|p ps IH]; intros n; csimpl; [lia|].
    rewrite IH. unfold phase_total. lia. }
  by rewrite Hd, Ht.
Qed.

(** ** The ends of the progress scale *)

Lemma percentage_percent c :
  (0 < totalItems c)%nat ->
  percentage JS.binary64 c
  = JS.Num (inject_Z (percent (completedItems c) (totalItems c))).
Proof.
  intros Ht. unfold percentage, percent, JS.of_nat, JS.div.
  rewrite (proj2 (Nat.ltb_lt _ _) Ht).
  destruct (Qeq_bool (inject_Z (Z.of_nat (totalItems c))) 0) eqn:E; [|done].
  apply Qeq_bool_iff in E. exfalso.
  assert (H : (0 < inject_Z (Z.of_nat (totalItems c)))%Q)
    by (rewrite <- (Zlt_Qlt 0); lia).
  rewrite E in H. by apply Qlt_irrefl in H.
Qed.

(** The percentage grows with the ratio. *)
Lemma percent_le (c t c' t' : nat) :
  (0 < t)%nat -> (0 < t')%nat -> (c * t' <= c' * t)%nat ->
  (percent c t <= percent c' t')%Z.
Proof.
  intros Ht Ht' Hle. unfold percent. apply Qfloor_resp_le, Qplus_le_l.
  apply Binary64.binary64_monotone.
  apply Qmult_le_compat_r; [|by compute].
  apply Binary64.binary64_monotone.
  assert (HT : (0 < inject_Z (Z.of_nat t))%Q) by (rewrite <- (Zlt_Qlt 0); lia).
  assert (HT' : (0 < inject_Z (Z.of_nat t'))%Q) by (rewrite <- (Zlt_Qlt 0); lia).
  apply Qle_shift_div_r; [done|].
  unfold Qdiv. rewrite <- Qmult_assoc, (Qmult_comm (/ _)), Qmult_assoc.
  apply Qle_shift_div_l; [done|].
  rewrite <- !inject_Z_mult, <- Zle_Qle. lia.
Qed.

Lemma percent_all t : (0 < t)%nat -> percent t t = 100%Z.
Proof.
  intros Ht. apply Z.le_antisymm.
  - replace 100%Z with (percent 1 1) by (by vm_compute).
    apply percent_le; lia.
  - replace 100%Z with (percent 1 1) by (by vm_compute).
    apply percent_le; lia.
Qed.

Lemma percent_none t : (0 < t)%nat -> percent 0 t = 0%Z.
Proof.
  intros Ht. apply Z.le_antisymm.
  - replace 0%Z with (percent 0 1) by (by vm_compute).
    apply percent_le; lia.
  - replace 0%Z with (percent 0 1) by (by vm_compute).
    apply percent_le; lia.
Qed.

Lemma percent_not_all c t :
  (c < t)%nat -> (t < 200)%nat -> (percent c t <= 99)%Z.
Proof.
  intros Hc Ht. replace 99%Z with (percent 198 199) by (by vm_compute).
  apply percent_le; lia.
Qed.

Lemma percent_some c t :
  (0 < c)%nat -> (c <= t)%nat -> (t <= 200)%nat -> (1 <= percent c t)%Z.
Proof.
  intros Hc Hct Ht. replace 1%Z with (percent 1 200) by (by vm_compute).
  apply percent_le; lia.
Qed.

(** With 200 entries the scale is no longer sharp: 199 of them done
    already show as 100. *)
Example percent_199_of_200 : percent 199 200 = 100%Z.
Proof. vm_compute. reflexivity. Qed.

Lemma percentage_endpoints c :
  (completedItems c <= totalItems c)%nat ->
  (totalItems c < 200)%nat ->
  (percentage JS.binary64 c = JS.Num 100
   <-> (0 < totalItems c)%nat /\ completedItems c = totalItems c)
  /\ (percentage JS.binary64 c = JS.Num 0 <-> completedItems c = 0%nat).
Proof.
  intros Hle Hsmall.
  destruct (Nat.eq_dec (totalItems c) 0) as [E0|E0].
  { unfold percentage. rewrite E0. simpl.
    split; split; try lia; try done; intros [H _]; lia. }
  rewrite percentage_percent by lia.
  assert (Hinj : forall z z' : Z, JS.Num (inject_Z z) = JS.Num (inject_Z z') <-> z = z').
  { intros z z'. split; [by intros [= ->] | by intros ->]. }
  change (JS.Num 100) with (JS.Num (inject_Z 100)).
  change (JS.Num 0) with (JS.Num (inject_Z 0)).
  rewrite !Hinj. split; split.
  - intros H100. split; [lia|].
    destruct (Nat.eq_dec (completedItems c) (totalItems c)) as [|Hne]; [done|].
    pose proof (percent_not_all (completedItems c) (totalItems c)). lia.
  - intros [_ ->]. apply percent_all. lia.
  - intros H0. destruct (Nat.eq_dec (completedItems c) 0) as [|Hne]; [done|].
    pose proof (percent_some (completedItems c) (totalItems c)). lia.
  - intros ->. apply percent_none. lia.
Qed.

(** X3: for a roadmap with fewer than 200 checklist entries, the
    progress that is displayed and persisted is 100 exactly when there is
    at least one entry and every entry is completed, and 0 exactly when
    no entry is completed. *)
Theorem progress_endpoints (r : Roadmap.t) :
  (totalItems (item_counters r) < 200)%nat ->
  (calculateProgressFromRoadmap JS.binary64 r = JS.Num 100
   <-> (0 < totalItems (item_counters r))%nat
       /\ completedItems (item_counters r) = totalItems (item_counters r))
  /\ (calculateProgressFromRoadmap JS.binary64 r = JS.Num 0
      <-> completedItems (item_counters r) = 0%nat).
Proof.
  intros Hsmall.
  exact (percentage_endpoints (item_counters r) (item_counters_le r) Hsmall).
Qed.

Lemma progress_endpoints_witness :
  (calculateProgressFromRoadmap JS.binary64 Sample.plan = JS.Num 100
   <-> (0 < totalItems (item_counters Sample.plan))%nat
       /\ completedItems (item_counters Sample.plan)
          = totalItems (item_counters Sample.plan))
  /\ (calculateProgressFromRoadmap JS.binary64 Sample.plan = JS.Num 0
      <-> completedItems (item_counters Sample.plan) = 0%nat).
Proof.
  apply (progress_endpoints Sample.plan). vm_compute. lia.
Defined.

(** ** Completed phases *)

Lemma getPhaseProgress_percentage rnd phase :
  getPhaseProgress rnd phase
  = percentage rnd {| totalItems := phase_total phase;
                      completedItems := phase_done phase |}.
Proof.
  unfold getPhaseProgress, percentage, phase_total, phase_done,
    length_or_0, completed_length. simpl.
  by destruct (length (default [] (Phase.learning_objectives phase))
               + length (default [] (Phase.milestones phase)))%nat.
Qed.

Lemma phase_done_le phase : (phase_done phase <= phase_total phase)%nat.
Proof.
  unfold phase_done, phase_total, completed_length, length_or_0.
  pose proof (length_filter (fun x => entry_completed x = true)
                (default [] (Phase.learning_objectives phase))).
  pose proof (length_filter (fun x => entry_completed x = true)
                (default [] (Phase.milestones phase))).
  lia.
Qed.

Lemma phase_complete_iff phase :
  (phase_total phase < 200)%nat ->
  number_eq (getPhaseProgress JS.binary64 phase) (JS.Num 100) = true
  <-> (0 < phase_total phase)%nat /\ phase_done phase = phase_total phase.
Proof.
  intros Hsmall. rewrite getPhaseProgress_percentage.
  pose proof (phase_done_le phase) as Hle.
  destruct (Nat.eq_dec (phase_total phase) 0) as [E0|E0].
  { unfold percentage. simpl. rewrite E0. simpl. split; [done|lia]. }
  rewrite percentage_percent by (simpl; lia). simpl.
  rewrite Qeq_bool_iff. change 100%Q with (inject_Z 100).
  rewrite inject_Z_injective. split.
  - intros H100. split; [lia|].
    destruct (Nat.eq_dec (phase_done phase) (phase_total phase)) as [|Hne]; [done|].
    pose proof (percent_not_all (phase_done phase) (phase_total phase)). lia.
  - intros [_ ->]. apply percent_all. lia.
Qed.

(** X4: the "Completed phases" tile counts exactly the phases that have
    at least one checklist entry and all of them completed, as long as no
    phase has 200 entries or more. *)
Theorem completedPhases_counts (r : Roadmap.t) :
  Forall (fun p => phase_total p < 200)%nat (default [] (Roadmap.phases r)) ->
  completedPhases r
  = length (filter (fun p => (0 < phase_total p)%nat /\ phase_done p = phase_total p)
              (default [] (Roadmap.phases r))).
Proof.
  unfold completedPhases. induction (default [] (Roadmap.phases r)) as [|p ps IH];
    [done|].
  intros [Hp Hps]%Forall_cons. rewrite !filter_cons.
  pose proof (phase_complete_iff p Hp) as Hiff.
  destruct (decide (number_eq _ _ = true)) as [H|H];
    destruct (decide (_ /\ _)) as [H'|H']; simpl; rewrite ?IH by done; try done.
  - by apply Hiff in H.
  - by apply Hiff in H'.
Qed.

Lemma completedPhases_counts_witness :
  completedPhases Draft.half_done
  = length (filter (fun p => (0 < phase_total p)%nat /\ phase_done p = phase_total p)
              (default [] (Roadmap.phases Draft.half_done))).
Proof.
  apply (completedPhases_counts Draft.half_done).
  simpl. repeat (constructor; [vm_compute; lia|]). constructor.
Defined.

(** ** What one toggle does to the counters *)

Lemma sum_list_insert {A} (f : A -> nat) (l : list A) a x y :
  l !! a = Some x ->
  (sum_list (f <$> <[a := y]> l) + f x = sum_list (f <$> l) + f y)%nat.
Proof.
  revert a. induction l as [|z l IH]; intros [|a] Ha; try done; csimpl in *.
  - injection Ha as ->. lia.
  - specialize (IH a Ha). lia.
Qed.

Lemma phase_total_with_items k es es' phase :
  items_of k phase = Some es -> length es' = length es ->
  phase_total (with_items k es' phase) = phase_total phase.
Proof.
  unfold phase_total, length_or_0.
  destruct k; simpl; intros -> Hlen; simpl; lia.
Qed.

Lemma phase_done_with_items k es es' phase :
  items_of k phase = Some es ->
  (phase_done (with_items k es' phase)
   + length (filter (fun x => entry_completed x = true) es)
   = phase_done phase
     + length (filter (fun x => entry_completed x = true) es'))%nat.
Proof.
  unfold phase_done, completed_length.
  destruct k; simpl; intros ->; simpl; lia.
Qed.

Lemma toggled_at_counters k r phaseId itemId r' :
  toggled_at k r phaseId itemId r' ->
  totalItems (item_counters r') = totalItems (item_counters r)
  /\ (completedItems (item_counters r') = S (completedItems (item_counters r))
      \/ S (completedItems (item_counters r')) = completedItems (item_counters r)).
Proof.
  intros (ps & a & phase & es & b & it & Hps & Ha & _ & Hes & Hb & _ & ->).
  rewrite !item_counters_closed, Hps. simpl.
  set (es' := <[b := Structured (Item.with_completed (negb (Item.is_completed it)) it)]> es).
  pose proof (sum_list_insert phase_total ps a phase (with_items k es' phase) Ha) as Ht.
  pose proof (sum_list_insert phase_done ps a phase (with_items k es' phase) Ha) as Hd.
  rewrite (phase_total_with_items k es es' phase Hes) in Ht
    by (unfold es'; by rewrite length_insert).
  pose proof (phase_done_with_items k es es' phase Hes) as Hp.
  rewrite !length_filter_sum in Hp.
  pose proof (sum_list_insert (fun x => if entry_completed x then 1 else 0)%nat es b
                (Structured it)
                (Structured (Item.with_completed (negb (Item.is_completed it)) it)) Hb) as He.
  fold es' in He. simpl in He. unfold Item.is_completed in He. simpl in He.
  split; [lia|].
  destruct (default false (Item.completed it)); simpl in He; [right|left]; lia.
Qed.

(** X5: on a roadmap held by the detail view, a toggle that designates
    exactly one item leaves the number of checklist entries unchanged and
    moves the number of completed entries by exactly one, up or down; the
    progress that [saveProgress] then persists moves in the same direction
    (or stays, after rounding). *)
Theorem toggle_moves_one_step (r : Roadmap.t) (phaseId itemId : string) (k : kind) :
  loaded r = true ->
  match_count k r phaseId itemId = 1%nat ->
  exists r' z z',
    match k with
    | Objective => toggleObjective r phaseId itemId
    | Milestone => toggleMilestone r phaseId itemId
    end = Ok r'
    /\ totalItems (item_counters r') = totalItems (item_counters r)
    /\ calculateProgressFromRoadmap JS.binary64 r = JS.Num (inject_Z z)
    /\ pd_progress (saveProgress JS.binary64 r') = JS.Num (inject_Z z')
    /\ ((completedItems (item_counters r') = S (completedItems (item_counters r))
         /\ (z <= z')%Z)
        \/ (S (completedItems (item_counters r')) = completedItems (item_counters r)
            /\ (z' <= z)%Z)).
Proof.
  intros Hl H1.
  destruct (toggle_single k r phaseId itemId Hl H1) as (r' & Hr' & Hflip).
  apply toggled_at_counters in Hflip as [Ht Hc].
  pose proof (item_counters_le r) as Hle.
  pose proof (item_counters_le r') as Hle'.
  assert (Hpos : (0 < totalItems (item_counters r))%nat) by lia.
  exists r', (percent (completedItems (item_counters r)) (totalItems (item_counters r))),
    (percent (completedItems (item_counters r')) (totalItems (item_counters r'))).
  split; [by destruct k|]. split; [done|].
  split; [by apply percentage_percent|].
  split; [apply percentage_percent; lia|].
  destruct Hc as [Hc|Hc]; [left|right]; (split; [done|]);
    apply percent_le; try lia; rewrite Ht; nia.
Qed.

Lemma toggle_moves_one_step_witness :
  exists r' z z',
    toggleObjective Sample.plan "phase-1" "o2" = Ok r'
    /\ totalItems (item_counters r') = totalItems (item_counters Sample.plan)
    /\ calculateProgressFromRoadmap JS.binary64 Sample.plan = JS.Num (inject_Z z)
    /\ pd_progress (saveProgress JS.binary64 r') = JS.Num (inject_Z z')
    /\ ((completedItems (item_counters r')
         = S (completedItems (item_counters Sample.plan)) /\ (z <= z')%Z)
        \/ (S (completedItems (item_counters r'))
            = completedItems (item_counters Sample.plan) /\ (z' <= z)%Z)).
Proof.
  apply (toggle_moves_one_step Sample.plan "phase-1" "o2" Objective); reflexivity.
Defined.

(** ** Expanding and collapsing a phase *)

Lemma togglePhaseExpansion_phases prev phaseId ps :
  Roadmap.phases prev = Some ps ->
  exists ps',
    togglePhaseExpansion prev phaseId = Ok (Roadmap.with_phases ps' prev)
    /\ Phase.learning_objectives <$> ps' = Phase.learning_objectives <$> ps
    /\ Phase.milestones <$> ps' = Phase.milestones <$> ps
    /\ Phase.id <$> ps' = Phase.id <$> ps.
Proof.
  intros Hps. unfold togglePhaseExpansion. rewrite Hps. simpl.
  eexists. split; [reflexivity|]. clear Hps.
  induction ps as [|p ps (IH1 & IH2 & IH3)]; [done|]. csimpl.
  rewrite IH1, IH2, IH3. by destruct (bool_decide _).
Qed.

(** X6: expanding or collapsing a phase never touches the checklists:
    on a roadmap with a [phases] array it raises nothing, every phase
    keeps its id, its objectives and its milestones, and so the counters
    and the progress are those of the roadmap before, whatever the
    arithmetic; without the array it raises a [TypeError]. *)
Theorem togglePhaseExpansion_keeps_progress (rnd : Q -> Q) (prev : Roadmap.t)
    (phaseId : string) :
  match Roadmap.phases prev with
  | Some ps =>
      exists r', togglePhaseExpansion prev phaseId = Ok r'
        /\ (Phase.learning_objectives <$> default [] (Roadmap.phases r')
            = Phase.learning_objectives <$> ps)
        /\ (Phase.milestones <$> default [] (Roadmap.phases r')
            = Phase.milestones <$> ps)
        /\ (Phase.id <$> default [] (Roadmap.phases r') = Phase.id <$> ps)
        /\ item_counters r' = item_counters prev
        /\ calculateProgressFromRoadmap rnd r' = calculateProgressFromRoadmap rnd prev
        /\ loaded r' = loaded prev
  | None => exists e, togglePhaseExpansion prev phaseId = Throw e
  end.
Proof.
  destruct (Roadmap.phases prev) as [ps|] eqn:Hps;
    [|unfold togglePhaseExpansion; rewrite Hps; by eexists].
  destruct (togglePhaseExpansion_phases prev phaseId ps Hps)
    as (ps' & -> & Hlo & Hms & Hid).
  eexists. split; [reflexivity|]. simpl. do 3 (split; [done|]).
  assert (Hcount : item_counters (Roadmap.with_phases ps' prev) = item_counters prev).
  { rewrite !item_counters_closed, Hps. simpl.
    assert (Hsum : sum_list (phase_total <$> ps') = sum_list (phase_total <$> ps)
                   /\ sum_list (phase_done <$> ps') = sum_list (phase_done <$> ps)).
    { clear Hps Hid. revert ps' Hlo Hms.
      induction ps as [|p ps IH]; intros [|p' ps'] Hlo Hms; try done.
      csimpl in *. injection Hlo as Hlo1 Hlo. injection Hms as Hms1 Hms.
      destruct (IH ps' Hlo Hms) as [-> ->].
      unfold phase_total, phase_done. by rewrite Hlo1, Hms1. }
    by destruct Hsum as [-> ->]. }
  split; [done|]. split.
  - unfold calculateProgressFromRoadmap. fold (item_counters (Roadmap.with_phases ps' prev)).
    fold (item_counters prev). by rewrite Hcount.
  - unfold loaded. rewrite Hps. simpl.
    clear Hps Hid Hcount. revert ps' Hlo Hms.
    induction ps as [|p ps IH]; intros [|p' ps'] Hlo Hms; try done.
    csimpl in *. injection Hlo as Hlo1 Hlo. injection Hms as Hms1 Hms.
    rewrite (IH ps' Hlo Hms). unfold phase_loaded. by rewrite Hlo1, Hms1.
Qed.

(** ** Loading a document *)

(** X10: [fetchRoadmap] and the response it is given.  A successful
    response that carries no roadmap, or whose roadmap has neither a
    [phases] property nor a non-empty [learningResources], raises a
    [TypeError], which nothing catches: the promise that [fetchRoadmap]
    returned is rejected.  A failed response
    never raises: the roadmap of the state is kept, [loading] is cleared
    and the error is the response's, or the default text when the
    response has none or an empty one. *)
Theorem fetchRoadmap_rejects (stamp : nat -> string) (k : nat)
    (response : getResponse) (st : DetailState) :
  (get_success response = true ->
   match get_roadmap response with
   | None => True
   | Some d => Roadmap.phases d = None /\ has_resources d = false
   end ->
   exists what,
     fetchRoadmap stamp k response st
     = Throw (TypeError ("Cannot read properties of undefined (reading '"
                         +:+ what +:+ "')")))
  /\ (get_success response = false ->
      fetchRoadmap stamp k response st
      = Ok ({| roadmap := roadmap st; loading := false; saving := saving st;
               error_message :=
                 Some (match get_error response with
                       | Some (String a text) => String a text
                       | Some EmptyString | None => "Failed to load roadmap"
                       end) |}, k)).
Proof.
  unfold fetchRoadmap. split.
  - intros -> Hd. destruct (get_roadmap response) as [d|]; simpl.
    + destruct Hd as [Hp Hr]. unfold normalize, create_phases, no_phases.
      rewrite Hp, Hr. simpl. rewrite Hp. simpl. by exists "map".
    + by exists "phases".
  - intros ->. by destruct (get_error response) as [[|a text]|].
Qed.

Lemma fetchRoadmap_rejects_witness :
  (exists what,
     fetchRoadmap Sample.stamp 0
       {| get_success := true; get_roadmap := None; get_error := None |}
       {| roadmap := None; loading := false; saving := false;
          error_message := None |}
     = Throw (TypeError ("Cannot read properties of undefined (reading '"
                         +:+ what +:+ "')")))
  /\ fetchRoadmap Sample.stamp 0
       {| get_success := false; get_roadmap := None;
          get_error := Some "Roadmap not found" |}
       {| roadmap := None; loading := false; saving := false;
          error_message := None |}
     = Ok ({| roadmap := None; loading := false; saving := false;
              error_message := Some "Roadmap not found" |}, 0%nat).
Proof.
  split.
  - apply (proj1 (fetchRoadmap_rejects Sample.stamp 0
             {| get_success := true; get_roadmap := None; get_error := None |}
             {| roadmap := None; loading := false; saving := false;
                error_message := None |})); reflexivity || exact I.
  - apply (proj2 (fetchRoadmap_rejects Sample.stamp 0
             {| get_success := false; get_roadmap := None;
                get_error := Some "Roadmap not found" |}
             {| roadmap := None; loading := false; saving := false;
                error_message := None |})). reflexivity.
Defined.

Section NormalizerCounts.
Variable stamp : nat -> string.

Lemma wrap_entries_counts prefix k xs :
  length (wrap_entries stamp prefix k xs).1 = length xs
  /\ length (filter (fun x => entry_completed x = true)
               (wrap_entries stamp prefix k xs).1)
     = length (filter (fun x => entry_completed x = true) xs)
  /\ (wrap_entries stamp prefix k xs).2
     = (k + length (filter (fun e => is_structured e = false) xs))%nat.
Proof.
  revert k. induction xs as [|obj xs IH]; intros k; simpl; [by rewrite Nat.add_0_r|].
  destruct obj as [s|it]; simpl.
  - destruct (IH (S k)) as (H1 & H2 & H3).
    destruct (wrap_entries stamp prefix (S k) xs) as [xs' k']. simpl in *.
    rewrite !filter_cons. simpl.
    repeat case_decide; try done; simpl; repeat split; lia.
  - destruct (IH k) as (H1 & H2 & H3).
    destruct (wrap_entries stamp prefix k xs) as [xs' k']. simpl in *.
    rewrite !filter_cons. simpl.
    repeat case_decide; try done; simpl; repeat split; lia.
Qed.

Lemma init_checkboxes_counts k phase :
  phase_total (init_checkboxes stamp k phase).1 = phase_total phase
  /\ phase_done (init_checkboxes stamp k phase).1 = phase_done phase
  /\ (init_checkboxes stamp k phase).2
     = (k + (bare_in (Phase.learning_objectives phase)
             + bare_in (Phase.milestones phase)))%nat
  /\ bare_in (Phase.learning_objectives (init_checkboxes stamp k phase).1) = 0%nat
  /\ bare_in (Phase.milestones (init_checkboxes stamp k phase).1) = 0%nat.
Proof.
  unfold init_checkboxes, phase_total, phase_done, length_or_0, completed_length,
    bare_in.
  pose proof (wrap_entries_counts "obj" k
                (default [] (Phase.learning_objectives phase))) as (L1 & L2 & L3).
  pose proof (wrap_entries_structured stamp "obj" k
                (default [] (Phase.learning_objectives phase))) as L4.
  destruct (wrap_entries stamp "obj" k _) as [los k1]. simpl in *.
  pose proof (wrap_entries_counts "ms" k1
                (default [] (Phase.milestones phase))) as (M1 & M2 & M3).
  pose proof (wrap_entries_structured stamp "ms" k1
                (default [] (Phase.milestones phase))) as M4.
  destruct (wrap_entries stamp "ms" k1 _) as [mss k2]. simpl in *.
  assert (Hnone : forall es, forallb is_structured es = true ->
                    length (filter (fun e => is_structured e = false) es) = 0%nat).
  { clear. induction es as [|e es IH]; [done|]. simpl.
    intros [He Hes]%andb_true_iff. rewrite filter_cons, He.
    rewrite decide_False by done. by apply IH. }
  rewrite (Hnone _ L4), (Hnone _ M4). repeat split; lia.
Qed.

Lemma init_phases_counts k ps :
  sum_list (phase_total <$> (init_phases stamp k ps).1) = sum_list (phase_total <$> ps)
  /\ sum_list (phase_done <$> (init_phases stamp k ps).1) = sum_list (phase_done <$> ps)
  /\ (init_phases stamp k ps).2
     = (k + sum_list ((fun p => bare_in (Phase.learning_objectives p)
                                + bare_in (Phase.milestones p))%nat <$> ps))%nat
  /\ sum_list ((fun p => bare_in (Phase.learning_objectives p)
                         + bare_in (Phase.milestones p))%nat
                 <$> (init_phases stamp k ps).1) = 0%nat.
Proof.
  revert k. induction ps as [|phase ps IH]; intros k; csimpl;
    [by rewrite Nat.add_0_r|].
  pose proof (init_checkboxes_counts k phase) as (P1 & P2 & P3 & P4 & P5).
  destruct (init_checkboxes stamp k phase) as [phase' k1]. simpl in *.
  destruct (IH k1) as (H1 & H2 & H3 & H4).
  destruct (init_phases stamp k1 ps) as [ps' k2]. csimpl in *.
  repeat split; lia.
Qed.

(** Normalisation counts what it was given: the counters of the result
    are those of the document after the first block, and one identifier is
    drawn per bare string. *)
Lemma normalize_counters k x y k' :
  normalize stamp k x = Ok (y, k') ->
  item_counters y = item_counters (create_phases x)
  /\ k' = (k + bare_count (create_phases x))%nat
  /\ bare_count y = 0%nat.
Proof.
  unfold normalize. rewrite !item_counters_closed. unfold bare_count.
  destruct (Roadmap.phases (create_phases x)) as [ps|]; [|done]. simpl.
  pose proof (init_phases_counts k ps) as (H1 & H2 & H3 & H4).
  destruct (init_phases stamp k ps) as [ps' k'']. simpl in *.
  intros [= <- <-]. simpl. by rewrite H1, H2, H3, H4.
Qed.

(** X11: loading a document that has phases never changes what is
    counted: normalisation succeeds, draws exactly one identifier per bare
    string, leaves no bare string behind, and the counters and the
    progress of the result are those of the stored document, whatever the
    arithmetic. *)
Theorem normalize_keeps_progress (k : nat) (x : Roadmap.t) :
  no_phases x = false ->
  exists y,
    normalize stamp k x = Ok (y, (k + bare_count x)%nat)
    /\ bare_count y = 0%nat
    /\ item_counters y = item_counters x
    /\ forall rnd, calculateProgressFromRoadmap rnd y
                   = calculateProgressFromRoadmap rnd x.
Proof.
  intros Hno.
  assert (Hx : create_phases x = x) by (unfold create_phases; by rewrite Hno).
  destruct (normalize stamp k x) as [[y k']|e] eqn:E.
  - destruct (normalize_counters k x y k' E) as (Hc & -> & Hb). rewrite Hx in *.
    exists y. repeat split; try done.
    intros rnd. unfold calculateProgressFromRoadmap.
    fold (item_counters y) (item_counters x). by rewrite Hc.
  - exfalso. assert (Hthrow : exists e, normalize stamp k x = Throw e) by by exists e.
    apply normalize_throws_iff in Hthrow as [Hnone _].
    unfold no_phases in Hno. by rewrite Hnone in Hno.
Qed.
End NormalizerCounts.

Lemma normalize_keeps_progress_witness :
  exists y,
    normalize Sample.stamp 0 Draft.doc = Ok (y, (0 + bare_count Draft.doc)%nat)
    /\ bare_count y = 0%nat
    /\ item_counters y = item_counters Draft.doc
    /\ forall rnd, calculateProgressFromRoadmap rnd y
                   = calculateProgressFromRoadmap rnd Draft.doc.
Proof. apply (normalize_keeps_progress Sample.stamp 0 Draft.doc). reflexivity. Defined.

(** ** Fresh identifiers *)

Section FreshIds.
Variable stamp : nat -> string.

Lemma drawn_apart prefix i k k1 k2 :
  distinct_stamps stamp k k2 -> (k <= k1)%nat ->
  drawn stamp prefix i k k1 -> drawn stamp prefix i k1 k2 -> False.
Proof.
  unfold drawn, distinct_stamps. intros Hd Hk (a & Ha & ->) (b & Hb & Heq).
  apply (inj (String.app prefix)), (inj (String.app "-")) in Heq.
  apply (Hd a b); [lia|lia|done].
Qed.

Lemma wrap_entries_fresh prefix i k xs :
  forallb (fun e => negb (is_structured e)) xs = true ->
  (wrap_entries stamp prefix k xs).2 = (k + length xs)%nat
  /\ ((0 < id_count i (wrap_entries stamp prefix k xs).1)%nat ->
      drawn stamp prefix i k (k + length xs)%nat)
  /\ (distinct_stamps stamp k (k + length xs)%nat ->
      (id_count i (wrap_entries stamp prefix k xs).1 <= 1)%nat).
Proof.
  revert k. induction xs as [|obj xs IH]; intros k Hplain; simpl in *.
  { unfold id_count. simpl. repeat split; lia. }
  apply andb_true_iff in Hplain as [Hobj Hxs].
  destruct obj as [s|it]; [|done]. simpl.
  destruct (IH (S k) Hxs) as (H1 & H2 & H3).
  destruct (wrap_entries stamp prefix (S k) xs) as [xs' k']. simpl in *.
  unfold id_count in *. rewrite filter_cons. simpl.
  split; [lia|].
  destruct (decide (bool_decide (Some (prefix +:+ "-" +:+ stamp k) = Some i) = true))
    as [Hhead|Hhead]; simpl.
  - apply bool_decide_eq_true in Hhead. injection Hhead as <-. split.
    + intros _. exists k. split; [lia|done].
    + intros Hd.
      destruct (length (filter (fun e => entry_has_id _ e = true) xs')) eqn:E; [lia|].
      exfalso. apply (drawn_apart prefix (prefix +:+ "-" +:+ stamp k) k (S k)
                        (k + S (length xs))%nat); [done|lia| |].
      * exists k. split; [lia|done].
      * destruct H2 as (j & Hj & Heq); [lia|]. exists j. split; [lia|done].
  - split.
    + intros Hpos. destruct (H2 Hpos) as (j & Hj & Heq). exists j. split; [lia|done].
    + intros Hd. apply H3. intros a b Ha Hb. apply Hd; lia.
Qed.

Lemma init_checkboxes_fresh kd i k phase :
  only_strings (Phase.learning_objectives phase)
  && only_strings (Phase.milestones phase) = true ->
  (k <= (init_checkboxes stamp k phase).2)%nat
  /\ ((0 < id_count i (default [] (items_of kd (init_checkboxes stamp k phase).1)))%nat ->
      drawn stamp (prefix_of kd) i k (init_checkboxes stamp k phase).2)
  /\ (distinct_stamps stamp k (init_checkboxes stamp k phase).2 ->
      (id_count i (default [] (items_of kd (init_checkboxes stamp k phase).1)) <= 1)%nat).
Proof.
  unfold only_strings, init_checkboxes. intros [Hl Hm]%andb_true_iff.
  pose proof (wrap_entries_fresh "obj" i k _ Hl) as (L1 & L2 & L3).
  destruct (wrap_entries stamp "obj" k _) as [los k1]. simpl in *. subst k1.
  pose proof (wrap_entries_fresh "ms" i
                (k + length (default [] (Phase.learning_objectives phase)))%nat
                _ Hm) as (M1 & M2 & M3).
  destruct (wrap_entries stamp "ms" _ _) as [mss k2]. simpl in *. subst k2.
  split; [lia|]. destruct kd; simpl.
  - split.
    + intros Hpos. destruct (L2 Hpos) as (j & Hj & Heq). exists j. split; [lia|done].
    + intros Hd. apply L3. intros a b Ha Hb. apply Hd; lia.
  - split.
    + intros Hpos. destruct (M2 Hpos) as (j & Hj & Heq). exists j. split; [lia|done].
    + intros Hd. apply M3. intros a b Ha Hb. apply Hd; lia.
Qed.

Lemma init_phases_fresh kd i k ps :
  forallb (fun p => only_strings (Phase.learning_objectives p)
                    && only_strings (Phase.milestones p)) ps = true ->
  (k <= (init_phases stamp k ps).2)%nat
  /\ ((0 < sum_list ((fun p => id_count i (default [] (items_of kd p)))
                       <$> (init_phases stamp k ps).1))%nat ->
      drawn stamp (prefix_of kd) i k (init_phases stamp k ps).2)
  /\ (distinct_stamps stamp k (init_phases stamp k ps).2 ->
      (sum_list ((fun p => id_count i (default [] (items_of kd p)))
                   <$> (init_phases stamp k ps).1) <= 1)%nat).
Proof.
  revert k. induction ps as [|phase ps IH]; intros k Hplain; simpl in *.
  { repeat split; lia. }
  apply andb_true_iff in Hplain as [Hp Hps].
  pose proof (init_checkboxes_fresh kd i k phase Hp) as (P1 & P2 & P3).
  destruct (init_checkboxes stamp k phase) as [phase' k1]. simpl in *.
  destruct (IH k1 Hps) as (H1 & H2 & H3).
  destruct (init_phases stamp k1 ps) as [ps' k2]. csimpl in *.
  split; [lia|]. split.
  - intros Hpos.
    destruct (id_count i (default [] (items_of kd phase'))) eqn:E.
    + destruct H2 as (j & Hj & Heq); [lia|]. exists j. split; [lia|done].
    + destruct P2 as (j & Hj & Heq); [lia|]. exists j. split; [lia|done].
  - intros Hd.
    assert (Hd1 : distinct_stamps stamp k k1) by (intros a b Ha Hb; apply Hd; lia).
    assert (Hd2 : distinct_stamps stamp k1 k2) by (intros a b Ha Hb; apply Hd; lia).
    specialize (P3 Hd1). specialize (H3 Hd2).
    destruct (id_count i (default [] (items_of kd phase'))) eqn:E; [lia|].
    destruct (sum_list _) eqn:E'; [lia|]. exfalso.
    apply (drawn_apart (prefix_of kd) i k k1 k2 Hd P1); [apply P2|apply H2]; lia.
Qed.

Lemma match_count_le kd r phaseId itemId :
  (match_count kd r phaseId itemId
   <= sum_list ((fun p => id_count itemId (default [] (items_of kd p)))
                  <$> default [] (Roadmap.phases r)))%nat.
Proof.
  unfold match_count. induction (default [] (Roadmap.phases r)) as [|p ps IH];
    csimpl; [lia|].
  unfold phase_match_count at 1. fold (id_count itemId (default [] (items_of kd p))).
  destruct (bool_decide _); lia.
Qed.

(** X12: the identifiers given on load make every toggle local.  When
    the checklists of the document (after phases were created from the
    resources, if need be) hold bare strings only and the stamps drawn in
    this load are pairwise distinct, no pair [(phaseId, itemId)]
    designates more than one item of the loaded roadmap: a toggle flips
    one item or none. *)
Theorem fresh_ids_toggle_local (k : nat) (x y : Roadmap.t) (k' : nat)
    (kd : kind) (phaseId itemId : string) :
  normalize stamp k x = Ok (y, k') ->
  plain (create_phases x) = true ->
  NoDup (stamp <$> seq k (k' - k)) ->
  (match_count kd y phaseId itemId <= 1)%nat.
Proof.
  unfold normalize, plain.
  destruct (Roadmap.phases (create_phases x)) as [ps|]; [|done]. simpl.
  intros Hn Hplain Hnd.
  pose proof (init_phases_fresh kd itemId k ps Hplain) as (H1 & _ & H3).
  destruct (init_phases stamp k ps) as [ps' k''] eqn:E. simpl in *.
  injection Hn as Hy Hk. subst y k''.
  etrans; [apply match_count_le|]. simpl. apply H3.
  intros a b Ha Hb Heq.
  assert (La : (stamp <$> seq k (k' - k)) !! (a - k)%nat = Some (stamp a)).
  { rewrite list_lookup_fmap, lookup_seq_lt by lia. simpl. f_equal. f_equal. lia. }
  assert (Lb : (stamp <$> seq k (k' - k)) !! (b - k)%nat = Some (stamp a)).
  { rewrite list_lookup_fmap, lookup_seq_lt by lia. simpl. rewrite Heq.
    f_equal. f_equal. lia. }
  pose proof (NoDup_lookup _ _ _ _ Hnd La Lb). lia.
Qed.
End FreshIds.

Lemma fresh_ids_toggle_local_witness :
  (match_count Objective Draft.opened "phase-1" "obj-1700000000000-0.1" <= 1)%nat.
Proof.
  apply (fresh_ids_toggle_local Sample.stamp 0 Draft.doc Draft.opened 3).
  - vm_compute. reflexivity.
  - reflexivity.
  - refine (bool_decide_unpack _ _). vm_compute. exact I.
Defined.

(** ** The completed set of the flat view *)

Lemma newCompleted_elem (completed : JSSet.t) (toolName x : string) :
  x ∈ FlatDetail.newCompleted completed toolName
  <-> (x <> toolName /\ x ∈ completed) \/ (x = toolName /\ toolName ∉ completed).
Proof.
  unfold FlatDetail.newCompleted, JSSet.has, JSSet.delete, JSSet.add.
  case_bool_decide as Hin.
  - rewrite list_elem_of_filter. split.
    + intros [? ?]. by left.
    + intros [[? ?]|[_ ?]]; done.
  - unfold JSSet.has. rewrite bool_decide_false by done.
    rewrite elem_of_app, list_elem_of_singleton. split.
    + intros [Hx| ->]; [left|by right]. split; [|done]. by intros ->.
    + intros [[_ ?]|[? _]]; [by left|by right].
Qed.

(** X13: a click on a tool changes the membership of that tool in the
    completed set and of no other name. *)
Theorem newCompleted_membership (completed : JSSet.t) (toolName x : string) :
  (x ∈ FlatDetail.newCompleted completed toolName
   <-> (x <> toolName /\ x ∈ completed) \/ (x = toolName /\ toolName ∉ completed))
  /\ (toolName ∈ FlatDetail.newCompleted completed toolName <-> toolName ∉ completed).
Proof.
  split; [apply newCompleted_elem|].
  rewrite newCompleted_elem. split.
  - by intros [[? _]|[_ ?]].
  - intros ?. by right.
Qed.

Lemma newCompleted_twice (completed : JSSet.t) (toolName : string) :
  NoDup completed ->
  FlatDetail.newCompleted (FlatDetail.newCompleted completed toolName) toolName
  ≡ₚ completed.
Proof.
  intros Hnd. apply NoDup_Permutation; [by do 2 apply newCompleted_NoDup|done|].
  intros x. rewrite !newCompleted_elem.
  destruct (decide (toolName ∈ completed)), (decide (x = toolName)) as [->|];
    intuition congruence.
Qed.

Lemma newCompleted_length (completed : JSSet.t) (toolName : string) :
  NoDup completed ->
  ((toolName ∉ completed)
   /\ length (FlatDetail.newCompleted completed toolName) = S (length completed))
  \/ ((toolName ∈ completed)
      /\ S (length (FlatDetail.newCompleted completed toolName)) = length completed).
Proof.
  intros Hnd. destruct (decide (toolName ∈ completed)) as [Hin|Hin]; [right|left].
  - split; [done|].
    assert (Hperm : completed ≡ₚ toolName :: FlatDetail.newCompleted completed toolName).
    { apply NoDup_Permutation; [done| |].
      - apply NoDup_cons. split; [|by apply newCompleted_NoDup].
        rewrite newCompleted_elem. intuition congruence.
      - intros x. rewrite elem_of_cons, newCompleted_elem.
        destruct (decide (x = toolName)) as [->|]; intuition congruence. }
    apply Permutation_length in Hperm. simpl in Hperm. lia.
  - split; [done|].
    unfold FlatDetail.newCompleted, JSSet.add, JSSet.has.
    rewrite !bool_decide_false by done. rewrite length_app. simpl. lia.
Qed.

(** X14: clicking the same tool twice, both saves succeeding, brings the
    flat view back: the completed set has the elements it started with,
    the first click changed its size by exactly one, and the progress in
    the state is again the one of the original count. *)
Theorem flat_toggle_twice (rnd : Q -> Q) (st : FlatDetail.State)
    (toolName : string) (sel : list Tool.t) :
  Roadmap.selectedTools (FlatDetail.roadmap st) = Some sel ->
  NoDup (FlatDetail.completedItems st) ->
  exists st1 st2,
    FlatDetail.handleToggleComplete rnd st toolName true = Ok st1
    /\ FlatDetail.handleToggleComplete rnd st1 toolName true = Ok st2
    /\ (length (FlatDetail.completedItems st1) = S (length (FlatDetail.completedItems st))
        \/ S (length (FlatDetail.completedItems st1))
           = length (FlatDetail.completedItems st))
    /\ FlatDetail.completedItems st2 ≡ₚ FlatDetail.completedItems st
    /\ Roadmap.selectedTools (FlatDetail.roadmap st2) = Some sel
    /\ Roadmap.progress (FlatDetail.roadmap st2)
       = Some (JS.round
                 (JS.mul rnd
                    (JS.div rnd (JS.of_nat (length (FlatDetail.completedItems st)))
                       (JS.of_nat (length sel)))
                    (JS.of_nat 100))).
Proof.
  intros Hsel Hnd.
  unfold FlatDetail.handleToggleComplete, FlatDetail.payload. rewrite Hsel. simpl.
  eexists _, _. split; [reflexivity|]. simpl. rewrite Hsel. simpl.
  split; [reflexivity|]. simpl.
  pose proof (newCompleted_twice _ toolName Hnd) as Hperm.
  split; [destruct (newCompleted_length _ toolName Hnd) as [[_ ?]|[_ ?]]; [by left|by right]|].
  split; [done|]. split; [done|].
  apply Permutation_length in Hperm. unfold JSSet.to_array. by rewrite Hperm.
Qed.

Lemma flat_toggle_twice_witness :
  exists st1 st2,
    FlatDetail.handleToggleComplete JS.binary64 (Sample.flat Sample.abc ["A"]) "B" true
    = Ok st1
    /\ FlatDetail.handleToggleComplete JS.binary64 st1 "B" true = Ok st2
    /\ (length (FlatDetail.completedItems st1)
        = S (length (FlatDetail.completedItems (Sample.flat Sample.abc ["A"])))
        \/ S (length (FlatDetail.completedItems st1))
           = length (FlatDetail.completedItems (Sample.flat Sample.abc ["A"])))
    /\ FlatDetail.completedItems st2
       ≡ₚ FlatDetail.completedItems (Sample.flat Sample.abc ["A"])
    /\ Roadmap.selectedTools (FlatDetail.roadmap st2) = Some Sample.abc
    /\ Roadmap.progress (FlatDetail.roadmap st2)
       = Some (JS.round
                 (JS.mul JS.binary64
                    (JS.div JS.binary64
                       (JS.of_nat (length (FlatDetail.completedItems
                                             (Sample.flat Sample.abc ["A"]))))
                       (JS.of_nat (length Sample.abc)))
                    (JS.of_nat 100))).
Proof.
  apply (flat_toggle_twice JS.binary64 (Sample.flat Sample.abc ["A"]) "B" Sample.abc).
  - reflexivity.
  - refine (bool_decide_unpack _ _). vm_compute. exact I.
Defined.

(** ** The collection under the writers of the service *)

Lemma updateRoadmapStatus_documents db now roadmapId status :
  Firestore.documents (updateRoadmapStatus db now roadmapId status)
  = map (patch_at roadmapId (status_patch now status)) (Firestore.documents db).
Proof. reflexivity. Qed.

Lemma updateRoadmapProgress_documents db now roadmapId progressData :
  Firestore.documents (updateRoadmapProgress db now roadmapId progressData)
  = map (patch_at roadmapId (apply_patch now progressData)) (Firestore.documents db).
Proof. reflexivity. Qed.

Lemma apply_patch_keeps now progressData d :
  Roadmap.doc_id (apply_patch now progressData d) = Roadmap.doc_id d
  /\ Roadmap.userId (apply_patch now progressData d) = Roadmap.userId d
  /\ Roadmap.createdAt (apply_patch now progressData d) = Roadmap.createdAt d.
Proof. by destruct progressData. Qed.

Lemma patch_at_keeps roadmapId f d :
  (forall d, Roadmap.doc_id (f d) = Roadmap.doc_id d
             /\ Roadmap.userId (f d) = Roadmap.userId d
             /\ Roadmap.createdAt (f d) = Roadmap.createdAt d) ->
  Roadmap.doc_id (patch_at roadmapId f d) = Roadmap.doc_id d
  /\ Roadmap.userId (patch_at roadmapId f d) = Roadmap.userId d
  /\ Roadmap.createdAt (patch_at roadmapId f d) = Roadmap.createdAt d.
Proof. intros Hf. unfold patch_at. destruct (bool_decide _); [apply Hf|done]. Qed.

(** X15: every collection the service writes, starting from an empty
    one, keeps two invariants: every document carries the [createdAt]
    that [saveRoadmap] set (what the ordered query of [getUserRoadmaps]
    needs), and no two documents share an id. *)
Theorem written_invariant (db : Firestore.t) :
  written db ->
  stamped db = true /\ NoDup (Roadmap.doc_id <$> Firestore.documents db).
Proof.
  induction 1 as [index available
                 | db newId now userId roadmapData _ [IHs IHn] Hfresh
                 | db now roadmapId progressData _ [IHs IHn]
                 | db now roadmapId status _ [IHs IHn]
                 | db roadmapId _ [IHs IHn]].
  - split; [done|apply NoDup_nil_2].
  - split; [by apply saveRoadmap_stamped|].
    unfold saveRoadmap. destruct (negb _); [done|].
    destruct (mapM _ _); [|done].
    simpl. rewrite fmap_app. apply NoDup_app. repeat split; [done| |].
    + intros i Hi ->%list_elem_of_singleton. done.
    + apply NoDup_singleton.
  - split; [by apply updateRoadmapProgress_stamped|].
    rewrite updateRoadmapProgress_documents.
    replace (Roadmap.doc_id <$> map _ (Firestore.documents db))
      with (Roadmap.doc_id <$> Firestore.documents db); [done|].
    clear. induction (Firestore.documents db) as [|d ds IH]; [done|]. csimpl.
    rewrite <- IH. f_equal. symmetry.
    apply (patch_at_keeps roadmapId _ d (apply_patch_keeps now progressData)).
  - split; [by apply updateRoadmapStatus_stamped|].
    rewrite updateRoadmapStatus_documents.
    replace (Roadmap.doc_id <$> map _ (Firestore.documents db))
      with (Roadmap.doc_id <$> Firestore.documents db); [done|].
    clear. induction (Firestore.documents db) as [|d ds IH]; [done|]. csimpl.
    rewrite <- IH. f_equal. symmetry.
    by apply (patch_at_keeps roadmapId (status_patch now status) d).
  - split; [by apply deleteRoadmap_stamped|].
    simpl. apply (sublist_NoDup _ _ IHn).
    apply fmap_sublist, sublist_filter.
Qed.

Lemma written_invariant_witness :
  stamped (saveRoadmap Draft.empty_store "r9" Draft.now "u1"
             (Saver.roadmapToSave Draft.tools Draft.generated)).2 = true
  /\ NoDup (Roadmap.doc_id
              <$> Firestore.documents
                    (saveRoadmap Draft.empty_store "r9" Draft.now "u1"
                       (Saver.roadmapToSave Draft.tools Draft.generated)).2).
Proof.
  apply (written_invariant
           (saveRoadmap Draft.empty_store "r9" Draft.now "u1"
              (Saver.roadmapToSave Draft.tools Draft.generated)).2).
  apply written_save; [apply written_empty|]. simpl. apply not_elem_of_nil.
Defined.

Lemma find_id_None (ds : list Roadmap.t) (roadmapId : string) :
  roadmapId ∉ Roadmap.doc_id <$> ds ->
  List.find (fun d => bool_decide (Roadmap.doc_id d = roadmapId)) ds = None.
Proof.
  induction ds as [|d ds IH]; [done|]. csimpl.
  intros [Hd Hds]%not_elem_of_cons.
  rewrite bool_decide_false by done. by apply IH.
Qed.

Lemma find_app_r {A} (P : A -> bool) (l l' : list A) :
  List.find P l = None -> List.find P (l ++ l') = List.find P l'.
Proof.
  induction l as [|x l IH]; [done|]. simpl. destruct (P x); [done|apply IH].
Qed.


Lemma mapM_stored (l : list RoadmapData.resource) :
  mapM RoadmapData.stored l
  = if existsb (fun r => match RoadmapData.phase_number r, RoadmapData.duration_weeks r with
                         | Undefined, _ | _, Undefined => true
                         | _, _ => false
                         end) l
    then None else Some (map RoadmapData.kept l).
Proof.
  induction l as [|r l IH]; [done|].
  change (mapM RoadmapData.stored (r :: l))
    with (y ← RoadmapData.stored r; k ← mapM RoadmapData.stored l; mret (y :: k)).
  rewrite IH. unfold RoadmapData.stored. simpl.
  destruct (existsb _ l) eqn:E;
    unfold RoadmapData.kept;
    destruct (RoadmapData.phase_number r), (RoadmapData.duration_weeks r);
    simpl; rewrite ?E, ?orb_true_r; done.
Qed.

(** What [saveRoadmap] does, case by case. *)
Lemma saveRoadmap_cases (db : Firestore.t) (newId : string) (now : Timestamp)
    (userId : string) (roadmapData : RoadmapData.t) :
  saveRoadmap db newId now userId roadmapData
  = if negb (Firestore.available db)
    then ({| save_success := false; save_roadmapId := None;
             save_error := Some "unavailable" |}, db)
    else if RoadmapData.holds_undefined roadmapData
    then ({| save_success := false; save_roadmapId := None;
             save_error := Some "Unsupported field value: undefined" |}, db)
    else
      ({| save_success := true; save_roadmapId := Some newId; save_error := None |},
       {| Firestore.documents :=
            Firestore.documents db ++
            [ {| Roadmap.doc_id := newId;
                 Roadmap.data_id := RoadmapData.id roadmapData;
                 Roadmap.userId := default userId (RoadmapData.userId roadmapData);
                 Roadmap.createdAt := Some now; Roadmap.updatedAt := Some now;
                 Roadmap.status := "active";
                 Roadmap.progress := RoadmapData.progress roadmapData;
                 Roadmap.phases := RoadmapData.phases roadmapData;
                 Roadmap.learningResources :=
                   map RoadmapData.kept <$> RoadmapData.learningResources roadmapData;
                 Roadmap.selectedTools := RoadmapData.selectedTools roadmapData;
                 Roadmap.completedTools := RoadmapData.completedTools roadmapData;
                 Roadmap.currentTool := RoadmapData.currentTool roadmapData |} ];
          Firestore.index_built := Firestore.index_built db;
          Firestore.available := Firestore.available db |}).
Proof.
  unfold saveRoadmap, RoadmapData.holds_undefined. destruct (negb _); [done|].
  rewrite mapM_stored. destruct (existsb _ _); [done|].
  by destruct (RoadmapData.learningResources roadmapData).
Qed.



(** The roadmap object saved again as it was read: the new document is
    listed under the user of the old one and shows the id of the old
    one. *)
Example save_a_copy :
  exists d,
    getRoadmapById (saveRoadmap Sample.store "e" Draft.now "u1" Draft.copy).2 "e"
    = {| get_success := true; get_roadmap := Some d; get_error := None |}
    /\ Roadmap.doc_id d = "e" /\ Roadmap.id d = "a" /\ Roadmap.userId d = "u2".
Proof. eexists. split; [by vm_compute|]. done. Qed.

(** X17: what was deleted is gone, and nothing else.  With the backend
    reachable, after [deleteRoadmap] the id reads as not found, and every
    other id reads as before; deleting an id that does not exist changes
    nothing. *)
Theorem delete_then_get (db : Firestore.t) (roadmapId : string) :
  Firestore.available db = true ->
  getRoadmapById (deleteRoadmap db roadmapId) roadmapId
  = {| get_success := false; get_roadmap := None;
       get_error := Some "Roadmap not found" |}
  /\ (forall other, other <> roadmapId ->
        getRoadmapById (deleteRoadmap db roadmapId) other = getRoadmapById db other)
  /\ (roadmapId ∉ Roadmap.doc_id <$> Firestore.documents db ->
      deleteRoadmap db roadmapId = db).
Proof.
  intros Hup. unfold getRoadmapById. simpl. rewrite Hup. simpl.
  split; [|split].
  - rewrite find_id_None; [done|].
    intros (d & Hid & [Hne _]%list_elem_of_filter)%list_elem_of_fmap. by subst.
  - intros other Hne.
    assert (Hfind : List.find (fun d => bool_decide (Roadmap.doc_id d = other))
                      (filter (fun d => Roadmap.doc_id d <> roadmapId) (Firestore.documents db))
                    = List.find (fun d => bool_decide (Roadmap.doc_id d = other))
                        (Firestore.documents db)); [|by rewrite Hfind].
    induction (Firestore.documents db) as [|d ds IH]; [done|].
    rewrite filter_cons. destruct (decide (Roadmap.doc_id d <> roadmapId)) as [Hd|Hd]; simpl.
    + by rewrite IH.
    + apply dec_stable in Hd. rewrite bool_decide_false by congruence. apply IH.
  - intros Hnot. unfold deleteRoadmap. destruct db as [ds ix av]. simpl in *. f_equal.
    induction ds as [|d ds IH]; [done|]. csimpl in Hnot.
    apply not_elem_of_cons in Hnot as [Hd Hds].
    rewrite filter_cons, decide_True by done. by rewrite IH.
Qed.

Lemma delete_then_get_witness :
  getRoadmapById (deleteRoadmap Sample.store "c") "c"
  = {| get_success := false; get_roadmap := None;
       get_error := Some "Roadmap not found" |}
  /\ (forall other, other <> "c" ->
        getRoadmapById (deleteRoadmap Sample.store "c") other
        = getRoadmapById Sample.store other)
  /\ ("c" ∉ Roadmap.doc_id <$> Firestore.documents Sample.store ->
      deleteRoadmap Sample.store "c" = Sample.store).
Proof. apply (delete_then_get Sample.store "c"). reflexivity. Defined.

Section UpdateAndList.
Variable f : Roadmap.t -> Roadmap.t.
Hypothesis f_userId : forall d, Roadmap.userId (f d) = Roadmap.userId d.
Hypothesis f_createdAt : forall d, Roadmap.createdAt (f d) = Roadmap.createdAt d.




End UpdateAndList.


(** ** Selecting tools *)

Lemma find_existsb {A} (P : A -> bool) (l : list A) :
  List.find P l = None <-> existsb P l = false.
Proof.
  induction l as [|x l IH]; [done|]. simpl. destruct (P x); [done|]. by simpl.
Qed.

Lemma existsb_filter_out (i : string) (l : list Wizard.tool) :
  existsb (fun x => bool_decide (Wizard.toolId x = i))
    (filter (fun x => Wizard.toolId x <> i) l) = false.
Proof.
  induction l as [|x l IH]; [done|]. rewrite filter_cons.
  destruct (decide (Wizard.toolId x <> i)); [|done]. simpl.
  by rewrite bool_decide_false.
Qed.

Lemma existsb_filter_other (i j : string) (l : list Wizard.tool) :
  j <> i ->
  existsb (fun x => bool_decide (Wizard.toolId x = j))
    (filter (fun x => Wizard.toolId x <> i) l)
  = existsb (fun x => bool_decide (Wizard.toolId x = j)) l.
Proof.
  intros Hne. induction l as [|x l IH]; [done|]. rewrite filter_cons.
  destruct (decide (Wizard.toolId x <> i)) as [Hx|Hx]; simpl; [by rewrite IH|].
  apply dec_stable in Hx. rewrite bool_decide_false by congruence. by rewrite IH.
Qed.

Lemma toolId_copy (t : Wizard.tool) (d : string) :
  Wizard.domain t = Some d -> d <> "" ->
  Wizard.toolId {| Wizard.name := Wizard.name t;
                   Wizard.domain := Some (Wizard.domain t ||| "unknown");
                   Wizard.description := Wizard.description t;
                   Wizard.learning_time_weeks := Wizard.learning_time_weeks t |}
  = Wizard.toolId t.
Proof.
  intros Hd Hne. unfold Wizard.toolId. simpl. rewrite Hd.
  unfold JS.or_else, JS.truthy, JS.truthy_string.
  apply String.eqb_neq in Hne. rewrite Hne. simpl. by rewrite Hne.
Qed.

(** X19: for a card that carries its domain, [toggleTool] and
    [isToolSelected] work as a switch.  A click on a selected card
    deselects it; a click on an unselected card selects it while fewer
    than 8 tools are selected, and does nothing at 8; and no click changes
    whether a card with another id is selected. *)
Theorem toggleTool_switch (t : Wizard.tool) (d : string) (prev : list Wizard.tool) :
  Wizard.domain t = Some d -> d <> "" ->
  isToolSelected (Wizard.toggleTool t prev) t
  = (if isToolSelected prev t then false else (length prev <? 8)%nat)
  /\ (isToolSelected prev t = false -> (8 <= length prev)%nat ->
      Wizard.toggleTool t prev = prev)
  /\ (forall u, Wizard.toolId u <> Wizard.toolId t ->
        isToolSelected (Wizard.toggleTool t prev) u = isToolSelected prev u).
Proof.
  intros Hd Hne. pose proof (toolId_copy t d Hd Hne) as Hcopy.
  unfold isToolSelected, Wizard.toggleTool.
  destruct (List.find _ prev) as [x|] eqn:Efind.
  - assert (Hsel : existsb (fun x => bool_decide (Wizard.toolId x = Wizard.toolId t)) prev
                   = true).
    { destruct (existsb _ prev) eqn:E; [done|].
      apply find_existsb in E. congruence. }
    rewrite Hsel. split; [apply existsb_filter_out|].
    split; [done|]. intros u Hu. by apply existsb_filter_other.
  - apply find_existsb in Efind. rewrite Efind.
    destruct (8 <=? length prev)%nat eqn:E8.
    + apply Nat.leb_le in E8. split; [|by split].
      rewrite Efind. symmetry. apply Nat.ltb_ge. lia.
    + apply Nat.leb_gt in E8. split; [|split].
      * rewrite existsb_app. simpl. rewrite Hcopy, bool_decide_true by done.
        rewrite orb_true_r. symmetry. by apply Nat.ltb_lt.
      * lia.
      * intros u Hu. rewrite existsb_app. simpl. rewrite Hcopy.
        rewrite bool_decide_false by congruence. by rewrite !orb_false_r.
Qed.

Lemma toggleTool_switch_witness :
  isToolSelected
    (Wizard.toggleTool (Sample.card "Docker" "DevOps") [Sample.card "React" "Frontend"])
    (Sample.card "Docker" "DevOps")
  = (if isToolSelected [Sample.card "React" "Frontend"] (Sample.card "Docker" "DevOps")
     then false else (length [Sample.card "React" "Frontend"] <? 8)%nat)
  /\ (isToolSelected [Sample.card "React" "Frontend"] (Sample.card "Docker" "DevOps")
      = false ->
      (8 <= length [Sample.card "React" "Frontend"])%nat ->
      Wizard.toggleTool (Sample.card "Docker" "DevOps") [Sample.card "React" "Frontend"]
      = [Sample.card "React" "Frontend"])
  /\ (forall u, Wizard.toolId u <> Wizard.toolId (Sample.card "Docker" "DevOps") ->
        isToolSelected
          (Wizard.toggleTool (Sample.card "Docker" "DevOps")
             [Sample.card "React" "Frontend"]) u
        = isToolSelected [Sample.card "React" "Frontend"] u).
Proof.
  apply (toggleTool_switch (Sample.card "Docker" "DevOps") "DevOps"
           [Sample.card "React" "Frontend"]).
  - reflexivity.
  - discriminate.
Defined.

Lemma toggleTool_without_domain_step (t : Wizard.tool) (prev : list Wizard.tool) :
  Wizard.domain t ||| "" = "" ->
  isToolSelected prev t = false -> (length prev < 8)%nat ->
  length (Wizard.toggleTool t prev) = S (length prev)
  /\ isToolSelected (Wizard.toggleTool t prev) t = false.
Proof.
  intros Hd Hsel Hlen. unfold isToolSelected in *. unfold Wizard.toggleTool.
  rewrite (proj2 (find_existsb _ prev) Hsel).
  apply Nat.leb_gt in Hlen. rewrite Hlen.
  rewrite length_app, existsb_app, Hsel. simpl. split; [lia|].
  rewrite orb_false_r. apply bool_decide_eq_false.
  unfold Wizard.toolId. simpl. intros Heq.
  apply (inj (String.app (Wizard.name t))), (inj (String.app "-")) in Heq.
  revert Hd Heq. unfold JS.or_else, JS.truthy, JS.truthy_string.
  destruct (Wizard.domain t) as [d|]; simpl; [|done].
  destruct (String.eqb d "") eqn:E; simpl; [done|].
  intros ->. done.
Qed.

(** X20: a card without a domain never shows as selected.  Its id ends
    in an empty domain while the copy that [toggleTool] stores gets the
    domain [unknown], so the stored copy is never found again: as long as
    fewer than 8 tools are selected, each of [n] clicks on the card adds
    one more copy instead of removing the last. *)
Theorem toggleTool_without_domain (t : Wizard.tool) (prev : list Wizard.tool) (n : nat) :
  Wizard.domain t ||| "" = "" ->
  isToolSelected prev t = false ->
  (length prev + n <= 8)%nat ->
  length (Nat.iter n (Wizard.toggleTool t) prev) = (length prev + n)%nat
  /\ isToolSelected (Nat.iter n (Wizard.toggleTool t) prev) t = false.
Proof.
  intros Hd Hsel. induction n as [|n IH]; intros Hlen; simpl.
  - split; [lia|done].
  - destruct IH as [IHl IHs]; [lia|].
    destruct (toggleTool_without_domain_step t _ Hd IHs) as [Hl Hs]; [lia|].
    split; [lia|done].
Qed.

Lemma toggleTool_without_domain_witness :
  length (Nat.iter 3 (Wizard.toggleTool Draft.vim) [Sample.card "React" "Frontend"])
  = (length [Sample.card "React" "Frontend"] + 3)%nat
  /\ isToolSelected
       (Nat.iter 3 (Wizard.toggleTool Draft.vim) [Sample.card "React" "Frontend"])
       Draft.vim = false.
Proof.
  apply (toggleTool_without_domain Draft.vim [Sample.card "React" "Frontend"] 3).
  - reflexivity.
  - reflexivity.
  - simpl. lia.
Defined.

(** ** Guards of the wizard *)

Lemma shows_InterestSelector_render s :
  Wizard.shows_InterestSelector (Wizard.render s) = Wizard.shows_InterestSelector s.
Proof. reflexivity. Qed.

Lemma selector_render s :
  is_Some (Wizard.selector (Wizard.render s))
  <-> Wizard.shows_InterestSelector (Wizard.render s) = true.
Proof.
  rewrite shows_InterestSelector_render. unfold Wizard.render. simpl.
  destruct (Wizard.shows_InterestSelector s); split; try done; by intros [? ?].
Qed.

Lemma shows_InterestSelector_true s :
  Wizard.shows_InterestSelector s = true ->
  Wizard.generatingRoadmap s = false /\ Wizard.step s = 2%nat
  /\ is_Some (Wizard.profile_ s).
Proof.
  unfold Wizard.shows_InterestSelector.
  intros [[Hg Hs]%andb_true_iff Hp]%andb_true_iff.
  apply negb_true_iff in Hg. apply Nat.eqb_eq in Hs. apply bool_decide_eq_true in Hp.
  done.
Qed.

Lemma shows_TimeCommitment_true s :
  Wizard.shows_TimeCommitment s = true ->
  Wizard.generatingRoadmap s = false /\ Wizard.step s = 3%nat.
Proof.
  unfold Wizard.shows_TimeCommitment.
  intros [[Hg Hs]%andb_true_iff _]%andb_true_iff.
  apply negb_true_iff in Hg. by apply Nat.eqb_eq in Hs.
Qed.

Lemma guards_handle s e :
  (1 <= Wizard.step s <= 4)%nat ->
  (Wizard.step s = 3%nat -> is_Some (Wizard.profile_ s)) ->
  Wizard.enabled s e = true ->
  (1 <= Wizard.step (Wizard.handle e s) <= 4)%nat
  /\ (Wizard.step (Wizard.handle e s) = 3%nat
      -> is_Some (Wizard.profile_ (Wizard.handle e s))).
Proof.
  intros Hrange Hprofile Hen. destruct e; simpl in *.
  - split; [lia|done].
  - done.
  - apply shows_InterestSelector_true in Hen as (_ & Hstep & Hp).
    unfold Wizard.handleGenerate. destruct (Wizard.selector s) as [tools|]; [|done].
    destruct (2 <=? length tools)%nat; [|done]. simpl. split; [lia|done].
  - done.
  - unfold Wizard.generation_settled. destruct outcome as [response|err]; [|done].
    destruct (Wizard.gen_success response); [|done]. simpl. split; [lia|done].
  - unfold Wizard.shows_Back in Hen. apply orb_true_iff in Hen.
    unfold Wizard.handleBack.
    destruct Hen as [Hen|Hen].
    + apply shows_InterestSelector_true in Hen as (_ & Hstep & Hp).
      rewrite Hstep. simpl. split; [lia|done].
    + apply shows_TimeCommitment_true in Hen as (_ & Hstep).
      rewrite Hstep. simpl. split; [lia|done].
  - split; [lia|done].
  - done.
Qed.

(** X21: in every state the wizard reaches, the step is between 1 and
    4, the preferences step is only reached with a profile, and the tool
    selector holds a selection exactly while it is rendered (its state is
    lost whenever it is unmounted). *)
Theorem wizard_guards (events : list Wizard.event) :
  (1 <= Wizard.step (Wizard.run events) <= 4)%nat
  /\ (Wizard.step (Wizard.run events) = 3%nat
      -> is_Some (Wizard.profile_ (Wizard.run events)))
  /\ (is_Some (Wizard.selector (Wizard.run events))
      <-> Wizard.shows_InterestSelector (Wizard.run events) = true).
Proof.
  unfold Wizard.run.
  assert (Hinit : (1 <= Wizard.step (Wizard.render Wizard.initial) <= 4)%nat
                  /\ (Wizard.step (Wizard.render Wizard.initial) = 3%nat
                      -> is_Some (Wizard.profile_ (Wizard.render Wizard.initial)))
                  /\ (is_Some (Wizard.selector (Wizard.render Wizard.initial))
                      <-> Wizard.shows_InterestSelector (Wizard.render Wizard.initial)
                          = true)).
  { split; [simpl; lia|]. split; [done|apply selector_render]. }
  revert Hinit. generalize (Wizard.render Wizard.initial).
  induction events as [|e events IH]; intros s Hs; [done|]. simpl.
  apply IH. unfold Wizard.dispatch.
  destruct (Wizard.enabled s e) eqn:Hen; [|done].
  destruct Hs as (Hrange & Hprofile & _).
  destruct (guards_handle s e Hrange Hprofile Hen) as [Hr Hp].
  split; [done|]. split; [done|apply selector_render].
Qed.

(** X22: starting over does not cancel a generation in flight.  If the
    user clicks Start Over while the request is pending and the request
    then succeeds, the wizard jumps to step 4 with the generated roadmap,
    although the profile, the resume, the selection and the preferences
    were cleared: the roadmap is displayed if the response carries one. *)
Theorem start_over_during_generation (s : Wizard.State)
    (response : Wizard.generateResponse) :
  Wizard.generatingRoadmap s = true ->
  (1 < Wizard.step s)%nat ->
  Wizard.gen_success response = true ->
  let s' := Wizard.dispatch (Wizard.dispatch s Wizard.StartOverClicked)
              (Wizard.GenerationSettled (Ok response)) in
  Wizard.step s' = 4%nat
  /\ Wizard.roadmap s' = Wizard.gen_roadmap response
  /\ Wizard.generatingRoadmap s' = false
  /\ Wizard.profile_ s' = None /\ Wizard.resumeData s' = None
  /\ Wizard.selectedTools s' = [] /\ Wizard.prefs s' = None
  /\ Wizard.shows_RoadmapDisplay s'
     = bool_decide (is_Some (Wizard.gen_roadmap response)).
Proof.
  intros Hgen Hstep Hok. unfold Wizard.dispatch at 2. simpl.
  unfold Wizard.shows_StartOver. rewrite (proj2 (Nat.ltb_lt _ _) Hstep). simpl.
  unfold Wizard.dispatch. simpl. rewrite Hgen. simpl. rewrite Hok. simpl.
  by repeat split.
Qed.

Lemma start_over_during_generation_witness :
  let s' := Wizard.dispatch (Wizard.dispatch Draft.pending Wizard.StartOverClicked)
              (Wizard.GenerationSettled (Ok Draft.answer)) in
  Wizard.step s' = 4%nat
  /\ Wizard.roadmap s' = Wizard.gen_roadmap Draft.answer
  /\ Wizard.generatingRoadmap s' = false
  /\ Wizard.profile_ s' = None /\ Wizard.resumeData s' = None
  /\ Wizard.selectedTools s' = [] /\ Wizard.prefs s' = None
  /\ Wizard.shows_RoadmapDisplay s'
     = bool_decide (is_Some (Wizard.gen_roadmap Draft.answer)).
Proof.
  apply (start_over_during_generation Draft.pending Draft.answer).
  - vm_compute. reflexivity.
  - vm_compute. lia.
  - reflexivity.
Defined.

(** ** Intensity of a learning plan (TimeCommitment.jsx) *)

Lemma requiredHours_le (T W h B : Z) :
  (1 <= T <= W)%Z -> (h <= B)%Z -> (0 <= B)%Z ->
  (JS.binary64 (inject_Z B) == inject_Z B)%Q ->
  number_gt
    (JS.mul JS.binary64
       (JS.div JS.binary64 (JS.Num (inject_Z T)) (JS.Num (inject_Z W)))
       (JS.Num (inject_Z h)))
    (JS.Num (inject_Z B)) = false.
Proof.
  intros HT Hh HB Hexact. unfold JS.div, JS.mul.
  assert (HW : (0 < inject_Z W)%Q) by (rewrite <- (Zlt_Qlt 0); lia).
  destruct (Qeq_bool (inject_Z W) 0) eqn:E.
  { apply Qeq_bool_iff in E. rewrite E in HW. by apply Qlt_irrefl in HW. }
  simpl. apply negb_false_iff, Qle_bool_iff.
  destruct Binary64.binary64_exact as (H0 & H1 & _).
  set (q := JS.binary64 (inject_Z T / inject_Z W)).
  assert (Hq0 : (0 <= q)%Q).
  { rewrite <- H0. apply Binary64.binary64_monotone.
    apply Qle_shift_div_l; [done|]. rewrite Qmult_0_l, <- (Zle_Qle 0). lia. }
  assert (Hq1 : (q <= 1)%Q).
  { rewrite <- H1. apply Binary64.binary64_monotone.
    apply Qle_shift_div_r; [done|]. rewrite Qmult_1_l, <- Zle_Qle. lia. }
  rewrite <- Hexact. apply Binary64.binary64_monotone.
  assert (Hh' : (inject_Z h <= inject_Z B)%Q) by (rewrite <- Zle_Qle; lia).
  assert (HB' : (0 <= inject_Z B)%Q) by (rewrite <- (Zle_Qle 0); lia).
  nra.
Qed.

Lemma calculateIntensity_cases (deadline : string)
    (totalWeeks hoursPerWeek weeksUntilDeadline : Z) :
  (0 <= totalWeeks)%Z -> (hoursPerWeek <= 20)%Z ->
  match TimeCommitment.calculateIntensity JS.binary64 deadline totalWeeks
          hoursPerWeek weeksUntilDeadline with
  | None => deadline = "" \/ totalWeeks = 0%Z
  | Some r =>
      deadline <> "" /\ (0 < totalWeeks)%Z
      /\ match TimeCommitment.level_of r with
         | TimeCommitment.unrealistic => (weeksUntilDeadline < totalWeeks)%Z
         | TimeCommitment.intensive => False
         | TimeCommitment.moderate =>
             (totalWeeks <= weeksUntilDeadline)%Z /\ (10 < hoursPerWeek)%Z
         | TimeCommitment.comfortable => (totalWeeks <= weeksUntilDeadline)%Z
         end
  end.
Proof.
  intros HT Hh. unfold TimeCommitment.calculateIntensity.
  destruct (negb (JS.truthy deadline) || negb (JS.truthy totalWeeks)) eqn:Ecut.
  { apply orb_true_iff in Ecut as [E|E]; apply negb_true_iff in E;
      unfold JS.truthy, JS.truthy_string, JS.truthy_Z in E;
      apply negb_false_iff in E.
    - left. by apply String.eqb_eq.
    - right. by apply Z.eqb_eq. }
  apply orb_false_iff in Ecut as [Ed Et]. apply negb_false_iff in Ed, Et.
  unfold JS.truthy, JS.truthy_string, JS.truthy_Z in Ed, Et.
  apply negb_true_iff in Ed, Et.
  apply String.eqb_neq in Ed. apply Z.eqb_neq in Et.
  destruct (weeksUntilDeadline <? totalWeeks)%Z eqn:Ew.
  { apply Z.ltb_lt in Ew. simpl. repeat split; [done|lia|done]. }
  apply Z.ltb_ge in Ew.
  pose proof (requiredHours_le totalWeeks weeksUntilDeadline hoursPerWeek 20) as H20.
  change (JS.Num (inject_Z 20)) with (JS.Num 20) in H20.
  rewrite H20 by (try lia; by vm_compute).
  destruct (number_gt _ (JS.Num 10)) eqn:E10; simpl.
  - repeat split; [done|lia|done|].
    destruct (Z_lt_le_dec 10 hoursPerWeek) as [|Hle]; [done|].
    pose proof (requiredHours_le totalWeeks weeksUntilDeadline hoursPerWeek 10) as H10.
    change (JS.Num (inject_Z 10)) with (JS.Num 10) in H10.
    rewrite H10 in E10 by (try lia; by vm_compute). done.
  - repeat split; [done|lia|done].
Qed.

Lemma totalWeeks_nonneg (selectedTools : option (list Wizard.tool)) :
  Forall (fun t => (0 <= default 0 (Wizard.learning_time_weeks t))%Z)
    (default [] selectedTools) ->
  (0 <= TimeCommitment.totalWeeks selectedTools)%Z.
Proof.
  unfold TimeCommitment.totalWeeks, getTotalLearningTime.
  destruct selectedTools as [ts|]; simpl; [|lia]. intros Hall.
  assert (Hgen : forall acc : Z, (0 <= acc)%Z ->
            (0 <= fold_left
                    (fun total tool =>
                       total + (Wizard.learning_time_weeks tool ||| 0))%Z ts acc)%Z);
    [|apply Hgen; lia].
  induction ts as [|t ts IH]; intros acc Hacc; simpl; [done|].
  apply Forall_cons in Hall as [Ht Hts]. apply IH; [done|].
  unfold JS.or_else. destruct (Wizard.learning_time_weeks t) as [w|]; simpl in *;
    [destruct (JS.truthy w)|]; lia.
Qed.

(** X23: within the range of the hours slider the plan is never rated
    [intensive]: when no selected tool has a negative learning time and
    the slider stands at 20 hours per week or less, [calculateIntensity]
    returns [null], [unrealistic], [moderate] or [comfortable], and with at
    most 10 hours per week never [moderate] either.  It returns [null]
    exactly when there is no deadline or nothing to learn, and
    [unrealistic] exactly when the deadline is nearer than the weeks to
    learn. *)
Theorem calculateIntensity_within_slider (deadline : string)
    (selectedTools : option (list Wizard.tool))
    (hoursPerWeek weeksUntilDeadline : Z) :
  Forall (fun t => (0 <= default 0 (Wizard.learning_time_weeks t))%Z)
    (default [] selectedTools) ->
  (hoursPerWeek <= 20)%Z ->
  match TimeCommitment.calculateIntensity JS.binary64 deadline
          (TimeCommitment.totalWeeks selectedTools) hoursPerWeek
          weeksUntilDeadline with
  | None => deadline = "" \/ TimeCommitment.totalWeeks selectedTools = 0%Z
  | Some r =>
      deadline <> "" /\ (0 < TimeCommitment.totalWeeks selectedTools)%Z
      /\ match TimeCommitment.level_of r with
         | TimeCommitment.unrealistic =>
             (weeksUntilDeadline < TimeCommitment.totalWeeks selectedTools)%Z
         | TimeCommitment.intensive => False
         | TimeCommitment.moderate =>
             (TimeCommitment.totalWeeks selectedTools <= weeksUntilDeadline)%Z
             /\ (10 < hoursPerWeek)%Z
         | TimeCommitment.comfortable =>
             (TimeCommitment.totalWeeks selectedTools <= weeksUntilDeadline)%Z
         end
  end.
Proof.
  intros Hweeks Hh.
  exact (calculateIntensity_cases deadline (TimeCommitment.totalWeeks selectedTools)
           hoursPerWeek weeksUntilDeadline (totalWeeks_nonneg selectedTools Hweeks) Hh).
Qed.

Lemma calculateIntensity_within_slider_witness :
  let picked := Some [Sample.card "Docker" "DevOps"; Sample.card "React" "Frontend"] in
  match TimeCommitment.calculateIntensity JS.binary64 "2027-03-01"
          (TimeCommitment.totalWeeks picked) 20 8 with
  | None => "2027-03-01" = "" \/ TimeCommitment.totalWeeks picked = 0%Z
  | Some r =>
      "2027-03-01" <> "" /\ (0 < TimeCommitment.totalWeeks picked)%Z
      /\ match TimeCommitment.level_of r with
         | TimeCommitment.unrealistic => (8 < TimeCommitment.totalWeeks picked)%Z
         | TimeCommitment.intensive => False
         | TimeCommitment.moderate =>
             (TimeCommitment.totalWeeks picked <= 8)%Z /\ (10 < 20)%Z
         | TimeCommitment.comfortable => (TimeCommitment.totalWeeks picked <= 8)%Z
         end
  end.
Proof.
  apply (calculateIntensity_within_slider "2027-03-01"
           (Some [Sample.card "Docker" "DevOps"; Sample.card "React" "Frontend"]) 20 8).
  - simpl. repeat (constructor; [simpl; lia|]). constructor.
  - lia.
Defined.

(** ** Saving a generated roadmap and opening it *)

Lemma only_strings_completed xs :
  only_strings xs = true -> completed_length xs = 0%nat.
Proof.
  unfold only_strings, completed_length.
  induction (default [] xs) as [|e es IH]; [done|]. simpl.
  intros [He Hes]%andb_true_iff. rewrite filter_cons.
  destruct e as [s|it]; [|done]. simpl. by apply IH.
Qed.

Lemma plain_completed r :
  plain r = true -> completedItems (item_counters r) = 0%nat.
Proof.
  rewrite item_counters_closed. unfold plain. simpl.
  induction (default [] (Roadmap.phases r)) as [|p ps IH]; [done|]. csimpl.
  intros [[Hl Hm]%andb_true_iff Hps]%andb_true_iff.
  unfold phase_done.
  rewrite (only_strings_completed _ Hl), (only_strings_completed _ Hm). simpl.
  by apply IH.
Qed.

Lemma forallb_imap {A B} (P : B -> bool) (Q : A -> bool) (g : nat -> A -> B) l :
  (forall i x, P (g i x) = Q x) -> forallb P (imap g l) = forallb Q l.
Proof.
  revert g. induction l as [|x l IH]; intros g Hg; [done|].
  rewrite imap_cons. simpl. rewrite Hg. f_equal. apply IH. intros i y. apply Hg.
Qed.

Lemma plain_create_phases d :
  plain d = true ->
  forallb (fun r => only_strings (Resource.learning_objectives r)
                    && only_strings (Resource.milestones r))
    (default [] (Roadmap.learningResources d)) = true ->
  plain (create_phases d) = true.
Proof.
  intros Hd Hr. unfold create_phases.
  destruct (no_phases d && has_resources d); [|done].
  unfold plain. simpl. rewrite <- Hr. apply forallb_imap.
  intros i r. unfold phase_of_resource. simpl. unfold only_strings.
  by destruct (Resource.learning_objectives r), (Resource.milestones r).
Qed.

Lemma holds_undefined_roadmapToSave (selectedTools : list Saver.tool)
    (generated : Adapter.response) :
  RoadmapData.holds_undefined (Saver.roadmapToSave selectedTools generated)
  = negb (Saver.numbered generated).
Proof.
  unfold RoadmapData.holds_undefined. simpl.
  unfold Saver.numbered, Saver.learningResources.
  destruct (Adapter.phases generated) as [ps|]; simpl.
  - induction ps as [|p ps IH]; [done|]. simpl. rewrite IH.
    destruct (Phase.phase_number p), (Phase.duration_weeks p); done.
  - assert (Hjson : forall rs : list Resource.t,
              existsb (fun r => match RoadmapData.phase_number r,
                                      RoadmapData.duration_weeks r with
                                | Undefined, _ | _, Undefined => true
                                | _, _ => false
                                end) (map RoadmapData.of_json rs) = false).
    { induction rs as [|r rs IH]; [done|]. simpl. rewrite IH.
      by destruct (Resource.phase_number r), (Resource.duration_weeks r). }
    destruct (Adapter.learning_resources generated); apply Hjson.
Qed.

Lemma kept_plain (rs : list RoadmapData.resource) :
  forallb (fun r => only_strings (Resource.learning_objectives r)
                    && only_strings (Resource.milestones r))
    (map RoadmapData.kept rs)
  = forallb (fun r => only_strings (RoadmapData.learning_objectives r)
                      && only_strings (RoadmapData.milestones r)) rs.
Proof. induction rs as [|r rs IH]; [done|]. simpl. by rewrite IH. Qed.

(** X24: [handleSaveRoadmap] writes a roadmap that can be opened, or
    nothing.  With the backend reachable, a signed-in user and a new
    document id: if every generated phase has a [phase_number] and a
    [duration_weeks], the handler clears the error, records the new id,
    and the document is found under that id with the user's [userId] and a
    stored progress of 0; [fetchRoadmap]'s normalisation of it raises
    nothing and yields the shape the detail view relies on, with a
    computed progress of 0, as stored, when the generated checklists are
    bare strings.  If some generated phase lacks one of the two numbers,
    the resource extracted from it holds [undefined], the store refuses
    the data, nothing is written and the handler reports an error.  A
    signed-out user or a missing roadmap is reported without a write. *)
Theorem saved_roadmap_opens (db : Firestore.t) (newId : string) (now : Timestamp)
    (userId : string) (selectedTools : list Saver.tool)
    (generated : Adapter.response) (st : Saver.State)
    (stamp : nat -> string) (k : nat) :
  Firestore.available db = true ->
  newId ∉ Roadmap.doc_id <$> Firestore.documents db ->
  (if Saver.numbered generated
   then
     (Saver.handleSaveRoadmap db newId now (Some userId) selectedTools
        (Some generated) st).1
     = {| Saver.savingRoadmap := false; Saver.error := None;
          Saver.currentRoadmapId := Some newId |}
     /\ exists d y k',
         getRoadmapById
           (Saver.handleSaveRoadmap db newId now (Some userId) selectedTools
              (Some generated) st).2 newId
         = {| get_success := true; get_roadmap := Some d; get_error := None |}
         /\ Roadmap.id d = newId
         /\ Roadmap.userId d = userId
         /\ Roadmap.progress d = Some (JS.Num 0)
         /\ normalize stamp k d = Ok (y, k')
         /\ loaded y = true
         /\ (Saver.generated_plain generated = true ->
             calculateProgressFromRoadmap JS.binary64 y = JS.Num 0)
   else
     (Saver.handleSaveRoadmap db newId now (Some userId) selectedTools
        (Some generated) st).2 = db
     /\ (exists message,
           (Saver.handleSaveRoadmap db newId now (Some userId) selectedTools
              (Some generated) st).1
           = {| Saver.savingRoadmap := false;
                Saver.error := Some message;
                Saver.currentRoadmapId := Saver.currentRoadmapId st |}))
  /\ Saver.handleSaveRoadmap db newId now None selectedTools (Some generated) st
     = ({| Saver.savingRoadmap := Saver.savingRoadmap st;
           Saver.error := Some "Please login to save your roadmap";
           Saver.currentRoadmapId := Saver.currentRoadmapId st |}, db)
  /\ Saver.handleSaveRoadmap db newId now (Some userId) selectedTools None st
     = ({| Saver.savingRoadmap := Saver.savingRoadmap st;
           Saver.error := Some "No roadmap to save";
           Saver.currentRoadmapId := Saver.currentRoadmapId st |}, db).
Proof.
  intros Hup Hfresh. split; [|by split].
  unfold Saver.handleSaveRoadmap.
  rewrite saveRoadmap_cases, Hup, holds_undefined_roadmapToSave. simpl.
  destruct (Saver.numbered generated); simpl; [|by eauto].
  split; [done|].
  unfold getRoadmapById. simpl.
  rewrite find_app_r by by apply find_id_None. simpl.
  rewrite bool_decide_true by done.
  set (d := {| Roadmap.doc_id := newId |}).
  destruct (normalize stamp k d) as [[y k']|e] eqn:En.
  - exists d, y, k'. do 5 (split; [done|]).
    split; [by eapply normalize_loaded|].
    intros Hplain. unfold Saver.generated_plain in Hplain.
    apply andb_true_iff in Hplain as [Hp Hr].
    assert (Hd : plain (create_phases d) = true).
    { apply plain_create_phases.
      - unfold plain. simpl. by destruct (Adapter.phases generated).
      - simpl. by rewrite kept_plain. }
    destruct (normalize_counters stamp k d y k' En) as (Hc & _ & _).
    pose proof (plain_completed _ Hd) as Hzero. rewrite <- Hc in Hzero.
    unfold calculateProgressFromRoadmap. fold (item_counters y).
    destruct (Nat.eq_dec (totalItems (item_counters y)) 0) as [E0|E0].
    + unfold percentage. by rewrite E0.
    + rewrite percentage_percent by lia. rewrite Hzero.
      by rewrite percent_none by lia.
  - exfalso. assert (Hthrow : exists e, normalize stamp k d = Throw e) by by exists e.
    by apply normalize_throws_iff in Hthrow as [Hnone _].
Qed.

Lemma saved_roadmap_opens_witness :
  (if Saver.numbered Draft.generated
   then
     (Saver.handleSaveRoadmap Draft.empty_store "r9" Draft.now (Some "u1") Draft.tools
        (Some Draft.generated) Draft.signed_out).1
     = {| Saver.savingRoadmap := false; Saver.error := None;
          Saver.currentRoadmapId := Some "r9" |}
     /\ exists d y k',
         getRoadmapById
           (Saver.handleSaveRoadmap Draft.empty_store "r9" Draft.now (Some "u1")
              Draft.tools (Some Draft.generated) Draft.signed_out).2 "r9"
         = {| get_success := true; get_roadmap := Some d; get_error := None |}
         /\ Roadmap.id d = "r9"
         /\ Roadmap.userId d = "u1"
         /\ Roadmap.progress d = Some (JS.Num 0)
         /\ normalize Sample.stamp 0 d = Ok (y, k')
         /\ loaded y = true
         /\ (Saver.generated_plain Draft.generated = true ->
             calculateProgressFromRoadmap JS.binary64 y = JS.Num 0)
   else
     (Saver.handleSaveRoadmap Draft.empty_store "r9" Draft.now (Some "u1") Draft.tools
        (Some Draft.generated) Draft.signed_out).2 = Draft.empty_store
     /\ (exists message,
           (Saver.handleSaveRoadmap Draft.empty_store "r9" Draft.now (Some "u1")
              Draft.tools (Some Draft.generated) Draft.signed_out).1
           = {| Saver.savingRoadmap := false;
                Saver.error := Some message;
                Saver.currentRoadmapId := Saver.currentRoadmapId Draft.signed_out |}))
  /\ Saver.handleSaveRoadmap Draft.empty_store "r9" Draft.now None Draft.tools
       (Some Draft.generated) Draft.signed_out
     = ({| Saver.savingRoadmap := Saver.savingRoadmap Draft.signed_out;
           Saver.error := Some "Please login to save your roadmap";
           Saver.currentRoadmapId := Saver.currentRoadmapId Draft.signed_out |},
        Draft.empty_store)
  /\ Saver.handleSaveRoadmap Draft.empty_store "r9" Draft.now (Some "u1") Draft.tools
       None Draft.signed_out
     = ({| Saver.savingRoadmap := Saver.savingRoadmap Draft.signed_out;
           Saver.error := Some "No roadmap to save";
           Saver.currentRoadmapId := Saver.currentRoadmapId Draft.signed_out |},
        Draft.empty_store).
Proof.
  apply (saved_roadmap_opens Draft.empty_store "r9" Draft.now "u1"
           Draft.tools Draft.generated Draft.signed_out Sample.stamp 0).
  - reflexivity.
  - simpl. apply not_elem_of_nil.
Defined.

(** A generated phase without [duration_weeks]: the save is refused and
    the collection stays as it was. *)
Example save_unnumbered :
  Saver.numbered Draft.unnumbered = false
  /\ (Saver.handleSaveRoadmap Sample.store "e" Draft.now (Some "u1") Draft.tools
        (Some Draft.unnumbered) Draft.signed_out).2 = Sample.store
  /\ Saver.currentRoadmapId
       (Saver.handleSaveRoadmap Sample.store "e" Draft.now (Some "u1") Draft.tools
          (Some Draft.unnumbered) Draft.signed_out).1 = None.
Proof. repeat split; by vm_compute. Qed.

Lemma app_not_empty (s t : string) : t <> "" -> s +:+ t <> "".
Proof. intros Ht. destruct s; [done|]. simpl. discriminate. Qed.

Lemma or_else_truthy (o : option string) (d : string) :
  d <> "" -> o ||| d <> "".
Proof.
  intros Hd. unfold JS.or_else, JS.truthy, JS.truthy_string.
  destruct o as [s|]; [|done].
  destruct (String.eqb s "") eqn:E; simpl; [done|]. by apply String.eqb_neq.
Qed.

(** X25: the tools [handleSaveRoadmap] writes are complete: every saved
    tool has a non-empty name, category, difficulty and estimated time;
    the stored [currentTool] is [null] or the name of the first saved
    tool; and a new roadmap starts with no completed tool. *)
Theorem roadmapToSave_tools (selectedTools : list Saver.tool)
    (generated : Adapter.response) :
  let r := Saver.roadmapToSave selectedTools generated in
  (exists saved,
     RoadmapData.selectedTools r = Some saved
     /\ length saved = length selectedTools
     /\ Forall (fun t => Tool.name t <> "" /\ Tool.category t <> ""
                         /\ Tool.difficulty t <> "" /\ Tool.estimatedTime t <> "")
          saved
     /\ (RoadmapData.currentTool r = None
         \/ RoadmapData.currentTool r = Tool.name <$> head saved))
  /\ RoadmapData.completedTools r = Some [].
Proof.
  simpl. split; [|done]. eexists. split; [reflexivity|].
  split; [by rewrite length_map|]. split.
  - apply Forall_forall. intros t (t0 & -> & _)%list_elem_of_fmap.
    unfold Saver.saved_tool. simpl.
    repeat split; try (by repeat apply or_else_truthy).
    destruct (Saver.learning_time_weeks t0) as [w|];
      [destruct (JS.truthy w)|]; try (by repeat apply or_else_truthy).
    by apply app_not_empty.
  - destruct selectedTools as [|first rest]; [by left|]. simpl.
    unfold JS.or_else.
    destruct (Saver.name first) as [n|]; [destruct (JS.truthy n); [by right|]|];
      (destruct (Saver.tool_name first) as [m|];
       [destruct (JS.truthy m); [by right|by left] | by left]).
Qed.

(** X26: [adaptToolData] fills every gap: [null] stays [null], and for
    every tool object each of the four fields of the result is a non-empty
    string. *)
Theorem adaptToolData_complete (tool : option ToolAdapter.raw) :
  match ToolAdapter.adaptToolData tool with
  | None => tool = None
  | Some a =>
      is_Some tool
      /\ ToolAdapter.a_name a <> "" /\ ToolAdapter.a_category a <> ""
      /\ ToolAdapter.a_difficulty a <> "" /\ ToolAdapter.a_estimatedTime a <> ""
  end.
Proof.
  destruct tool as [t|]; [|done]. simpl.
  repeat split; by repeat apply or_else_truthy.
Qed.

(** ** Sessions of the flat view *)

Lemma JSSet_of_array_within (xs : list string) (x : string) :
  x ∈ JSSet.of_array xs -> x ∈ xs.
Proof.
  unfold JSSet.of_array.
  assert (Hgen : forall acc, x ∈ fold_left JSSet.add xs acc -> x ∈ acc \/ x ∈ xs).
  { induction xs as [|y ys IH]; intros acc; simpl; [by left|].
    intros [Hacc|Hys]%IH; [|right; by right].
    unfold JSSet.add in Hacc. destruct (JSSet.has acc y); [by left|].
    apply elem_of_app in Hacc as [?| ->%list_elem_of_singleton]; [by left|right; by left]. }
  intros [Hnil|?]%Hgen; [|done]. by apply elem_of_nil in Hnil.
Qed.

Lemma clicks_invariant (rnd : Q -> Q) (sel : list Tool.t) (cs : list (string * bool))
    (st : FlatDetail.State) :
  Roadmap.selectedTools (FlatDetail.roadmap st) = Some sel ->
  NoDup (FlatDetail.completedItems st) ->
  (forall x, x ∈ FlatDetail.completedItems st -> x ∈ Tool.name <$> sel) ->
  Forall (fun c => c.1 ∈ Tool.name <$> sel) cs ->
  exists st',
    clicks rnd cs st = Ok st'
    /\ Roadmap.selectedTools (FlatDetail.roadmap st') = Some sel
    /\ NoDup (FlatDetail.completedItems st')
    /\ (forall x, x ∈ FlatDetail.completedItems st' -> x ∈ Tool.name <$> sel).
Proof.
  revert st. induction cs as [|[toolName ok] cs IH]; intros st Hsel Hnd Hsub Hcs.
  { by exists st. }
  apply Forall_cons in Hcs as [Hc Hcs]. simpl in Hc. simpl.
  unfold FlatDetail.handleToggleComplete, FlatDetail.payload. rewrite Hsel. simpl.
  destruct ok; apply IH; simpl; try done.
  - by apply newCompleted_NoDup.
  - by apply newCompleted_within.
Qed.

(** X27: whatever the user clicks in the flat view, the completed set
    stays a set within the selection.  From the state [fetchRoadmapDetail]
    sets up for a document whose completed tools are among its selected
    tools, any sequence of clicks on tools of the selection, with saves
    that succeed or fail, raises nothing and leads to a state whose
    completed set has no duplicate, holds names of selected tools only,
    and is no larger than the selection (so that the progress cannot
    exceed 100). *)
Theorem flat_session_invariant (rnd : Q -> Q) (d : Roadmap.t) (sel : list Tool.t)
    (cs : list (string * bool)) :
  Roadmap.selectedTools d = Some sel ->
  (forall x, x ∈ default [] (Roadmap.completedTools d) -> x ∈ Tool.name <$> sel) ->
  Forall (fun c => c.1 ∈ Tool.name <$> sel) cs ->
  exists st,
    clicks rnd cs (fetchRoadmapDetail d) = Ok st
    /\ Roadmap.selectedTools (FlatDetail.roadmap st) = Some sel
    /\ NoDup (FlatDetail.completedItems st)
    /\ (forall x, x ∈ FlatDetail.completedItems st -> x ∈ Tool.name <$> sel)
    /\ (length (FlatDetail.completedItems st) <= length sel)%nat.
Proof.
  intros Hsel Hsub Hcs.
  destruct (clicks_invariant rnd sel cs (fetchRoadmapDetail d)) as (st & Hrun & Hs & Hnd & Hin);
    try done.
  - simpl. destruct (Roadmap.completedTools d); [apply JSSet_of_array_NoDup|apply NoDup_nil_2].
  - simpl. intros x Hx. destruct (Roadmap.completedTools d) as [done|]; simpl in *.
    + by apply Hsub, JSSet_of_array_within.
    + by apply elem_of_nil in Hx.
  - exists st. do 4 (split; [done|]).
    rewrite <- (length_fmap Tool.name sel).
    by apply submseteq_length, NoDup_submseteq.
Qed.

Lemma flat_session_invariant_witness :
  exists st,
    clicks JS.binary64 [("B", true); ("A", false); ("B", true); ("C", true)]
      (fetchRoadmapDetail (FlatDetail.roadmap (Sample.flat Sample.abc ["A"; "A"])))
    = Ok st
    /\ Roadmap.selectedTools (FlatDetail.roadmap st) = Some Sample.abc
    /\ NoDup (FlatDetail.completedItems st)
    /\ (forall x, x ∈ FlatDetail.completedItems st -> x ∈ Tool.name <$> Sample.abc)
    /\ (length (FlatDetail.completedItems st) <= length Sample.abc)%nat.
Proof.
  apply (flat_session_invariant JS.binary64
           (FlatDetail.roadmap (Sample.flat Sample.abc ["A"; "A"])) Sample.abc).
  - reflexivity.
  - intros x Hx. simpl in Hx.
    apply elem_of_cons in Hx as [->|Hx]; [|apply elem_of_cons in Hx as [->|Hx]].
    + refine (bool_decide_unpack _ _). vm_compute. exact I.
    + refine (bool_decide_unpack _ _). vm_compute. exact I.
    + by apply elem_of_nil in Hx.
  - repeat (constructor; [refine (bool_decide_unpack _ _); vm_compute; exact I|]).
    constructor.
Defined.
